(** * polls: a shallow embedding of the poll back end

    The development follows the layout of the Python package:
    [polls/models.py], [polls/permissions.py], [polls/serializers.py],
    [polls/views.py] and [polls/urls.py].  Database tables are lists of rows, a request handler
    is a computation over the store that may raise, and
    [transaction.atomic] restores the store it started from when its body
    raises. *)

From Stdlib Require Import ZArith List String Ascii Bool Lia Permutation.
From Stdlib Require Import DecimalString.
Import ListNotations.

Local Open Scope Z_scope.
Local Open Scope string_scope.

(** ** Exceptions and stateful computations *)

(** The exceptions the package raises itself or lets escape from the
    framework. *)
Inductive exn : Type :=
| ValidationError (detail : string)  (* rest_framework.exceptions.ValidationError *)
| PermissionDenied                   (* a permission class answered False *)
| Http404                            (* get_object_or_404 found nothing *)
| DoesNotExist                       (* Model.DoesNotExist of queryset.get *)
| IntegrityError                     (* django.db.utils.IntegrityError *)
| ValueError (msg : string)
| TypeError (msg : string).

(** A computation over a state [S]: it returns a value or raises, and in
    both cases leaves a state behind (the writes done before a raise stay
    until an enclosing [atomic] undoes them). *)
Definition M (S A : Type) : Type := S -> (exn + A) * S.

Definition ret {S A} (a : A) : M S A := fun s => (inr a, s).

Definition raise {S A} (e : exn) : M S A := fun s => (inl e, s).

Definition bind {S A B} (m : M S A) (k : A -> M S B) : M S B :=
  fun s =>
    match m s with
    | (inr a, s') => k a s'
    | (inl e, s') => (inl e, s')
    end.

Declare Scope db_scope.
Delimit Scope db_scope with db.
Notation "x <- m ;; k" := (bind m (fun x => k))
  (at level 100, m at next level, right associativity) : db_scope.
Notation "m ;;; k" := (bind m (fun _ => k))
  (at level 100, right associativity) : db_scope.
Local Open Scope db_scope.

Definition gets {S A} (f : S -> A) : M S A := fun s => (inr (f s), s).

Definition modify {S} (f : S -> S) : M S unit := fun s => (inr tt, f s).

(** A pure check that can raise, run inside a computation. *)
Definition lift {S A} (r : exn + A) : M S A := fun s => (r, s).

(** A check that reads the state and can raise. *)
Definition reads {S A} (f : S -> exn + A) : M S A := fun s => (f s, s).

(** [try: m except e: raise h e] for the exceptions [h] translates. *)
Definition except {S A} (m : M S A) (h : exn -> exn) : M S A :=
  fun s =>
    match m s with
    | (inl e, s') => (inl (h e), s')
    | ok => ok
    end.

(** [transaction.atomic]: when the body raises, the writes of the body are
    rolled back and the exception goes on. *)
Definition atomic {S A} (m : M S A) : M S A :=
  fun s =>
    match m s with
    | (inl e, _) => (inl e, s)
    | ok => ok
    end.

(** [for x in xs: body x], collecting what the bodies return. *)
Fixpoint for_each {S A B} (body : A -> M S B) (xs : list A) : M S (list B) :=
  match xs with
  | [] => ret []
  | x :: rest =>
      b <- body x ;;
      bs <- for_each body rest ;;
      ret (b :: bs)
  end.

(** The same loop for a body that only checks. *)
Fixpoint for_each_pure {A B} (body : A -> exn + B) (xs : list A) : exn + list B :=
  match xs with
  | [] => inr []
  | x :: rest =>
      match body x with
      | inl e => inl e
      | inr b =>
          match for_each_pure body rest with
          | inl e => inl e
          | inr bs => inr (b :: bs)
          end
      end
  end.

(** The loop of a list serializer over the items sent: the validation
    error of an item is kept and the loop goes on, any other exception
    leaves the loop at once; at the end the validation errors are raised
    as one, of which [detail] keeps that of the first item refused. *)
Fixpoint for_each_collect {A B} (body : A -> exn + B) (xs : list A) : exn + list B :=
  match xs with
  | [] => inr []
  | x :: rest =>
      match body x with
      | inl (ValidationError detail) =>
          match for_each_collect body rest with
          | inl (ValidationError _) | inr _ => inl (ValidationError detail)
          | inl e => inl e
          end
      | inl e => inl e
      | inr b =>
          match for_each_collect body rest with
          | inl e => inl e
          | inr bs => inr (b :: bs)
          end
      end
  end.

(** ** Python and Django primitives *)

(** [str(n)] of an [int]. *)
Definition str (n : Z) : string := NilZero.string_of_int (Z.to_int n).

(** Truth value of an [int] or [None]. *)
Definition truthy_int (v : option Z) : bool :=
  match v with
  | Some n => negb (Z.eqb n 0)
  | None => false
  end.

(** Truth value of a [str] or [None]. *)
Definition truthy_str (v : option string) : bool :=
  match v with
  | Some s => negb (String.eqb s "")
  | None => false
  end.

(** Truth value of a list. *)
Definition truthy_list {A} (l : list A) : bool :=
  match l with
  | [] => false
  | _ :: _ => true
  end.

Definition option_eqb {A} (eqb : A -> A -> bool) (x y : option A) : bool :=
  match x, y with
  | Some a, Some b => eqb a b
  | None, None => true
  | _, _ => false
  end.

(** [c.isspace()]; a text is a string of characters with code points
    below 256, so it has no surrogate character. *)
Definition isspace (c : ascii) : bool :=
  let n := nat_of_ascii c in
  (Nat.leb 9 n && Nat.leb n 13) || (Nat.leb 28 n && Nat.leb n 32)
  || Nat.eqb n 133 || Nat.eqb n 160.

Fixpoint lstrip (v : string) : string :=
  match v with
  | EmptyString => EmptyString
  | String c rest => if isspace c then lstrip rest else v
  end.

Fixpoint rstrip (v : string) : string :=
  match v with
  | EmptyString => EmptyString
  | String c rest =>
      match rstrip rest with
      | EmptyString => if isspace c then EmptyString else String c EmptyString
      | kept => String c kept
      end
  end.

(** [v.strip()] *)
Definition strip (v : string) : string := rstrip (lstrip v).

(** ['\x00' in v] *)
Fixpoint has_null_character (v : string) : bool :=
  match v with
  | EmptyString => false
  | String c rest => Ascii.eqb c zero || has_null_character rest
  end.

Module CharField.

(** [serializers.CharField.run_validation] of a string, with
    trim_whitespace as it is by default: a value that is blank once
    stripped is the empty string or, where blank is not allowed, refused;
    otherwise the stripped value goes through the validators of the
    length and of null characters. *)
Definition run_validation (allow_blank : bool) (max_length : option nat) (data : string)
    : exn + string :=
  let value := strip data in
  if String.eqb value ""
  then
    if allow_blank then inr "" else inl (ValidationError "This field may not be blank.")
  else if (match max_length with
           | Some n => Nat.ltb n (String.length value)
           | None => false
           end)
  then inl (ValidationError
         ("Ensure this field has no more than "
          ++ match max_length with
             | Some n => NilEmpty.string_of_uint (Nat.to_uint n)
             | None => ""
             end
          ++ " characters."))
  else if has_null_character value
  then inl (ValidationError "Null characters are not allowed.")
  else inr value.

End CharField.

(** The primary key a database gives a new row.  The model takes the key
    above every key of the table; a database takes one above every key it
    has given so far, which after deletions can be a larger one.  What is
    stated of a new key below is that it is new to the table. *)
Definition next_id (ids : list Z) : Z := 1 + fold_right Z.max 0 ids.

(** How the ORM turns the value of a [pk=...] lookup, a string taken from
    the URL, into an integer key ([int(value)]); [None] stands for the
    [ValueError] of a value that is not a number.  The conversion belongs
    to the framework and is left open; [decimal_pk] below is the instance
    used to run the handlers. *)
Class PkConversion : Type := to_python : string -> option Z.

(** Signed decimal literals. *)
Definition decimal_pk : PkConversion :=
  fun s => option_map Z.of_int (NilZero.int_of_string s).

(** ** polls/models.py *)

Module UniqueTogetherValidator.

(** [if self.__class__.objects.filter(...).exists(): raise ValueError],
    over the table of the class; [query] is the row test of the filter. *)
Definition _validate_unique_together_for_null_fields {Row : Type}
    (query : Row -> bool) : M (list Row) unit :=
  objects <- gets (fun rows => rows) ;;
  if existsb query objects
  then raise (ValueError "Value not unique")
  else ret tt.

End UniqueTogetherValidator.

Module Poll.

(** Dates are points on an integer time line. *)
Record t : Type := {
  id : Z;
  name : string;
  start_date : Z;
  end_date : Z;
  description : string;
  is_published : bool
}.

End Poll.

Module Question.

Module QuestionType.

Inductive t : Type := text | single_choice | multi_choice.

Definition eqb (a b : t) : bool :=
  match a, b with
  | text, text | single_choice, single_choice | multi_choice, multi_choice => true
  | _, _ => false
  end.

End QuestionType.

(** [poll_id] is the column of the foreign key [poll]. *)
Record t : Type := {
  id : Z;
  poll_id : Z;
  text : string;
  type : QuestionType.t
}.

Definition has_choice (self : t) : bool :=
  existsb (QuestionType.eqb (type self))
    [QuestionType.multi_choice; QuestionType.single_choice].

(** unique_together = (('poll', 'text'),) *)
Definition same_unique_key (a b : t) : bool :=
  Z.eqb (poll_id a) (poll_id b) && String.eqb (text a) (text b).

End Question.

Module ChoiceAnswer.

Record t : Type := {
  id : Z;
  question_id : Z;
  text : string
}.

End ChoiceAnswer.

Module Answer.

(** [id] is [None] until the instance has been saved; [choice] holds the
    keys of the linked [ChoiceAnswer] rows (the many-to-many relation). *)
Record t : Type := {
  id : option Z;
  question_id : Z;
  text : option string;
  choice : list Z;
  user_id : option Z;
  anonymous_id : option Z
}.

Definition with_id (self : t) (k : Z) : t :=
  {| id := Some k; question_id := question_id self; text := text self;
     choice := choice self; user_id := user_id self;
     anonymous_id := anonymous_id self |}.

Definition with_choice (self : t) (cs : list Z) : t :=
  {| id := id self; question_id := question_id self; text := text self;
     choice := cs; user_id := user_id self;
     anonymous_id := anonymous_id self |}.

Definition keys (rows : list t) : list Z :=
  flat_map (fun r => match id r with Some k => [k] | None => [] end) rows.

Definition has_id (k : Z) (r : t) : bool := option_eqb Z.eqb (id r) (Some k).

(** [models.Model.save]: INSERT for an instance without a key,
    UPDATE (or INSERT when no row has the key) otherwise. *)
Definition Model_save (self : t) : M (list t) t :=
  rows <- gets (fun rows => rows) ;;
  match id self with
  | None =>
      let row := with_id self (next_id (keys rows)) in
      modify (fun rows => rows ++ [row])%list ;;;
      ret row
  | Some k =>
      (if existsb (has_id k) rows
       then modify (map (fun r => if has_id k r then self else r))
       else modify (fun rows => rows ++ [self])%list) ;;;
      ret self
  end.

(** The filter of [save]: [user], [anonymous_id] and [question] all equal
    to those of [self], a [None] matching the rows where the column is
    NULL. *)
Definition same_voter_and_question (self row : t) : bool :=
  option_eqb Z.eqb (user_id row) (user_id self)
  && option_eqb Z.eqb (anonymous_id row) (anonymous_id self)
  && Z.eqb (question_id row) (question_id self).

Definition save (self : t) : M (list t) t :=
  if (match user_id self with Some _ => true | None => false end)
     && truthy_int (anonymous_id self)
  then raise (ValueError "Cant use user auth and anonymous token both")
  else
    UniqueTogetherValidator._validate_unique_together_for_null_fields
      (same_voter_and_question self) ;;;
    Model_save self.

(** [Answer.objects.create(...)]: a new instance, saved. *)
Definition objects_create (question : Z) (text : option string)
    (user anonymous_id : option Z) : M (list t) t :=
  save {| id := None; question_id := question; text := text; choice := [];
          user_id := user; anonymous_id := anonymous_id |}.

(** [self.choice.add(...)]: links to the objects not linked yet, each
    once. *)
Definition add_links (linked objs : list Z) : list Z :=
  fold_left (fun acc c => if existsb (Z.eqb c) acc then acc else acc ++ [c])%list
    objs linked.

Definition choice_add (self : t) (objs : list Z) : M (list t) t :=
  let self' := with_choice self (add_links (choice self) objs) in
  modify (map (fun r => if option_eqb Z.eqb (id r) (id self) then self' else r)) ;;;
  ret self'.

End Answer.

(** ** The database *)

Module db.

Record Store : Type := {
  polls : list Poll.t;
  questions : list Question.t;
  choiceanswers : list ChoiceAnswer.t;
  answers : list Answer.t
}.

Definition set_questions (s : Store) (qs : list Question.t) : Store :=
  {| polls := polls s; questions := qs; choiceanswers := choiceanswers s;
     answers := answers s |}.

Definition set_choiceanswers (s : Store) (cs : list ChoiceAnswer.t) : Store :=
  {| polls := polls s; questions := questions s; choiceanswers := cs;
     answers := answers s |}.

Definition set_answers (s : Store) (rows : list Answer.t) : Store :=
  {| polls := polls s; questions := questions s;
     choiceanswers := choiceanswers s; answers := rows |}.

(** A computation on the table of answers, run on the store. *)
Definition on_answers {A} (m : M (list Answer.t) A) : M Store A :=
  fun s => let (r, rows) := m (answers s) in (r, set_answers s rows).

(** [Poll.objects.all().get(pk=pk)] for a string [pk]. *)
Definition get_poll `{conv : PkConversion} (pk : string) (s : Store) : exn + Poll.t :=
  match to_python pk with
  | None => inl (ValueError "Field 'id' expected a number")
  | Some k =>
      match find (fun p => Z.eqb (Poll.id p) k) (polls s) with
      | Some p => inr p
      | None => inl DoesNotExist
      end
  end.

(** [django.shortcuts.get_object_or_404(Poll.objects.all(), pk=pk)]. *)
Definition get_poll_or_404 `{conv : PkConversion} (pk : string) (s : Store) : exn + Poll.t :=
  match get_poll pk s with
  | inl DoesNotExist => inl Http404
  | r => r
  end.

(** [question.poll], the row the foreign key points to. *)
Definition poll_of (q : Question.t) (s : Store) : exn + Poll.t :=
  match find (fun p => Z.eqb (Poll.id p) (Question.poll_id q)) (polls s) with
  | Some p => inr p
  | None => inl DoesNotExist
  end.

(** [poll.questions.all()]. *)
Definition poll_questions (p : Poll.t) (s : Store) : list Question.t :=
  filter (fun q => Z.eqb (Question.poll_id q) (Poll.id p)) (questions s).

(** [question.choices.all()]. *)
Definition question_choices (q : Question.t) (s : Store) : list ChoiceAnswer.t :=
  filter (fun c => Z.eqb (ChoiceAnswer.question_id c) (Question.id q))
    (choiceanswers s).

(** [Question.objects.create(text=..., type=..., poll=poll)]; the table is
    unique on (poll, text). *)
Definition create_question (poll : Poll.t) (text : string)
    (type : Question.QuestionType.t) : M Store Question.t :=
  s <- gets (fun s => s) ;;
  let q := {| Question.id := next_id (map Question.id (questions s));
              Question.poll_id := Poll.id poll;
              Question.text := text; Question.type := type |} in
  if existsb (Question.same_unique_key q) (questions s)
  then raise IntegrityError
  else modify (fun s => set_questions s (questions s ++ [q])%list) ;;; ret q.

(** [question.save()] of a stored question whose fields were changed. *)
Definition save_question (q : Question.t) : M Store Question.t :=
  s <- gets (fun s => s) ;;
  if existsb (fun r => negb (Z.eqb (Question.id r) (Question.id q))
                       && Question.same_unique_key q r) (questions s)
  then raise IntegrityError
  else
    (if existsb (fun r => Z.eqb (Question.id r) (Question.id q)) (questions s)
     then modify (fun s => set_questions s
                   (map (fun r => if Z.eqb (Question.id r) (Question.id q)
                                  then q else r) (questions s)))
     else modify (fun s => set_questions s (questions s ++ [q])%list)) ;;;
    ret q.

(** One INSERT of [ChoiceAnswer(text=text, question=question)]; the table
    is unique on (text, question). *)
Definition insert_choice (question : Question.t) (text : string) : M Store ChoiceAnswer.t :=
  s <- gets (fun s => s) ;;
  let c := {| ChoiceAnswer.id := next_id (map ChoiceAnswer.id (choiceanswers s));
              ChoiceAnswer.question_id := Question.id question;
              ChoiceAnswer.text := text |} in
  if existsb (fun r => String.eqb (ChoiceAnswer.text r) text
                       && Z.eqb (ChoiceAnswer.question_id r) (Question.id question))
       (choiceanswers s)
  then raise IntegrityError
  else modify (fun s => set_choiceanswers s (choiceanswers s ++ [c])%list) ;;; ret c.

(** [ChoiceAnswer.objects.bulk_create([...])]: one statement, which
    inserts all the rows or none. *)
Definition bulk_create_choices (question : Question.t) (texts : list string)
    : M Store (list ChoiceAnswer.t) :=
  atomic (for_each (insert_choice question) texts).

(** [choice.delete()]: the row goes, and with it its links from answers. *)
Definition delete_choice (c : ChoiceAnswer.t) : M Store unit :=
  modify (fun s =>
    {| polls := polls s; questions := questions s;
       choiceanswers :=
         filter (fun r => negb (Z.eqb (ChoiceAnswer.id r) (ChoiceAnswer.id c)))
           (choiceanswers s);
       answers :=
         map (fun a => Answer.with_choice a
                (filter (fun k => negb (Z.eqb k (ChoiceAnswer.id c))) (Answer.choice a)))
           (answers s) |}).

(** [question.delete()]: on_delete=CASCADE takes the choices of the
    question and its answers along. *)
Definition delete_question (q : Question.t) : M Store unit :=
  s <- gets (fun s => s) ;;
  for_each delete_choice (question_choices q s) ;;;
  modify (fun s =>
    {| polls := polls s;
       questions := filter (fun r => negb (Z.eqb (Question.id r) (Question.id q)))
                      (questions s);
       choiceanswers := choiceanswers s;
       answers := filter (fun a => negb (Z.eqb (Answer.question_id a) (Question.id q)))
                    (answers s) |}).

Definition set_polls (s : Store) (ps : list Poll.t) : Store :=
  {| polls := ps; questions := questions s; choiceanswers := choiceanswers s;
     answers := answers s |}.

(** [Poll(...).save()] of a new poll: [start_date] has auto_now_add and
    takes the time of the insert, [now]. *)
Definition create_poll (now : Z) (name : string) (end_date : Z) (description : string)
    (is_published : bool) : M Store Poll.t :=
  s <- gets (fun s => s) ;;
  let p := {| Poll.id := next_id (map Poll.id (polls s)); Poll.name := name;
              Poll.start_date := now; Poll.end_date := end_date;
              Poll.description := description; Poll.is_published := is_published |} in
  modify (fun s => set_polls s (polls s ++ [p])%list) ;;; ret p.

(** [poll.save()] of a stored poll whose fields were changed; the table
    has no constraint besides its key. *)
Definition save_poll (p : Poll.t) : M Store Poll.t :=
  s <- gets (fun s => s) ;;
  (if existsb (fun r => Z.eqb (Poll.id r) (Poll.id p)) (polls s)
   then modify (fun s => set_polls s
                 (map (fun r => if Z.eqb (Poll.id r) (Poll.id p) then p else r) (polls s)))
   else modify (fun s => set_polls s (polls s ++ [p])%list)) ;;;
  ret p.

(** [poll.delete()]: on_delete=CASCADE takes the questions of the poll
    along, each with its choices and answers. *)
Definition delete_poll (p : Poll.t) : M Store unit :=
  s <- gets (fun s => s) ;;
  for_each delete_question (poll_questions p s) ;;;
  modify (fun s =>
    set_polls s (filter (fun r => negb (Z.eqb (Poll.id r) (Poll.id p))) (polls s))).

End db.

(** ** Requests *)

Module request.

(** One entry of the [answers] list of a vote, as sent: the key of the
    question, and [text] and [choice] when present. *)
Record answer_data : Type := {
  question : Z;
  text : option string;
  choice : option (list Z)
}.

(** The body of a vote after parsing: [anonymous_id] is an integer that
    the column of the table can hold, or [None] for null. *)
Record vote_data : Type := {
  answers : list answer_data;
  anonymous_id : option Z
}.

(** [user] is the key of the authenticated user, [None] when
    [request.user.is_authenticated] is false. *)
Record t : Type := {
  user : option Z;
  query_params_anonymous_id : option string;
  data : vote_data
}.

Definition is_authenticated (r : t) : bool :=
  match user r with Some _ => true | None => false end.

End request.

(** [view.action] of the [UserPolls] view set. *)
Module action.

Inductive t : Type := list_ | retrieve | vote_in_poll | show_answers.

Definition eqb (a b : t) : bool :=
  match a, b with
  | list_, list_ | retrieve, retrieve | vote_in_poll, vote_in_poll
  | show_answers, show_answers => true
  | _, _ => false
  end.

End action.

(** ** polls/permissions.py *)

Module UserPollsPermission.

Definition has_permission (r : request.t) (view_action : action.t) : bool :=
  if existsb (action.eqb view_action) [action.vote_in_poll; action.show_answers]
  then
    let is_anonymous_id :=
      truthy_str (request.query_params_anonymous_id r)
      || truthy_int (request.anonymous_id (request.data r)) in
    if Bool.eqb (request.is_authenticated r) is_anonymous_id
    then false
    else true
  else true.

End UserPollsPermission.

(** ** polls/serializers.py *)

(** [len(v)] of a list or [None]. *)
Definition len {A} (v : option (list A)) : exn + nat :=
  match v with
  | Some l => inr (List.length l)
  | None => inl (TypeError "object of type 'NoneType' has no len()")
  end.

Module QuestionSerializer.

(** The [choices] field is optional and may be null; a choice is the
    dictionary ['text': ...], kept as its text. *)
Inductive choices_value : Type :=
| absent
| null
| given (l : list string).

(** [type] has a default on the model and may be left out. *)
Record attrs : Type := {
  text : string;
  type : option Question.QuestionType.t;
  choices : choices_value
}.

(** [attrs.get('choices')] *)
Definition get_choices (a : attrs) : option (list string) :=
  match choices a with
  | given l => Some l
  | absent | null => None
  end.

(** [validated_data.pop('choices', [])] *)
Definition pop_choices (a : attrs) : option (list string) :=
  match choices a with
  | given l => Some l
  | null => None
  | absent => Some []
  end.

Definition validate (a : attrs) : exn + attrs :=
  match get_choices a with
  | Some ((_ :: _) as choices) =>
      let choices_set := nodup string_dec choices in
      if negb (Nat.eqb (List.length choices) (List.length choices_set))
      then inl (ValidationError "Choices values must be unique")
      else inr a
  | _ => inr a
  end.

Definition _save_choices (question : Question.t) (choices : option (list string))
    : M db.Store unit :=
  match choices with
  | Some ((_ :: _) as choices) => db.bulk_create_choices question choices ;;; ret tt
  | _ => ret tt
  end.

Definition create `{conv : PkConversion} (poll_pk : string) (validated_data : attrs)
    : M db.Store Question.t :=
  let choices := pop_choices validated_data in
  poll <- reads (db.get_poll poll_pk) ;;
  if Poll.is_published poll
  then raise (ValidationError "Cant update published poll")
  else
    question <-
      except
        (db.create_question poll (text validated_data)
           (match type validated_data with
            | Some ty => ty
            | None => Question.QuestionType.text
            end))
        (fun e => match e with
                  | IntegrityError => ValidationError "This question exists in the poll"
                  | _ => e
                  end) ;;
    (if Question.has_choice question
        && Question.QuestionType.eqb (Question.type question)
             Question.QuestionType.single_choice
     then
       n <- lift (len choices) ;;
       if negb (Nat.eqb n 1)
       then raise (ValidationError "Single choice allow only one choice")
       else ret tt
     else ret tt) ;;;
    _save_choices question choices ;;;
    ret question.

(** [ModelSerializer.update]: the remaining attributes are set on the
    instance, which is saved. *)
Definition ModelSerializer_update (instance : Question.t) (validated_data : attrs)
    : M db.Store Question.t :=
  db.save_question
    {| Question.id := Question.id instance;
       Question.poll_id := Question.poll_id instance;
       Question.text := text validated_data;
       Question.type := match type validated_data with
                        | Some ty => ty
                        | None => Question.type instance
                        end |}.

Definition update (instance : Question.t) (validated_data : attrs)
    : M db.Store Question.t :=
  poll <- reads (db.poll_of instance) ;;
  if Poll.is_published poll
  then raise (ValidationError "Cant update published poll")
  else
    old <- gets (db.question_choices instance) ;;
    for_each db.delete_choice old ;;;
    let choices := pop_choices validated_data in
    _save_choices instance choices ;;;
    ModelSerializer_update instance validated_data.

End QuestionSerializer.

Module AnswerSerializer.

(** The validated fields of one answer: [question] is the row the key
    was resolved to; [text] and [choice] are [None] when the dictionary
    has no such entry. *)
Record attrs : Type := {
  question : Question.t;
  text : option string;
  choice : option (list Z)
}.

(** The field [text] (null=True, blank=True on the model): null stays
    null, a string goes through the character field. *)
Definition text_field (v : option string) : exn + option string :=
  match v with
  | None => inr None
  | Some data =>
      match CharField.run_validation true None data with
      | inl e => inl e
      | inr value => inr (Some value)
      end
  end.

(** The related fields resolve keys to stored rows and refuse the keys
    that have none; the errors of the fields are validation errors, raised
    as one, of which [detail] keeps that of the first field refused. *)
Definition to_internal_value (d : request.answer_data) (s : db.Store) : exn + attrs :=
  match find (fun q => Z.eqb (Question.id q) (request.question d)) (db.questions s) with
  | None => inl (ValidationError "Invalid pk - object does not exist.")
  | Some q =>
      match text_field (request.text d) with
      | inl e => inl e
      | inr text =>
          match request.choice d with
          | Some cs =>
              if forallb (fun c => existsb (fun r => Z.eqb (ChoiceAnswer.id r) c)
                                     (db.choiceanswers s)) cs
              then inr {| question := q; text := text; choice := Some cs |}
              else inl (ValidationError "Invalid pk - object does not exist.")
          | None => inr {| question := q; text := text; choice := None |}
          end
      end
  end.

Definition validate (a : attrs) : exn + attrs :=
  let question_type := Question.type (question a) in
  match question_type with
  | Question.QuestionType.text =>
      match choice a with
      | Some _ => inl (ValidationError "This is text question, not choice")
      | None => inr a
      end
  | Question.QuestionType.single_choice =>
      match len (choice a) with
      | inl e => inl e
      | inr n =>
          if Nat.ltb 1 n || (match text a with Some _ => true | None => false end)
          then inl (ValidationError
                 "This question only for one choice and choice field not contains text")
          else inr a
      end
  | Question.QuestionType.multi_choice =>
      match text a with
      | Some _ => inl (ValidationError "Choice field not contains text")
      | None => inr a
      end
  end.

(** [run_validation]: the fields, then [validate]. *)
Definition run_validation (d : request.answer_data) (s : db.Store) : exn + attrs :=
  match to_internal_value d s with
  | inl e => inl e
  | inr a => validate a
  end.

End AnswerSerializer.

(** [set(a) == set(b)] for lists of model instances, which compare by
    primary key. *)
Definition set_eqb (a b : list Z) : bool :=
  forallb (fun x => existsb (Z.eqb x) b) a && forallb (fun x => existsb (Z.eqb x) a) b.

Module UserPollSerializer.

Record attrs : Type := {
  answers : list AnswerSerializer.attrs;
  anonymous_id : option Z
}.

(** What [create] returns: the saved answers, and [anonymous_id] when the
    dictionary has the entry. *)
Record result : Type := {
  result_answers : list Answer.t;
  result_anonymous_id : option Z
}.

(** The nested list serializer validates every answer first. *)
Definition to_internal_value (d : request.vote_data) (s : db.Store) : exn + attrs :=
  match for_each_collect (fun a => AnswerSerializer.run_validation a s)
          (request.answers d) with
  | inl e => inl e
  | inr answers => inr {| answers := answers; anonymous_id := request.anonymous_id d |}
  end.

(** [view_pk] is [self.context['view'].kwargs['pk']]; the poll is looked
    up in [self.context['view'].queryset], the class attribute
    [Poll.objects.all()]. *)
Definition validate `{conv : PkConversion} (view_pk : string) (a : attrs) (s : db.Store)
    : exn + attrs :=
  match
    for_each_pure
      (fun answer =>
         if negb (String.eqb view_pk
                    (str (Question.poll_id (AnswerSerializer.question answer))))
         then inl (ValidationError "Invalid question id for this poll")
         else inr tt)
      (answers a)
  with
  | inl e => inl e
  | inr _ =>
      match db.get_poll view_pk s with
      | inl e => inl e
      | inr poll =>
          if negb (Nat.eqb (List.length (db.poll_questions poll s)) (List.length (answers a)))
          then inl (ValidationError "pls answer the all questions")
          else
            let questions := map AnswerSerializer.question (answers a) in
            if negb (set_eqb (map Question.id questions)
                       (map Question.id (db.poll_questions poll s)))
            then inl (ValidationError "Invalid question ids for this poll")
            else inr a
      end
  end.

Definition run_validation `{conv : PkConversion} (view_pk : string) (d : request.vote_data)
    (s : db.Store) : exn + attrs :=
  match to_internal_value d s with
  | inl e => inl e
  | inr a => validate view_pk a s
  end.

(** The body of the loop of [create], for one [answer]. *)
Definition create_answer (r : request.t) (validated_data : attrs)
    (answer : AnswerSerializer.attrs) : M db.Store Answer.t :=
  atomic
    (let choice := AnswerSerializer.choice answer in
     except
       (saved <- db.on_answers
                   (Answer.objects_create
                      (Question.id (AnswerSerializer.question answer))
                      (AnswerSerializer.text answer)
                      (request.user r) (anonymous_id validated_data)) ;;
        match choice with
        | Some ((_ :: _) as choice) => db.on_answers (Answer.choice_add saved choice)
        | _ => ret saved
        end)
       (fun err => match err with
                   | ValueError msg => ValidationError msg
                   | _ => err
                   end)).

Definition create (r : request.t) (validated_data : attrs) : M db.Store result :=
  answers_db <- for_each (create_answer r validated_data) (answers validated_data) ;;
  ret {| result_answers := answers_db;
         result_anonymous_id := if truthy_int (anonymous_id validated_data)
                                then anonymous_id validated_data
                                else None |}.

End UserPollSerializer.

Module PollAdminSerializer.

(** fields = '__all__': [id] and [start_date] (editable=False) are
    read-only and not taken from the request; [is_published] has a default
    on the model and may be left out. *)
Record attrs : Type := {
  name : string;
  end_date : Z;
  description : string;
  is_published : option bool
}.

(** [run_validation] of the fields: [name] (max_length=256) and
    [description] are character fields that may not be blank; the errors
    are validation errors, raised as one, of which [detail] keeps that of
    the first field refused. *)
Definition run_validation (data : attrs) : exn + attrs :=
  match CharField.run_validation false (Some 256%nat) (name data),
        CharField.run_validation false None (description data) with
  | inl e, _ => inl e
  | inr _, inl e => inl e
  | inr name, inr description =>
      inr {| name := name; end_date := end_date data; description := description;
             is_published := is_published data |}
  end.

(** [ModelSerializer.create], run at the time [now]. *)
Definition create (now : Z) (validated_data : attrs) : M db.Store Poll.t :=
  db.create_poll now (name validated_data) (end_date validated_data)
    (description validated_data)
    (match is_published validated_data with
     | Some b => b
     | None => false
     end).

(** [ModelSerializer.update]: the attributes sent are set on the instance,
    which is saved. *)
Definition update (instance : Poll.t) (validated_data : attrs) : M db.Store Poll.t :=
  db.save_poll
    {| Poll.id := Poll.id instance;
       Poll.name := name validated_data;
       Poll.start_date := Poll.start_date instance;
       Poll.end_date := end_date validated_data;
       Poll.description := description validated_data;
       Poll.is_published := match is_published validated_data with
                            | Some b => b
                            | None => Poll.is_published instance
                            end |}.

End PollAdminSerializer.

Module ChoiceSerializer.

(** exclude = ('question',) *)
Record data : Type := {
  id : Z;
  text : string
}.

Definition to_representation (c : ChoiceAnswer.t) : data :=
  {| id := ChoiceAnswer.id c; text := ChoiceAnswer.text c |}.

End ChoiceSerializer.

Module UserAnswerHistorySerializer.

(** exclude = ['question']; [choice] is the nested list of the linked
    choices. *)
Record data : Type := {
  id : option Z;
  text : option string;
  choice : list ChoiceSerializer.data;
  user : option Z;
  anonymous_id : option Z
}.

(** [answer.choice.all()]: the rows of the choices the answer links to. *)
Definition linked_choices (a : Answer.t) (s : db.Store) : list ChoiceAnswer.t :=
  filter (fun c => existsb (Z.eqb (ChoiceAnswer.id c)) (Answer.choice a))
    (db.choiceanswers s).

Definition to_representation (a : Answer.t) (s : db.Store) : data :=
  {| id := Answer.id a; text := Answer.text a;
     choice := map ChoiceSerializer.to_representation (linked_choices a s);
     user := Answer.user_id a; anonymous_id := Answer.anonymous_id a |}.

End UserAnswerHistorySerializer.

Module UserQuestionHistorySerializer.

(** exclude = ['poll'], and the method field [answers]. *)
Record data : Type := {
  id : Z;
  text : string;
  type : Question.QuestionType.t;
  answers : list UserAnswerHistorySerializer.data
}.

(** The value [anonymous_id=...] of the filter: the string of the query
    string goes through [int(value)] as a key of a URL does, an absent
    parameter is [None] and selects the rows where the column is NULL. *)
Definition anonymous_id_lookup `{conv : PkConversion} (r : request.t) : exn + option Z :=
  match request.query_params_anonymous_id r with
  | None => inr None
  | Some v =>
      match to_python v with
      | Some n => inr (Some n)
      | None => inl (ValueError "Field 'anonymous_id' expected a number")
      end
  end.

(** [Answer.objects.filter(Q(user=...) & Q(anonymous_id=...),
    question=question)] *)
Definition filter_answers (user anonymous_id : option Z) (question : Question.t)
    (s : db.Store) : list Answer.t :=
  filter (fun a => option_eqb Z.eqb (Answer.user_id a) user
                   && option_eqb Z.eqb (Answer.anonymous_id a) anonymous_id
                   && Z.eqb (Answer.question_id a) (Question.id question))
    (db.answers s).

Definition get_answers `{conv : PkConversion} (r : request.t) (question : Question.t)
    (s : db.Store) : exn + list UserAnswerHistorySerializer.data :=
  match anonymous_id_lookup r with
  | inl e => inl e
  | inr anonymous_id =>
      let qs := filter_answers (request.user r) anonymous_id question s in
      inr (map (fun a => UserAnswerHistorySerializer.to_representation a s) qs)
  end.

Definition to_representation `{conv : PkConversion} (r : request.t) (question : Question.t)
    (s : db.Store) : exn + data :=
  match get_answers r question s with
  | inl e => inl e
  | inr answers =>
      inr {| id := Question.id question; text := Question.text question;
             type := Question.type question; answers := answers |}
  end.

End UserQuestionHistorySerializer.

Module UserPollShowSerializer.

(** fields = '__all__', the columns of the poll, and the nested list
    [questions]. *)
Record data : Type := {
  poll : Poll.t;
  questions : list UserQuestionHistorySerializer.data
}.

Definition to_representation `{conv : PkConversion} (r : request.t) (p : Poll.t)
    (s : db.Store) : exn + data :=
  match for_each_pure (fun q => UserQuestionHistorySerializer.to_representation r q s)
          (db.poll_questions p s) with
  | inl e => inl e
  | inr questions => inr {| poll := p; questions := questions |}
  end.

End UserPollShowSerializer.

(** ** Reading a poll through the fields of a serializer *)

Module Serializer.

(** The serializer classes [UserPolls.get_serializer_class] chooses
    from. *)
Inductive class : Type :=
| PollAdminSerializer
| QuestionSerializer
| UserPollShowSerializer
| UserPollSerializer.

(** What a field needs to read its attribute: the name, and the three
    options that decide what a missing attribute means. *)
Record Field : Type := {
  field_name : string;
  required : bool;
  allow_null : bool;
  has_default : bool
}.

Definition read_only (name : string) : Field :=
  {| field_name := name; required := false; allow_null := false; has_default := false |}.

Definition required_field (name : string) : Field :=
  {| field_name := name; required := true; allow_null := false; has_default := false |}.

(** The columns of [Poll] as [fields = '__all__'] declares them: [id] and
    [start_date] (editable=False) are read-only, [is_published] has a
    default and is not required. *)
Definition poll_fields : list Field :=
  [ read_only "id"; required_field "name"; read_only "start_date";
    required_field "end_date"; required_field "description";
    {| field_name := "is_published"; required := false; allow_null := false;
       has_default := false |} ].

(** The declared fields of each class, in the order of [Meta.fields]. *)
Definition fields (c : class) : list Field :=
  match c with
  | PollAdminSerializer => poll_fields
  | QuestionSerializer =>
      [ read_only "id"; required_field "text";
        {| field_name := "type"; required := false; allow_null := false;
           has_default := false |};
        {| field_name := "choices"; required := false; allow_null := true;
           has_default := false |} ]
  | UserPollShowSerializer => (poll_fields ++ [required_field "questions"])%list
  | UserPollSerializer =>
      [ required_field "answers";
        {| field_name := "anonymous_id"; required := true; allow_null := true;
           has_default := false |} ]
  end.

Inductive value : Type :=
| int (n : Z)
| text (v : string)
| boolean (b : bool)
| manager (keys : list Z).

(** [getattr(poll, name)] for the name of a field: a poll has its
    columns, [pk], and the reverse relation [questions] (the related_name
    of [Question.poll]); [None] stands for no such attribute. *)
Definition getattr (p : Poll.t) (name : string) (s : db.Store) : option value :=
  if String.eqb name "id" || String.eqb name "pk" then Some (int (Poll.id p))
  else if String.eqb name "name" then Some (text (Poll.name p))
  else if String.eqb name "start_date" then Some (int (Poll.start_date p))
  else if String.eqb name "end_date" then Some (int (Poll.end_date p))
  else if String.eqb name "description" then Some (text (Poll.description p))
  else if String.eqb name "is_published" then Some (boolean (Poll.is_published p))
  else if String.eqb name "questions"
  then Some (manager (map Question.id (db.poll_questions p s)))
  else None.

(** The exception of a required attribute the instance does not have. *)
Inductive AttributeError : Type := no_attribute (name : string).

(** What [Field.get_attribute] gives: the value, [None] for a missing
    attribute of a field that allows null, or the signal to skip the
    field. *)
Inductive attribute : Type :=
| SkipField
| got (v : option value).

Definition get_attribute (f : Field) (p : Poll.t) (s : db.Store)
    : AttributeError + attribute :=
  match getattr p (field_name f) s with
  | Some v => inr (got (Some v))
  | None =>
      if has_default f then inr SkipField
      else if allow_null f then inr (got None)
      else if negb (required f) then inr SkipField
      else inl (no_attribute (field_name f))
  end.

(** The loop of [to_representation] over the fields, as far as the
    attributes go: the attributes read, by field name, or the first
    exception. *)
Fixpoint read_attributes (fs : list Field) (p : Poll.t) (s : db.Store)
    : AttributeError + list (string * option value) :=
  match fs with
  | [] => inr []
  | f :: rest =>
      match get_attribute f p s with
      | inl e => inl e
      | inr SkipField => read_attributes rest p s
      | inr (got v) =>
          match read_attributes rest p s with
          | inl e => inl e
          | inr vs => inr ((field_name f, v) :: vs)
          end
      end
  end.

End Serializer.

(** ** polls/views.py *)

Module PollAdminViewSet.

(** [get_object] on [Poll.objects.all()]; the framework's lookup answers
    404 also for a key that is not a number. *)
Definition get_object `{conv : PkConversion} (pk : string) (s : db.Store) : exn + Poll.t :=
  match to_python pk with
  | None => inl Http404
  | Some k =>
      match find (fun p => Z.eqb (Poll.id p) k) (db.polls s) with
      | Some p => inr p
      | None => inl Http404
      end
  end.

(** [data] is the body of the request, with an entry of the right type
    for every required field. *)
Definition create (now : Z) (data : PollAdminSerializer.attrs) : M db.Store Poll.t :=
  validated_data <- lift (PollAdminSerializer.run_validation data) ;;
  PollAdminSerializer.create now validated_data.

Definition update `{conv : PkConversion} (pk : string) (data : PollAdminSerializer.attrs)
    : M db.Store Poll.t :=
  instance <- reads (get_object pk) ;;
  validated_data <- lift (PollAdminSerializer.run_validation data) ;;
  PollAdminSerializer.update instance validated_data.

Definition destroy `{conv : PkConversion} (pk : string) : M db.Store unit :=
  atomic
    (instance <- reads (get_object pk) ;;
     db.delete_poll instance).

End PollAdminViewSet.

Module QuestionAdminViewSet.

(** [initial] sets [self.poll]. *)
Definition initial `{conv : PkConversion} (poll_pk : string) : M db.Store Poll.t :=
  reads (db.get_poll_or_404 poll_pk).

(** [get_object] on the query set filtered by [poll=self.poll]; the
    framework's lookup answers 404 also for a key that is not a number. *)
Definition get_object `{conv : PkConversion} (self_poll : Poll.t) (pk : string) (s : db.Store)
    : exn + Question.t :=
  match to_python pk with
  | None => inl Http404
  | Some k =>
      match find (fun q => Z.eqb (Question.id q) k) (db.poll_questions self_poll s) with
      | Some q => inr q
      | None => inl Http404
      end
  end.

(** [data] holds the entries of the body as the fields of the serializer
    pass them on (a text stripped and not blank); [validate] comes after
    the fields. *)
Definition create `{conv : PkConversion} (poll_pk : string) (data : QuestionSerializer.attrs)
    : M db.Store Question.t :=
  atomic
    (validated_data <- lift (QuestionSerializer.validate data) ;;
     QuestionSerializer.create poll_pk validated_data).

Definition update `{conv : PkConversion} (self_poll : Poll.t) (pk : string)
    (data : QuestionSerializer.attrs) : M db.Store Question.t :=
  atomic
    (instance <- reads (get_object self_poll pk) ;;
     validated_data <- lift (QuestionSerializer.validate data) ;;
     QuestionSerializer.update instance validated_data).

Definition destroy `{conv : PkConversion} (self_poll : Poll.t) (pk : string) : M db.Store unit :=
  atomic
    (if Poll.is_published self_poll
     then raise (ValidationError "Poll already published and cannot be changed")
     else
       instance <- reads (get_object self_poll pk) ;;
       db.delete_question instance).

(** The handlers as the router reaches them: [initial], then the action. *)
Definition post `{conv : PkConversion} (poll_pk : string) (data : QuestionSerializer.attrs)
    : M db.Store Question.t :=
  initial poll_pk ;;; create poll_pk data.

Definition put `{conv : PkConversion} (poll_pk pk : string) (data : QuestionSerializer.attrs)
    : M db.Store Question.t :=
  self_poll <- initial poll_pk ;; update self_poll pk data.

Definition delete `{conv : PkConversion} (poll_pk pk : string) : M db.Store unit :=
  self_poll <- initial poll_pk ;; destroy self_poll pk.

End QuestionAdminViewSet.

Module UserPolls.

(** The class attribute [queryset = Poll.objects.all()...]. *)
Definition queryset (s : db.Store) : list Poll.t := db.polls s.

(** [self.queryset.filter(start_date__lt=now(), end_date__gt=now(),
    is_published=True)] *)
Definition get_queryset (now : Z) (s : db.Store) : list Poll.t :=
  filter (fun p => Z.ltb (Poll.start_date p) now && Z.gtb (Poll.end_date p) now
                   && Bool.eqb (Poll.is_published p) true)
    (queryset s).

Definition check_permissions (r : request.t) (view_action : action.t) : M db.Store unit :=
  if UserPollsPermission.has_permission r view_action
  then ret tt
  else raise PermissionDenied.

(** [list]: the polls of [get_queryset]. *)
Definition list_ (now : Z) : M db.Store (list Poll.t) := gets (get_queryset now).

(** [get_object], with which [retrieve] starts: the lookup goes through
    [get_queryset], and answers 404 also for a key that is not a number. *)
Definition get_object `{conv : PkConversion} (now : Z) (pk : string) : M db.Store Poll.t :=
  reads (fun s =>
    match to_python pk with
    | None => inl Http404
    | Some k =>
        match find (fun p => Z.eqb (Poll.id p) k) (get_queryset now s) with
        | Some p => inr p
        | None => inl Http404
        end
    end).

Definition vote_in_poll `{conv : PkConversion} (pk : string) (r : request.t)
    : M db.Store UserPollSerializer.result :=
  atomic
    (validated_data <- reads (UserPollSerializer.run_validation pk (request.data r)) ;;
     UserPollSerializer.create r validated_data).

(** [path('user/<pk>', UserPolls.as_view('post': 'vote_in_poll'))]: the
    permission check of [initial], then the action. *)
Definition post `{conv : PkConversion} (pk : string) (r : request.t)
    : M db.Store UserPollSerializer.result :=
  check_permissions r action.vote_in_poll ;;; vote_in_poll pk r.

Definition get_serializer_class (view_action : action.t) : Serializer.class :=
  match view_action with
  | action.list_ => Serializer.PollAdminSerializer
  | action.retrieve => Serializer.QuestionSerializer
  | action.show_answers => Serializer.UserPollShowSerializer
  | _ => Serializer.UserPollSerializer
  end.

(** [retrieve]: the permission check of [initial], then the poll of
    [get_object], read through the fields of the serializer class of the
    action.  An [AttributeError] of the reading leaves the handler as it
    is; it is the left summand of the value. *)
Definition retrieve `{conv : PkConversion} (now : Z) (pk : string) (r : request.t)
    : M db.Store (Serializer.AttributeError + list (string * option Serializer.value)) :=
  check_permissions r action.retrieve ;;;
  instance <- get_object now pk ;;
  gets (Serializer.read_attributes
          (Serializer.fields (get_serializer_class action.retrieve)) instance).

(** [show_answers]: the permission check of [initial], then the list of
    [get_queryset] through [UserPollShowSerializer]; the view sets no
    pagination class. *)
Definition show_answers `{conv : PkConversion} (now : Z) (r : request.t)
    : M db.Store (list UserPollShowSerializer.data) :=
  check_permissions r action.show_answers ;;;
  reads (fun s =>
    for_each_pure (fun p => UserPollShowSerializer.to_representation r p s)
      (get_queryset now s)).

End UserPolls.

(** ** polls/urls.py *)

Module urls.

(** The two routes written out in [urlpatterns] are a fixed text, which
    can end in one parameter [<name>]; the parameter, of the default
    converter, stands for a non-empty string without a slash. *)
Record route : Type := {
  literal : string;
  parameter : option string
}.

Fixpoint has_slash (v : string) : bool :=
  match v with
  | EmptyString => false
  | String c rest => Ascii.eqb c "/"%char || has_slash rest
  end.

(** The keyword arguments of the match of a path with a route. *)
Definition match_route (rt : route) (path : string) : option (list (string * string)) :=
  match parameter rt with
  | None => if String.eqb path (literal rt) then Some [] else None
  | Some name =>
      if String.prefix (literal rt) path
      then
        let value := substring (String.length (literal rt))
                       (String.length path - String.length (literal rt)) path in
        if negb (String.eqb value "") && negb (has_slash value)
        then Some [(name, value)]
        else None
      else None
  end.

(** What a path resolves to: a view of one of the two routers, or one of
    the two views bound by hand, with the action bound to each method. *)
Inductive callback : Type :=
| of_router (name : string)
| UserPolls_as_view (actions : list (string * action.t)).

Record ResolverMatch : Type := {
  func : callback;
  kwargs : list (string * string)
}.

Definition pattern : Type := string -> option ResolverMatch.

(** [path(route, view)] *)
Definition path (rt : route) (view : callback) : pattern :=
  fun p => option_map (fun kw => {| func := view; kwargs := kw |}) (match_route rt p).

(** A pattern a router has generated: it leads to a view of the router. *)
Definition routed (p : string -> option (string * list (string * string))) : pattern :=
  fun s => option_map (fun m => {| func := of_router (fst m); kwargs := snd m |}) (p s).

(** [urlpatterns], with the patterns of the two routers left open. *)
Definition urlpatterns
    (polls_urls admin_questions_urls : list (string -> option (string * list (string * string))))
    : list pattern :=
  (map routed polls_urls ++ map routed admin_questions_urls
   ++ [ path {| literal := "user/"; parameter := Some "pk" |}
          (UserPolls_as_view [("post", action.vote_in_poll)]);
        path {| literal := "user/show_answers"; parameter := None |}
          (UserPolls_as_view [("get", action.show_answers)]) ])%list.

(** The resolver takes the first pattern that matches. *)
Fixpoint resolve (patterns : list pattern) (p : string) : option ResolverMatch :=
  match patterns with
  | [] => None
  | pat :: rest =>
      match pat p with
      | Some m => Some m
      | None => resolve rest p
      end
  end.

(** Where a request of [method] for the path ends; the method is in lower
    case, as the view looks its handler up. *)
Inductive handler : Type :=
| not_found                       (* no pattern matches *)
| in_router (name : string)       (* a view of a router takes over *)
| http_method_not_allowed         (* the view binds nothing to the method *)
| runs (a : action.t).

Definition dispatch (patterns : list pattern) (method p : string) : handler :=
  match resolve patterns p with
  | None => not_found
  | Some m =>
      match func m with
      | of_router name => in_router name
      | UserPolls_as_view actions =>
          match find (fun b => String.eqb (fst b) method) actions with
          | Some b => runs (snd b)
          | None => http_method_not_allowed
          end
      end
  end.

End urls.

(** ** Properties of stores and requests used in the statements *)

(** The primary key of the table of questions. *)
Definition unique_question_ids (s : db.Store) : Prop :=
  NoDup (map Question.id (db.questions s)).

(** The rows of answers of one voter, given by the pair ([user],
    [anonymous_id]), for one question. *)
Definition votes_of (user anonymous_id : option Z) (question : Z) (s : db.Store)
    : list Answer.t :=
  filter (fun row => option_eqb Z.eqb (Answer.user_id row) user
                     && option_eqb Z.eqb (Answer.anonymous_id row) anonymous_id
                     && Z.eqb (Answer.question_id row) question)
    (db.answers s).

(** No voter has two rows of answers for one question. *)
Definition unique_votes (s : db.Store) : Prop :=
  forall user anonymous_id question,
    (List.length (votes_of user anonymous_id question s) <= 1)%nat.

(** The store [s] with another table of polls. *)
Definition with_polls (s : db.Store) (polls : list Poll.t) : db.Store :=
  {| db.polls := polls; db.questions := db.questions s;
     db.choiceanswers := db.choiceanswers s; db.answers := db.answers s |}.

(** The computation [m] keeps the property [inv] of the state, whether it
    returns or raises. *)
Definition keeps {S A} (inv : S -> Prop) (m : M S A) : Prop :=
  forall s out s', inv s -> m s = (out, s') -> inv s'.

(** The primary key of the table of choices. *)
Definition unique_choice_ids (s : db.Store) : Prop :=
  NoDup (map ChoiceAnswer.id (db.choiceanswers s)).

(** What a poll owns: its questions, each with its choices. *)
Definition questions_and_choices (poll : Poll.t) (s : db.Store)
    : list (Question.t * list ChoiceAnswer.t) :=
  map (fun q => (q, db.question_choices q s)) (db.poll_questions poll s).

(** The choices one submitted answer carries. *)
Definition submitted_choices (d : request.answer_data) : list Z :=
  match request.choice d with
  | Some cs => cs
  | None => []
  end.

(** The row a vote stores for the submitted answer [d]. *)
Definition stored_as (r : request.t) (d : request.answer_data) (row : Answer.t) : Prop :=
  Answer.id row <> None
  /\ Answer.question_id row = request.question d
  /\ Answer.text row = option_map strip (request.text d)
  /\ Answer.user_id row = request.user r
  /\ Answer.anonymous_id row = request.anonymous_id (request.data r)
  /\ NoDup (Answer.choice row)
  /\ (forall c, In c (Answer.choice row) <-> In c (submitted_choices d)).

(** The row [create] stores for the validated answer [a] of a voter, in a
    table that holds [rows]. *)
Definition vote_row (user anonymous_id : option Z) (a : AnswerSerializer.attrs)
    (rows : list Answer.t) : Answer.t :=
  {| Answer.id := Some (next_id (Answer.keys rows));
     Answer.question_id := Question.id (AnswerSerializer.question a);
     Answer.text := AnswerSerializer.text a;
     Answer.choice := match AnswerSerializer.choice a with
                      | Some cs => Answer.add_links [] cs
                      | None => []
                      end;
     Answer.user_id := user;
     Answer.anonymous_id := anonymous_id |}.

(** [row] is the row stored for [a] in some state of the table. *)
Definition row_of (user anon : option Z) (a : AnswerSerializer.attrs) (row : Answer.t) : Prop :=
  exists rows, row = vote_row user anon a rows.

(** The test of [Answer.save] for a second answer of the voter to the
    question. *)
Definition already_voted (user anonymous_id : option Z) (question : Z)
    (rows : list Answer.t) : bool :=
  existsb (fun row => option_eqb Z.eqb (Answer.user_id row) user
                      && option_eqb Z.eqb (Answer.anonymous_id row) anonymous_id
                      && Z.eqb (Answer.question_id row) question) rows.

(** The foreign key of the table of choices: a choice belongs to a stored
    question. *)
Definition choices_reference_questions (s : db.Store) : Prop :=
  forall c, In c (db.choiceanswers s) ->
            In (ChoiceAnswer.question_id c) (map Question.id (db.questions s)).

(** The row [QuestionSerializer.create] inserts for [data] in [poll]. *)
Definition question_row (poll : Poll.t) (data : QuestionSerializer.attrs) (s : db.Store)
    : Question.t :=
  {| Question.id := next_id (map Question.id (db.questions s));
     Question.poll_id := Poll.id poll;
     Question.text := QuestionSerializer.text data;
     Question.type := match QuestionSerializer.type data with
                      | Some ty => ty
                      | None => Question.QuestionType.text
                      end |}.

(** The foreign keys of the store: a question belongs to a stored poll, a
    choice to a stored question, an answer answers a stored question and
    links to stored choices. *)
Definition referential_integrity (s : db.Store) : Prop :=
  (forall q, In q (db.questions s) ->
             In (Question.poll_id q) (map Poll.id (db.polls s)))
  /\ choices_reference_questions s
  /\ (forall a, In a (db.answers s) ->
                In (Answer.question_id a) (map Question.id (db.questions s))
                /\ forall k, In k (Answer.choice a) ->
                             In k (map ChoiceAnswer.id (db.choiceanswers s))).

(** The shape an answer row has for a question of the type [ty]. *)
Definition shaped_for (ty : Question.QuestionType.t) (row : Answer.t) : Prop :=
  match ty with
  | Question.QuestionType.text => Answer.choice row = []
  | Question.QuestionType.single_choice =>
      Answer.text row = None /\ (List.length (Answer.choice row) <= 1)%nat
  | Question.QuestionType.multi_choice => Answer.text row = None
  end.

(** The answer [a] without its links to the choices [old]. *)
Definition without_links (old : list ChoiceAnswer.t) (a : Answer.t) : Answer.t :=
  Answer.with_choice a
    (filter (fun k => negb (existsb (Z.eqb k) (map ChoiceAnswer.id old))) (Answer.choice a)).

(** A voter: an authenticated user, or the token of a caller who is not
    authenticated. *)
Inductive voter : Type :=
| by_user (u : Z)
| by_token (a : Z).

(** The voter of a vote that names one: a user and no token, or no user and
    a token in the body.  The token 0, which the checks take for no token,
    names none here. *)
Definition request_voter (r : request.t) : option voter :=
  match request.user r, request.anonymous_id (request.data r) with
  | Some u, None => Some (by_user u)
  | None, Some a => if Z.eqb a 0 then None else Some (by_token a)
  | _, _ => None
  end.

Definition is_row_of (v : voter) (row : Answer.t) : bool :=
  match v with
  | by_user u => option_eqb Z.eqb (Answer.user_id row) (Some u)
  | by_token a => option_eqb Z.eqb (Answer.anonymous_id row) (Some a)
  end.

(** The rows of answers of a voter for one question. *)
Definition rows_of_voter (v : voter) (question : Z) (s : db.Store) : list Answer.t :=
  filter (fun row => is_row_of v row && Z.eqb (Answer.question_id row) question)
    (db.answers s).

(** A row of answers never has both a user and a token. *)
Definition one_identity (row : Answer.t) : Prop :=
  Answer.user_id row = None \/ Answer.anonymous_id row = None.

(** ** A store to run the handlers on

    Poll 1 with the single-choice question 1 (choices 1 "yes" and 2 "no")
    and the text question 2; poll 2 with the text question 3. *)
Module fixture.

Definition poll (k : Z) (published : bool) : Poll.t :=
  {| Poll.id := k; Poll.name := "poll"; Poll.start_date := 10; Poll.end_date := 20;
     Poll.description := ""; Poll.is_published := published |}.

Definition question (k poll : Z) (text : string) (ty : Question.QuestionType.t)
    : Question.t :=
  {| Question.id := k; Question.poll_id := poll; Question.text := text;
     Question.type := ty |}.

Definition choice (k question : Z) (text : string) : ChoiceAnswer.t :=
  {| ChoiceAnswer.id := k; ChoiceAnswer.question_id := question;
     ChoiceAnswer.text := text |}.

Definition store (published : bool) : db.Store :=
  {| db.polls := [poll 1 published; poll 2 published];
     db.questions := [question 1 1 "Q1" Question.QuestionType.single_choice;
                      question 2 1 "Q2" Question.QuestionType.text;
                      question 3 2 "Q3" Question.QuestionType.text];
     db.choiceanswers := [choice 1 1 "yes"; choice 2 1 "no"];
     db.answers := [] |}.

Definition answer (question : Z) (text : option string) (choice : option (list Z))
    : request.answer_data :=
  {| request.question := question; request.text := text; request.choice := choice |}.

(** A vote of a caller who is not authenticated. *)
Definition vote (answers : list request.answer_data) (anonymous_id : option Z)
    : request.t :=
  {| request.user := None; request.query_params_anonymous_id := None;
     request.data := {| request.answers := answers;
                        request.anonymous_id := anonymous_id |} |}.

(** The complete vote of the anonymous voter 42 in poll 1. *)
Definition vote42 : request.t :=
  vote [answer 1 None (Some [1]); answer 2 (Some "hello") None] (Some 42).

(** The store after [vote42]. *)
Definition voted (published : bool) : db.Store :=
  db.set_answers (store published)
    [ {| Answer.id := Some 1; Answer.question_id := 1; Answer.text := None;
         Answer.choice := [1]; Answer.user_id := None;
         Answer.anonymous_id := Some 42 |};
      {| Answer.id := Some 2; Answer.question_id := 2; Answer.text := Some "hello";
         Answer.choice := []; Answer.user_id := None;
         Answer.anonymous_id := Some 42 |} ].

(** The same store with poll 1 published and poll 2 not. *)
Definition mixed : db.Store := with_polls (store false) [poll 1 true; poll 2 false].

Definition new_question (text : string) (ty : Question.QuestionType.t)
    (choices : QuestionSerializer.choices_value) : QuestionSerializer.attrs :=
  {| QuestionSerializer.text := text; QuestionSerializer.type := Some ty;
     QuestionSerializer.choices := choices |}.

End fixture.

(** * Theorems *)

(** ** Computations *)

Section Computations.

Context {S : Type}.

Lemma bind_returns {A B} (m : M S A) (k : A -> M S B) (s s' : S) (b : B) :
  bind m k s = (inr b, s') ->
  exists a s0, m s = (inr a, s0) /\ k a s0 = (inr b, s').
Proof.
  unfold bind. destruct (m s) as [[e | a] s0]; intros Heq.
  - discriminate.
  - eauto.
Qed.

Lemma bind_raises {A B} (m : M S A) (k : A -> M S B) (s s' : S) (e : exn) :
  bind m k s = (inl e, s') ->
  m s = (inl e, s') \/ exists a s0, m s = (inr a, s0) /\ k a s0 = (inl e, s').
Proof.
  unfold bind. destruct (m s) as [[e0 | a] s0]; intros Heq.
  - left. inversion Heq. reflexivity.
  - right. eauto.
Qed.

End Computations.

Lemma for_each_pure_returns {A B} (body : A -> exn + B) (xs : list A) (ys : list B) :
  for_each_pure body xs = inr ys -> Forall2 (fun x y => body x = inr y) xs ys.
Proof.
  revert ys. induction xs as [| x xs IH]; simpl; intros ys Heq.
  - inversion Heq. constructor.
  - destruct (body x) as [e | y] eqn:Hx; [discriminate |].
    destruct (for_each_pure body xs) as [e | ys'] eqn:Hxs; [discriminate |].
    inversion Heq; subst. constructor; auto.
Qed.

Lemma for_each_collect_returns {A B} (body : A -> exn + B) (xs : list A) (ys : list B) :
  for_each_collect body xs = inr ys -> Forall2 (fun x y => body x = inr y) xs ys.
Proof.
  revert ys. induction xs as [| x xs IH]; cbn [for_each_collect]; intros ys Heq.
  - inversion Heq. constructor.
  - destruct (body x) as [e | y] eqn:Hx.
    + destruct e; try discriminate.
      destruct (for_each_collect body xs) as [[] | ys']; discriminate.
    + destruct (for_each_collect body xs) as [e | ys'] eqn:Hxs; [discriminate |].
      inversion Heq; subst. constructor; auto.
Qed.

(** ** Lists and sets of keys *)

Lemma existsb_Zeqb_In (x : Z) (l : list Z) : existsb (Z.eqb x) l = true <-> In x l.
Proof.
  rewrite existsb_exists. split.
  - intros [y [Hin Heq]]. apply Z.eqb_eq in Heq. subst. exact Hin.
  - intros Hin. exists x. split; [exact Hin | apply Z.eqb_refl].
Qed.

Lemma option_eqb_Z_eq (x y : option Z) : option_eqb Z.eqb x y = true <-> x = y.
Proof.
  destruct x as [a |], y as [b |]; simpl; split; intros Heq;
    try discriminate; try reflexivity.
  - apply Z.eqb_eq in Heq. congruence.
  - inversion Heq. apply Z.eqb_refl.
Qed.

Lemma set_eqb_incl (a b : list Z) : set_eqb a b = true -> incl a b /\ incl b a.
Proof.
  unfold set_eqb. rewrite andb_true_iff, !forallb_forall.
  intros [Hab Hba]. split; intros x Hx.
  - apply existsb_Zeqb_In, Hab, Hx.
  - apply existsb_Zeqb_In, Hba, Hx.
Qed.

(** A selection of questions has distinct keys when the table has. *)
Lemma filter_keeps_unique_ids (p : Question.t -> bool) (qs : list Question.t) :
  NoDup (map Question.id qs) -> NoDup (map Question.id (filter p qs)).
Proof.
  induction qs as [| q qs IH]; cbn [map filter]; intros Hkeys.
  - constructor.
  - apply NoDup_cons_iff in Hkeys. destruct Hkeys as [Hfresh Hrest].
    destruct (p q); [| exact (IH Hrest)].
    cbn [map]. apply NoDup_cons_iff. split; [| exact (IH Hrest)].
    rewrite in_map_iff in *. intros [q' [Hid Hq']].
    apply Hfresh. exists q'. apply filter_In in Hq'. tauto.
Qed.

(** So have the questions of a poll. *)
Lemma poll_questions_unique_ids (poll : Poll.t) (s : db.Store) :
  unique_question_ids s -> NoDup (map Question.id (db.poll_questions poll s)).
Proof. apply filter_keeps_unique_ids. Qed.

Lemma filter_none {A} (p : A -> bool) (l : list A) :
  (forall x, In x l -> p x = false) -> filter p l = [].
Proof.
  induction l as [| x l IH]; cbn [filter]; intros Hp.
  - reflexivity.
  - rewrite (Hp x (or_introl eq_refl)). apply IH. intros y Hy. apply Hp. right. exact Hy.
Qed.

Lemma filter_all {A} (p : A -> bool) (l : list A) :
  Forall (fun x => p x = true) l -> filter p l = l.
Proof.
  induction 1 as [| x l Hx _ IH]; cbn [filter].
  - reflexivity.
  - rewrite Hx, IH. reflexivity.
Qed.

Lemma next_id_above (ids : list Z) (k : Z) : In k ids -> k < next_id ids.
Proof.
  unfold next_id. induction ids as [| x ids IH]; cbn [fold_right In].
  - intros [].
  - intros [Heq | Hin].
    + subst. lia.
    + specialize (IH Hin). lia.
Qed.

(** ** Validation of a vote *)

Lemma AnswerSerializer_validate_returns (a a' : AnswerSerializer.attrs) :
  AnswerSerializer.validate a = inr a' -> a' = a.
Proof.
  unfold AnswerSerializer.validate.
  destruct (Question.type (AnswerSerializer.question a)).
  - destruct (AnswerSerializer.choice a); intros Heq; inversion Heq; reflexivity.
  - destruct (len (AnswerSerializer.choice a)) as [e | n]; [discriminate |].
    destruct (Nat.ltb 1 n || _); intros Heq; inversion Heq; reflexivity.
  - destruct (AnswerSerializer.text a); intros Heq; inversion Heq; reflexivity.
Qed.

(** The text a character field lets through is the text sent, stripped. *)
Lemma text_field_returns (v t : option string) :
  AnswerSerializer.text_field v = inr t -> t = option_map strip v.
Proof.
  unfold AnswerSerializer.text_field, CharField.run_validation.
  destruct v as [data |]; [| intros Heq; inversion Heq; reflexivity].
  cbv zeta. destruct (String.eqb_spec (strip data) "") as [Hblank |].
  - intros Heq. inversion Heq. cbn [option_map]. rewrite Hblank. reflexivity.
  - cbv iota. destruct (has_null_character (strip data)); intros Heq; inversion Heq.
    reflexivity.
Qed.

Lemma AnswerSerializer_run_validation_returns (d : request.answer_data) (s : db.Store)
    (a : AnswerSerializer.attrs) :
  AnswerSerializer.run_validation d s = inr a ->
  Question.id (AnswerSerializer.question a) = request.question d
  /\ AnswerSerializer.text a = option_map strip (request.text d)
  /\ AnswerSerializer.choice a = request.choice d
  /\ AnswerSerializer.validate a = inr a.
Proof.
  unfold AnswerSerializer.run_validation, AnswerSerializer.to_internal_value.
  destruct (find _ (db.questions s)) as [q |] eqn:Hfind; [| discriminate].
  apply find_some in Hfind. destruct Hfind as [_ Hid]. apply Z.eqb_eq in Hid.
  destruct (AnswerSerializer.text_field (request.text d)) as [e | text] eqn:Htext;
    [discriminate |].
  apply text_field_returns in Htext.
  destruct (request.choice d) as [cs |] eqn:Hchoice.
  - destruct (forallb _ cs); [| discriminate].
    intros Hval. pose proof (AnswerSerializer_validate_returns _ _ Hval) as ->.
    simpl. auto.
  - intros Hval. pose proof (AnswerSerializer_validate_returns _ _ Hval) as ->.
    simpl. auto.
Qed.

Section Validation.

Context `{conv : PkConversion}.

Lemma UserPollSerializer_validate_returns (pk : string) (a a' : UserPollSerializer.attrs)
    (s : db.Store) :
  UserPollSerializer.validate pk a s = inr a' ->
  a' = a
  /\ exists poll,
       db.get_poll pk s = inr poll
       /\ List.length (db.poll_questions poll s) = List.length (UserPollSerializer.answers a)
       /\ set_eqb
            (map Question.id (map AnswerSerializer.question (UserPollSerializer.answers a)))
            (map Question.id (db.poll_questions poll s)) = true.
Proof.
  unfold UserPollSerializer.validate.
  destruct (for_each_pure _ (UserPollSerializer.answers a)) as [e | us]; [discriminate |].
  destruct (db.get_poll pk s) as [e | poll]; [discriminate |].
  destruct (Nat.eqb _ _) eqn:Hlen; simpl; [| discriminate].
  destruct (set_eqb _ _) eqn:Hset; simpl; [| discriminate].
  intros Heq. inversion Heq; subst. split; [reflexivity |].
  exists poll. apply Nat.eqb_eq in Hlen. auto.
Qed.

(** What an accepted vote has been checked for. *)
Lemma UserPollSerializer_run_validation_returns (pk : string) (d : request.vote_data)
    (s : db.Store) (a : UserPollSerializer.attrs) :
  UserPollSerializer.run_validation pk d s = inr a ->
  Forall2 (fun x y => AnswerSerializer.run_validation x s = inr y)
    (request.answers d) (UserPollSerializer.answers a)
  /\ UserPollSerializer.anonymous_id a = request.anonymous_id d
  /\ exists poll,
       db.get_poll pk s = inr poll
       /\ List.length (db.poll_questions poll s) = List.length (request.answers d)
       /\ set_eqb (map request.question (request.answers d))
            (map Question.id (db.poll_questions poll s)) = true.
Proof.
  unfold UserPollSerializer.run_validation, UserPollSerializer.to_internal_value.
  destruct (for_each_collect _ (request.answers d)) as [e | answers] eqn:Hfields;
    [discriminate |].
  intros Hval. apply UserPollSerializer_validate_returns in Hval.
  destruct Hval as [-> [poll [Hpoll [Hlen Hset]]]]. simpl in *.
  apply for_each_collect_returns in Hfields.
  assert (Hids : map Question.id (map AnswerSerializer.question answers)
                 = map request.question (request.answers d)).
  { clear - Hfields. induction Hfields as [| x y xs ys Hxy _ IH]; simpl.
    - reflexivity.
    - apply AnswerSerializer_run_validation_returns in Hxy.
      destruct Hxy as [Hid _]. rewrite Hid, IH. reflexivity. }
  split; [exact Hfields |]. split; [reflexivity |].
  exists poll. rewrite <- Hids.
  rewrite (Forall2_length Hfields). auto.
Qed.

(** An accepted vote answers the questions of the poll, each once. *)
Lemma accepted_answers_permute_questions (pk : string) (d : request.vote_data)
    (s : db.Store) (a : UserPollSerializer.attrs) :
  unique_question_ids s ->
  UserPollSerializer.run_validation pk d s = inr a ->
  exists poll,
    db.get_poll pk s = inr poll
    /\ Permutation (map request.question (request.answers d))
         (map Question.id (db.poll_questions poll s)).
Proof.
  intros Hkeys Hval.
  apply UserPollSerializer_run_validation_returns in Hval.
  destruct Hval as [_ [_ [poll [Hpoll [Hlen Hset]]]]].
  exists poll. split; [exact Hpoll |].
  apply set_eqb_incl in Hset. destruct Hset as [_ Hincl].
  symmetry. apply NoDup_Permutation_bis.
  - apply poll_questions_unique_ids. exact Hkeys.
  - rewrite !length_map. rewrite Hlen. apply Nat.le_refl.
  - exact Hincl.
Qed.

End Validation.

Lemma relink_new_row (rows : list Answer.t) (row row' : Answer.t) :
  Answer.id row = Some (next_id (Answer.keys rows)) ->
  map (fun r => if option_eqb Z.eqb (Answer.id r) (Answer.id row) then row' else r)
    (rows ++ [row])%list
  = (rows ++ [row'])%list.
Proof.
  intros Hid. rewrite map_app. simpl. rewrite Hid. simpl. rewrite Z.eqb_refl.
  f_equal. rewrite <- (map_id rows) at 2. apply map_ext_in.
  intros r Hr. destruct (Answer.id r) as [k |] eqn:Hk; simpl; [| reflexivity].
  assert (Hlt : k < next_id (Answer.keys rows)).
  { apply next_id_above. unfold Answer.keys. apply in_flat_map.
    exists r. rewrite Hk. simpl. auto. }
  destruct (Z.eqb_spec k (next_id (Answer.keys rows))); [lia | reflexivity].
Qed.

(** One turn of the loop of [create]: a [ValueError] of [Answer.save] comes
    out as a validation error and nothing is written, otherwise one row is
    added. *)
Lemma create_answer_spec (r : request.t) (vd : UserPollSerializer.attrs)
    (a : AnswerSerializer.attrs) (s : db.Store) :
  let user := request.user r in
  let anon := UserPollSerializer.anonymous_id vd in
  UserPollSerializer.create_answer r vd a s =
    if request.is_authenticated r && truthy_int anon
    then (inl (ValidationError "Cant use user auth and anonymous token both"), s)
    else if already_voted user anon (Question.id (AnswerSerializer.question a)) (db.answers s)
    then (inl (ValidationError "Value not unique"), s)
    else (inr (vote_row user anon a (db.answers s)),
          db.set_answers s (db.answers s ++ [vote_row user anon a (db.answers s)])%list).
Proof.
  intros user anon.
  unfold UserPollSerializer.create_answer, atomic, except, bind, db.on_answers,
    Answer.objects_create, Answer.save, request.is_authenticated.
  fold user. fold anon. cbn [Answer.user_id Answer.anonymous_id].
  destruct (match user with Some _ => true | None => false end && truthy_int anon) eqn:Hboth.
  - unfold raise. reflexivity.
  - unfold UniqueTogetherValidator._validate_unique_together_for_null_fields, bind, gets.
    unfold Answer.same_voter_and_question, already_voted.
    cbn [Answer.user_id Answer.anonymous_id Answer.question_id].
    destruct (existsb _ (db.answers s)) eqn:Hdup.
    + unfold raise. reflexivity.
    + unfold ret, Answer.Model_save, bind, gets, modify, ret. cbn [Answer.id].
      destruct (AnswerSerializer.choice a) as [[| c cs] |] eqn:Hchoice.
      * unfold vote_row. rewrite Hchoice. reflexivity.
      * unfold Answer.choice_add, bind, modify, ret, db.set_answers.
        cbn [db.answers db.polls db.questions db.choiceanswers].
        rewrite relink_new_row by reflexivity.
        unfold vote_row. rewrite Hchoice. reflexivity.
      * unfold vote_row. rewrite Hchoice. reflexivity.
Qed.

Lemma set_answers_same (s : db.Store) : db.set_answers s (db.answers s) = s.
Proof. destruct s; reflexivity. Qed.

Lemma already_voted_app (user anon : option Z) (q : Z) (rows rows' : list Answer.t) :
  already_voted user anon q (rows ++ rows')%list
  = already_voted user anon q rows || already_voted user anon q rows'.
Proof. unfold already_voted. apply existsb_app. Qed.

(** The loop of [create] when it runs to its end: it has added one row per
    answer, in order, and no answer was a second vote. *)
Lemma create_loop_returns (r : request.t) (vd : UserPollSerializer.attrs)
    (l : list AnswerSerializer.attrs) (s s' : db.Store) (rows : list Answer.t) :
  for_each (UserPollSerializer.create_answer r vd) l s = (inr rows, s') ->
  s' = db.set_answers s (db.answers s ++ rows)%list
  /\ Forall2 (row_of (request.user r) (UserPollSerializer.anonymous_id vd)) l rows
  /\ Forall (fun a => already_voted (request.user r) (UserPollSerializer.anonymous_id vd)
                        (Question.id (AnswerSerializer.question a)) (db.answers s) = false) l.
Proof.
  revert s s' rows. induction l as [| a l IH]; intros s s' rows; cbn [for_each].
  - unfold ret. intros Heq. inversion Heq; subst.
    rewrite app_nil_r, set_answers_same. auto.
  - intros Hrun. apply bind_returns in Hrun. destruct Hrun as [row [s1 [Hbody Hrest]]].
    apply bind_returns in Hrest. destruct Hrest as [rows' [s2 [Hloop Hret]]].
    unfold ret in Hret. inversion Hret; subst. clear Hret.
    rewrite create_answer_spec in Hbody. cbv zeta in Hbody.
    destruct (request.is_authenticated r && _); [discriminate |].
    destruct (already_voted _ _ _ (db.answers s)) eqn:Hvoted; [discriminate |].
    inversion Hbody; subst. clear Hbody.
    apply IH in Hloop. destruct Hloop as [Hs' [Hrows Hfresh]].
    cbn [db.set_answers db.answers] in Hs', Hfresh.
    split; [| split].
    + rewrite Hs'. unfold db.set_answers. cbn [db.polls db.questions db.choiceanswers].
      rewrite <- app_assoc. reflexivity.
    + constructor; [eexists; reflexivity | exact Hrows].
    + constructor; [exact Hvoted |].
      eapply Forall_impl; [| exact Hfresh].
      intros a0 Ha0. cbv beta in Ha0. rewrite already_voted_app in Ha0.
      apply orb_false_iff in Ha0. tauto.
Qed.

(** The loop of [create] raises nothing but the two errors of
    [Answer.save]; for a caller the permission class lets through it is the
    one of a second vote. *)
Lemma create_loop_raises (r : request.t) (vd : UserPollSerializer.attrs)
    (l : list AnswerSerializer.attrs) (s s' : db.Store) (e : exn) :
  request.is_authenticated r && truthy_int (UserPollSerializer.anonymous_id vd) = false ->
  for_each (UserPollSerializer.create_answer r vd) l s = (inl e, s') ->
  e = ValidationError "Value not unique".
Proof.
  intros Hone. revert s s'. induction l as [| a l IH]; intros s s'; cbn [for_each].
  - unfold ret. discriminate.
  - intros Hrun. apply bind_raises in Hrun.
    destruct Hrun as [Hbody | [row [s1 [Hbody Hrest]]]].
    + rewrite create_answer_spec in Hbody. cbv zeta in Hbody. rewrite Hone in Hbody.
      destruct (already_voted _ _ _ (db.answers s)); inversion Hbody; reflexivity.
    + apply bind_raises in Hrest. destruct Hrest as [Hloop | [rows [s2 [_ Hret]]]].
      * eapply IH. exact Hloop.
      * unfold ret in Hret. discriminate.
Qed.

(** [create] as a whole. *)
Lemma create_returns (r : request.t) (vd : UserPollSerializer.attrs) (s s' : db.Store)
    (res : UserPollSerializer.result) :
  UserPollSerializer.create r vd s = (inr res, s') ->
  s' = db.set_answers s (db.answers s ++ UserPollSerializer.result_answers res)%list
  /\ Forall2 (row_of (request.user r) (UserPollSerializer.anonymous_id vd))
       (UserPollSerializer.answers vd) (UserPollSerializer.result_answers res)
  /\ Forall (fun a => already_voted (request.user r) (UserPollSerializer.anonymous_id vd)
                        (Question.id (AnswerSerializer.question a)) (db.answers s) = false)
       (UserPollSerializer.answers vd).
Proof.
  unfold UserPollSerializer.create. intros Hrun.
  apply bind_returns in Hrun. destruct Hrun as [rows [s1 [Hloop Hret]]].
  unfold ret in Hret. inversion Hret; subst. clear Hret. cbn [UserPollSerializer.result_answers].
  apply create_loop_returns. exact Hloop.
Qed.

Lemma create_raises (r : request.t) (vd : UserPollSerializer.attrs) (s s' : db.Store)
    (e : exn) :
  request.is_authenticated r && truthy_int (UserPollSerializer.anonymous_id vd) = false ->
  UserPollSerializer.create r vd s = (inl e, s') ->
  e = ValidationError "Value not unique".
Proof.
  unfold UserPollSerializer.create. intros Hone Hrun.
  apply bind_raises in Hrun. destruct Hrun as [Hloop | [rows [s1 [_ Hret]]]].
  - eapply create_loop_raises; eassumption.
  - unfold ret in Hret. discriminate.
Qed.

Lemma add_links_spec (objs linked : list Z) :
  NoDup linked ->
  NoDup (Answer.add_links linked objs)
  /\ forall c, In c (Answer.add_links linked objs) <-> In c linked \/ In c objs.
Proof.
  unfold Answer.add_links. revert linked.
  induction objs as [| o objs IH]; intros linked Hnd; cbn [fold_left].
  - split; [exact Hnd |]. intros c. simpl. tauto.
  - destruct (existsb (Z.eqb o) linked) eqn:Hin.
    + destruct (IH linked Hnd) as [Hnd' Hiff]. split; [exact Hnd' |].
      intros c. rewrite Hiff. apply existsb_Zeqb_In in Hin. simpl.
      intuition (subst; auto).
    + assert (Hnotin : ~ In o linked).
      { intros Ho. apply existsb_Zeqb_In in Ho. congruence. }
      assert (Hnd1 : NoDup (linked ++ [o])%list).
      { apply NoDup_app; [exact Hnd | repeat constructor; simpl; tauto |].
        intros x Hx [Hxo | []]. subst. contradiction. }
      destruct (IH _ Hnd1) as [Hnd' Hiff]. split; [exact Hnd' |].
      intros c. rewrite Hiff, in_app_iff. simpl. tauto.
Qed.

(** The row stored for a validated answer is the row of what was sent. *)
Lemma row_of_stored_as (r : request.t) (vd : UserPollSerializer.attrs)
    (d : request.answer_data) (a : AnswerSerializer.attrs) (s : db.Store) (row : Answer.t) :
  UserPollSerializer.anonymous_id vd = request.anonymous_id (request.data r) ->
  AnswerSerializer.run_validation d s = inr a ->
  row_of (request.user r) (UserPollSerializer.anonymous_id vd) a row ->
  stored_as r d row.
Proof.
  intros Hanon Hval [rows ->].
  apply AnswerSerializer_run_validation_returns in Hval.
  destruct Hval as [Hq [Htext [Hchoice _]]].
  unfold stored_as, vote_row, submitted_choices.
  cbn [Answer.id Answer.question_id Answer.text Answer.user_id Answer.anonymous_id
       Answer.choice].
  rewrite <- Hchoice.
  repeat split; auto; try discriminate.
  - destruct (AnswerSerializer.choice a) as [cs |].
    + apply add_links_spec. constructor.
    + constructor.
  - destruct (AnswerSerializer.choice a) as [cs |]; [| tauto].
    intros Hc. apply (add_links_spec cs []) in Hc; [| constructor]. simpl in Hc. tauto.
  - destruct (AnswerSerializer.choice a) as [cs |]; [| tauto].
    intros Hc. apply (add_links_spec cs []); [constructor | auto].
Qed.

Lemma rows_stored_as (r : request.t) (vd : UserPollSerializer.attrs) (s : db.Store)
    (ds : list request.answer_data) (l : list AnswerSerializer.attrs)
    (rows : list Answer.t) :
  UserPollSerializer.anonymous_id vd = request.anonymous_id (request.data r) ->
  Forall2 (fun d a => AnswerSerializer.run_validation d s = inr a) ds l ->
  Forall2 (row_of (request.user r) (UserPollSerializer.anonymous_id vd)) l rows ->
  Forall2 (stored_as r) ds rows.
Proof.
  intros Hanon Hfields. revert rows.
  induction Hfields as [| d a ds l Hda _ IH]; intros rows Hrows.
  - inversion Hrows. constructor.
  - inversion Hrows as [| a0 row l0 rows0 Hrow Hrest]; subst.
    constructor; [| apply IH; exact Hrest].
    eapply row_of_stored_as; eassumption.
Qed.

(** ** The vote handler *)

Section Vote.

Context `{conv : PkConversion}.

(** The four ways a vote ends. *)
Lemma post_cases (pk : string) (r : request.t) (s : db.Store) :
  UserPolls.post pk r s =
    if UserPollsPermission.has_permission r action.vote_in_poll
    then
      match UserPollSerializer.run_validation pk (request.data r) s with
      | inl e => (inl e, s)
      | inr validated_data =>
          match UserPollSerializer.create r validated_data s with
          | (inl e, _) => (inl e, s)
          | (inr res, s') => (inr res, s')
          end
      end
    else (inl PermissionDenied, s).
Proof.
  unfold UserPolls.post, UserPolls.check_permissions, UserPolls.vote_in_poll.
  destruct (UserPollsPermission.has_permission r action.vote_in_poll).
  - unfold bind at 1. unfold ret at 1. unfold atomic, bind, reads.
    destruct (UserPollSerializer.run_validation pk (request.data r) s) as [e | vd];
      [reflexivity |].
    destruct (UserPollSerializer.create r vd s) as [[e | res] s']; reflexivity.
  - reflexivity.
Qed.

(** A caller the permission class lets through is authenticated or sends
    a token in the body that counts, never both. *)
Lemma has_permission_one_identity (r : request.t) :
  UserPollsPermission.has_permission r action.vote_in_poll = true ->
  request.is_authenticated r && truthy_int (request.anonymous_id (request.data r)) = false.
Proof.
  unfold UserPollsPermission.has_permission. cbn [existsb action.eqb orb].
  destruct (request.is_authenticated r); [| reflexivity].
  destruct (truthy_int (request.anonymous_id (request.data r))); [| reflexivity].
  rewrite orb_true_r. simpl. discriminate.
Qed.

(** A vote that raises leaves the store as it was. *)
Lemma post_raises_unchanged (pk : string) (r : request.t) (s s' : db.Store) (e : exn) :
  UserPolls.post pk r s = (inl e, s') -> s' = s.
Proof.
  rewrite post_cases.
  destruct (UserPollsPermission.has_permission r action.vote_in_poll).
  - destruct (UserPollSerializer.run_validation pk (request.data r) s) as [e0 | vd].
    + intros Heq. inversion Heq. reflexivity.
    + destruct (UserPollSerializer.create r vd s) as [[e0 | res] s0];
        intros Heq; inversion Heq. reflexivity.
  - intros Heq. inversion Heq. reflexivity.
Qed.

(** A vote that returns was validated and written by [create]. *)
Lemma post_returns (pk : string) (r : request.t) (s s' : db.Store)
    (res : UserPollSerializer.result) :
  UserPolls.post pk r s = (inr res, s') ->
  UserPollsPermission.has_permission r action.vote_in_poll = true
  /\ exists vd,
       UserPollSerializer.run_validation pk (request.data r) s = inr vd
       /\ UserPollSerializer.create r vd s = (inr res, s').
Proof.
  rewrite post_cases.
  destruct (UserPollsPermission.has_permission r action.vote_in_poll); [| discriminate].
  destruct (UserPollSerializer.run_validation pk (request.data r) s) as [e0 | vd];
    [discriminate |].
  destruct (UserPollSerializer.create r vd s) as [[e0 | res0] s0] eqn:Hcreate;
    [discriminate |].
  intros Heq. inversion Heq; subst. split; [reflexivity |]. exists vd. auto.
Qed.

End Vote.

(** ** Claims on the vote *)

(** C3: a vote is accepted only if the question keys of its answers are,
    as a multiset, exactly the set of the question keys of the poll looked
    up under the key of the URL: the answered keys are a permutation of the
    keys of the poll's questions and hold no key twice.  So a vote with a
    question missing, with one too many, with a question answered twice or
    with a question of another poll is not accepted; and a vote that is
    not accepted leaves the store, and with it the table of answers, as it
    was. *)
Theorem vote_accepted_only_for_exact_question_set `{conv : PkConversion}
    (pk : string) (r : request.t) (s : db.Store) :
  unique_question_ids s ->
  match UserPolls.post pk r s with
  | (inr _, _) =>
      exists poll,
        db.get_poll pk s = inr poll
        /\ Permutation (map request.question (request.answers (request.data r)))
             (map Question.id (db.poll_questions poll s))
        /\ NoDup (map request.question (request.answers (request.data r)))
  | (inl _, s') => s' = s
  end.
Proof.
  intros Hkeys.
  destruct (UserPolls.post pk r s) as [[e | res] s'] eqn:Hpost.
  - eapply post_raises_unchanged. exact Hpost.
  - apply post_returns in Hpost. destruct Hpost as [_ [vd [Hval _]]].
    destruct (accepted_answers_permute_questions pk _ s vd Hkeys Hval)
      as [poll [Hpoll Hperm]].
    exists poll. split; [exact Hpoll |]. split; [exact Hperm |].
    eapply Permutation_NoDup; [symmetry; exact Hperm |].
    apply poll_questions_unique_ids. exact Hkeys.
Qed.

Lemma fixture_unique_question_ids (published : bool) :
  unique_question_ids (fixture.store published).
Proof.
  unfold unique_question_ids. simpl.
  repeat constructor; simpl; intuition discriminate.
Defined.

(** The complete vote of voter 42 in poll 1 is accepted, and its answers
    are those to the questions 1 and 2 of the poll. *)
Lemma vote_accepted_only_for_exact_question_set_witness :
  unique_question_ids (fixture.store true)
  /\ exists poll,
       db.get_poll (conv := decimal_pk) "1" (fixture.store true) = inr poll
       /\ Permutation [1; 2] (map Question.id (db.poll_questions poll (fixture.store true)))
       /\ NoDup [1; 2].
Proof.
  split.
  - apply fixture_unique_question_ids.
  - exact (vote_accepted_only_for_exact_question_set (conv := decimal_pk) "1" fixture.vote42
             (fixture.store true) (fixture_unique_question_ids true)).
Defined.

(** Votes in poll 1 that miss question 2, add question 3 of poll 2, answer
    question 1 twice, or answer question 3 in place of question 2: each is
    refused and the store stays as it was. *)
Example votes_with_another_question_set_refused :
  let s := fixture.store true in
  let a1 := fixture.answer 1 None (Some [1]) in
  let a2 := fixture.answer 2 (Some "hello") None in
  let a3 := fixture.answer 3 (Some "hello") None in
  UserPolls.post (conv := decimal_pk) "1" (fixture.vote [a1] (Some 42)) s
    = (inl (ValidationError "pls answer the all questions"), s)
  /\ UserPolls.post (conv := decimal_pk) "1" (fixture.vote [a1; a2; a3] (Some 42)) s
    = (inl (ValidationError "Invalid question id for this poll"), s)
  /\ UserPolls.post (conv := decimal_pk) "1" (fixture.vote [a1; a1] (Some 42)) s
    = (inl (ValidationError "Invalid question ids for this poll"), s)
  /\ UserPolls.post (conv := decimal_pk) "1" (fixture.vote [a1; a3] (Some 42)) s
    = (inl (ValidationError "Invalid question id for this poll"), s).
Proof. repeat split. Qed.

(** C5: a vote is all or nothing.  When the call returns, the store has
    gained exactly the returned rows of answers, one per submitted answer
    and one per question of the poll, each with the text of its answer as
    the character field passes it on (stripped of the white space around
    it), the voter and the choice links of its answer, and nothing else
    has changed; when the call
    raises, at the permission check, in validation or while writing (a
    second vote met at a later answer included), the store is the one
    before the call. *)
Theorem vote_all_or_nothing `{conv : PkConversion} (pk : string) (r : request.t) (s : db.Store) :
  unique_question_ids s ->
  match UserPolls.post pk r s with
  | (inr res, s') =>
      let rows := UserPollSerializer.result_answers res in
      exists poll,
        db.get_poll pk s = inr poll
        /\ s' = db.set_answers s (db.answers s ++ rows)%list
        /\ Forall2 (stored_as r) (request.answers (request.data r)) rows
        /\ Permutation (map Answer.question_id rows)
             (map Question.id (db.poll_questions poll s))
  | (inl _, s') => s' = s
  end.
Proof.
  intros Hkeys.
  destruct (UserPolls.post pk r s) as [[e | res] s'] eqn:Hpost.
  - eapply post_raises_unchanged. exact Hpost.
  - apply post_returns in Hpost. destruct Hpost as [_ [vd [Hval Hcreate]]].
    destruct (accepted_answers_permute_questions pk _ s vd Hkeys Hval)
      as [poll [Hpoll Hperm]].
    apply UserPollSerializer_run_validation_returns in Hval.
    destruct Hval as [Hfields [Hanon _]].
    apply create_returns in Hcreate. destruct Hcreate as [Hs' [Hrows _]].
    pose proof (rows_stored_as r vd s _ _ _ Hanon Hfields Hrows) as Hstored.
    cbv zeta. exists poll.
    split; [exact Hpoll |]. split; [exact Hs' |]. split; [exact Hstored |].
    rewrite <- Hperm. clear - Hstored.
    induction Hstored as [| d row ds rows Hd _ IH]; simpl.
    + constructor.
    + destruct Hd as [_ [Hq _]]. rewrite Hq. constructor. exact IH.
Qed.

(** The complete vote of voter 42 stores its two answers, the first with
    its link to choice 1. *)
Lemma vote_all_or_nothing_witness :
  unique_question_ids (fixture.store true)
  /\ UserPolls.post (conv := decimal_pk) "1" fixture.vote42 (fixture.store true)
     = (inr {| UserPollSerializer.result_answers := db.answers (fixture.voted true);
               UserPollSerializer.result_anonymous_id := Some 42 |},
        fixture.voted true)
  /\ exists poll,
       db.get_poll (conv := decimal_pk) "1" (fixture.store true) = inr poll
       /\ fixture.voted true
          = db.set_answers (fixture.store true)
              (db.answers (fixture.store true) ++ db.answers (fixture.voted true))%list
       /\ Forall2 (stored_as fixture.vote42)
            (request.answers (request.data fixture.vote42))
            (db.answers (fixture.voted true))
       /\ Permutation (map Answer.question_id (db.answers (fixture.voted true)))
            (map Question.id (db.poll_questions poll (fixture.store true))).
Proof.
  split; [apply fixture_unique_question_ids |].
  split; [reflexivity |].
  exact (vote_all_or_nothing (conv := decimal_pk) "1" fixture.vote42 (fixture.store true)
           (fixture_unique_question_ids true)).
Defined.

Lemma Forall2_In_left {A B} (R : A -> B -> Prop) (l : list A) (l' : list B) (x : A) :
  Forall2 R l l' -> In x l -> exists y, In y l' /\ R x y.
Proof.
  induction 1 as [| a b l l' Hab _ IH]; intros Hin.
  - destruct Hin.
  - destruct Hin as [-> | Hin].
    + exists b. split; [left; reflexivity | exact Hab].
    + destruct (IH Hin) as [y [Hy Hxy]]. exists y. split; [right; exact Hy | exact Hxy].
Qed.

Lemma votes_of_already_voted (user anon : option Z) (q : Z) (s : db.Store) :
  votes_of user anon q s <> [] -> already_voted user anon q (db.answers s) = true.
Proof.
  unfold votes_of, already_voted. intros Hrows.
  destruct (filter _ (db.answers s)) as [| row rows] eqn:Hfilter; [congruence |].
  assert (Hin : In row (filter
                  (fun row => option_eqb Z.eqb (Answer.user_id row) user
                              && option_eqb Z.eqb (Answer.anonymous_id row) anon
                              && Z.eqb (Answer.question_id row) q) (db.answers s))).
  { rewrite Hfilter. left. reflexivity. }
  apply filter_In in Hin. apply existsb_exists. exists row. exact Hin.
Qed.

Lemma for_each_collect_raises {A B} (body : A -> exn + B) (xs : list A) (e : exn) :
  for_each_collect body xs = inl e -> exists x, In x xs /\ body x = inl e.
Proof.
  induction xs as [| x xs IH]; cbn [for_each_collect]; intros Heq.
  - discriminate.
  - destruct (body x) as [e0 | y] eqn:Hx.
    + assert (Hcase : e = e0 \/ for_each_collect body xs = inl e).
      { destruct e0; try (left; congruence);
          destruct (for_each_collect body xs) as [[] | ys];
          try (left; congruence); right; congruence. }
      destruct Hcase as [-> | Hrest].
      * exists x. split; [left; reflexivity | exact Hx].
      * destruct (IH Hrest) as [x' [Hin Hx']]. exists x'. split; [right |]; assumption.
    + destruct (for_each_collect body xs) as [e1 | ys] eqn:Hxs; [| discriminate].
      inversion Heq; subst.
      destruct (IH eq_refl) as [x' [Hin Hx']]. exists x'. split; [right |]; assumption.
Qed.

Lemma for_each_pure_raises {A B} (body : A -> exn + B) (xs : list A) (e : exn) :
  for_each_pure body xs = inl e -> exists x, In x xs /\ body x = inl e.
Proof.
  induction xs as [| x xs IH]; cbn [for_each_pure]; intros Heq.
  - discriminate.
  - destruct (body x) as [e0 | y] eqn:Hx.
    + inversion Heq; subst. exists x. split; [left; reflexivity | exact Hx].
    + destruct (for_each_pure body xs) as [e1 | ys]; [| discriminate].
      inversion Heq; subst.
      destruct (IH eq_refl) as [x' [Hin Hx']]. exists x'. split; [right |]; assumption.
Qed.

(** The error of a second vote is none of the errors of validation. *)
Lemma validation_error_is_not_second_vote `{conv : PkConversion} (pk : string)
    (d : request.vote_data) (s : db.Store) (e : exn) :
  UserPollSerializer.run_validation pk d s = inl e ->
  e <> ValidationError "Value not unique".
Proof.
  unfold UserPollSerializer.run_validation, UserPollSerializer.to_internal_value.
  destruct (for_each_collect _ (request.answers d)) as [e0 | answers] eqn:Hfields.
  - intros Heq. inversion Heq; subst. clear Heq.
    apply for_each_collect_raises in Hfields. destruct Hfields as [x [_ Hx]].
    unfold AnswerSerializer.run_validation, AnswerSerializer.to_internal_value in Hx.
    destruct (find _ (db.questions s)) as [q |]; [| inversion Hx; discriminate].
    destruct (AnswerSerializer.text_field (request.text x)) as [e1 | text] eqn:Htext.
    { inversion Hx; subst.
      unfold AnswerSerializer.text_field, CharField.run_validation in Htext.
      destruct (request.text x) as [data |]; [| discriminate]. cbv zeta in Htext.
      destruct (String.eqb (strip data) ""); [discriminate |]. cbv iota in Htext.
      destruct (has_null_character (strip data)); inversion Htext. discriminate. }
    assert (Hvalidate : forall a, AnswerSerializer.validate a = inl e ->
                                  e <> ValidationError "Value not unique").
    { intros a. unfold AnswerSerializer.validate.
      destruct (Question.type (AnswerSerializer.question a)).
      - destruct (AnswerSerializer.choice a); intros Heq; inversion Heq. discriminate.
      - destruct (AnswerSerializer.choice a); cbn [len].
        + destruct (Nat.ltb 1 _ || _); intros Heq; inversion Heq. discriminate.
        + intros Heq; inversion Heq. discriminate.
      - destruct (AnswerSerializer.text a); intros Heq; inversion Heq. discriminate. }
    destruct (request.choice x) as [cs |].
    + destruct (forallb _ cs); [exact (Hvalidate _ Hx) | inversion Hx; discriminate].
    + exact (Hvalidate _ Hx).
  - unfold UserPollSerializer.validate.
    destruct (for_each_pure _ (UserPollSerializer.answers _)) as [e0 | us] eqn:Hloop.
    + intros Heq. inversion Heq; subst. clear Heq.
      apply for_each_pure_raises in Hloop. destruct Hloop as [x [_ Hx]].
      destruct (negb _); inversion Hx. discriminate.
    + unfold db.get_poll. destruct (to_python pk) as [k |].
      * destruct (find _ (db.polls s)) as [poll |].
        -- destruct (negb (Nat.eqb _ _)); [intros Heq; inversion Heq; discriminate |].
           destruct (negb (set_eqb _ _)); intros Heq; inversion Heq. discriminate.
        -- intros Heq. inversion Heq. discriminate.
      * intros Heq. inversion Heq. discriminate.
Qed.

(** A voter with a row for a question is found by the filter of
    [Answer.save], in a store where no row has both a user and a token. *)
Lemma rows_of_voter_found (r : request.t) (v : voter) (q : Z) (s : db.Store) :
  (forall row, In row (db.answers s) -> one_identity row) ->
  request_voter r = Some v ->
  rows_of_voter v q s <> [] ->
  votes_of (request.user r) (request.anonymous_id (request.data r)) q s <> [].
Proof.
  intros Hone Hvoter Hrows.
  assert (Hrow : exists row, In row (rows_of_voter v q s)).
  { destruct (rows_of_voter v q s) as [| row rows]; [congruence |].
    exists row. left. reflexivity. }
  destruct Hrow as [row Hrow]. unfold rows_of_voter in Hrow.
  apply filter_In in Hrow. destruct Hrow as [Hin Hmatch].
  apply andb_true_iff in Hmatch. destruct Hmatch as [Hv Hq].
  assert (Hfound : In row (votes_of (request.user r)
                             (request.anonymous_id (request.data r)) q s)).
  { unfold votes_of. apply filter_In. split; [exact Hin |]. rewrite Hq, andb_true_r.
    unfold request_voter in Hvoter.
    destruct (request.user r) as [u |], (request.anonymous_id (request.data r)) as [a |];
      try discriminate.
    - inversion Hvoter; subst v. cbn [is_row_of] in Hv. rewrite Hv. cbn [andb].
      apply option_eqb_Z_eq in Hv.
      destruct (Hone row Hin) as [Hnone | Hnone]; [congruence |].
      rewrite Hnone. reflexivity.
    - destruct (Z.eqb a 0); [discriminate |].
      inversion Hvoter; subst v. cbn [is_row_of] in Hv. rewrite Hv, andb_true_r.
      apply option_eqb_Z_eq in Hv.
      destruct (Hone row Hin) as [Hnone | Hnone]; [| congruence].
      rewrite Hnone. reflexivity. }
  intros Hnil. rewrite Hnil in Hfound. destruct Hfound.
Qed.

(** C4, as the code has it by design.  A voter is an authenticated user or
    the token of a caller who is not authenticated, and the store holds no
    row with both a user and a token.  A vote of a voter that passes the
    permission check and validation and answers a question for which the
    voter already has a row of answers raises the error of a second vote,
    "Value not unique", and leaves the store as it was, so that the voter
    keeps the rows it had.  A vote that answers a question twice within
    one call does not reach the write phase: validation refuses it with an
    error that is not the error of a second vote, and the store is as it
    was.  Votes with the token 0 are left out. *)
Theorem second_vote_refused `{conv : PkConversion} (pk : string) (r : request.t) (s : db.Store)
    (v : voter) :
  unique_question_ids s ->
  (forall row, In row (db.answers s) -> one_identity row) ->
  UserPollsPermission.has_permission r action.vote_in_poll = true ->
  request_voter r = Some v ->
  (forall vd d,
     UserPollSerializer.run_validation pk (request.data r) s = inr vd ->
     In d (request.answers (request.data r)) ->
     rows_of_voter v (request.question d) s <> [] ->
     UserPolls.post pk r s = (inl (ValidationError "Value not unique"), s))
  /\ (~ NoDup (map request.question (request.answers (request.data r))) ->
      exists e,
        UserPollSerializer.run_validation pk (request.data r) s = inl e
        /\ e <> ValidationError "Value not unique"
        /\ UserPolls.post pk r s = (inl e, s)).
Proof.
  intros Hkeys Hone Hperm Hvoter. split.
  - intros vd d Hval Hd Hrows.
    pose proof (rows_of_voter_found r v _ s Hone Hvoter Hrows) as Hvoted.
    rewrite post_cases, Hperm, Hval.
    pose proof (UserPollSerializer_run_validation_returns _ _ _ _ Hval)
      as [Hfields [Hanon _]].
    destruct (UserPollSerializer.create r vd s) as [[e | res] s'] eqn:Hcreate.
    + apply create_raises in Hcreate; [subst; reflexivity |].
      rewrite Hanon. apply has_permission_one_identity. exact Hperm.
    + exfalso. apply create_returns in Hcreate. destruct Hcreate as [_ [_ Hfresh]].
      destruct (Forall2_In_left _ _ _ _ Hfields Hd) as [a [Ha Hda]].
      rewrite Forall_forall in Hfresh. specialize (Hfresh a Ha).
      apply AnswerSerializer_run_validation_returns in Hda. destruct Hda as [Hq _].
      rewrite Hq, Hanon in Hfresh.
      apply votes_of_already_voted in Hvoted. congruence.
  - intros Hdup. rewrite post_cases, Hperm.
    destruct (UserPollSerializer.run_validation pk (request.data r) s) as [e | vd] eqn:Hval.
    + exists e. split; [reflexivity |]. split; [| reflexivity].
      eapply validation_error_is_not_second_vote. exact Hval.
    + exfalso. apply Hdup.
      destruct (accepted_answers_permute_questions pk _ s vd Hkeys Hval)
        as [poll [_ Hpermute]].
      eapply Permutation_NoDup; [symmetry; exact Hpermute |].
      apply poll_questions_unique_ids. exact Hkeys.
Qed.

(** Voter 42 votes a second time in poll 1: the call raises the error of a
    second vote and the store keeps the two rows of the first vote.  A vote
    that answers question 1 twice is refused by validation, not with the
    error of a second vote. *)
Lemma second_vote_refused_witness :
  let twice := fixture.vote [fixture.answer 1 None (Some [1]);
                             fixture.answer 1 None (Some [1])] (Some 42) in
  (unique_question_ids (fixture.voted true)
   /\ (forall row, In row (db.answers (fixture.voted true)) -> one_identity row)
   /\ UserPollsPermission.has_permission fixture.vote42 action.vote_in_poll = true
   /\ request_voter fixture.vote42 = Some (by_token 42)
   /\ rows_of_voter (by_token 42) 1 (fixture.voted true) <> [])
  /\ UserPolls.post (conv := decimal_pk) "1" fixture.vote42 (fixture.voted true)
     = (inl (ValidationError "Value not unique"), fixture.voted true)
  /\ exists e,
       UserPollSerializer.run_validation (conv := decimal_pk) "1" (request.data twice)
         (fixture.voted true) = inl e
       /\ e <> ValidationError "Value not unique"
       /\ UserPolls.post (conv := decimal_pk) "1" twice (fixture.voted true)
          = (inl e, fixture.voted true).
Proof.
  intros twice.
  assert (Hone : forall row, In row (db.answers (fixture.voted true)) -> one_identity row).
  { intros row [<- | [<- | []]]; left; reflexivity. }
  split; [| split].
  - split; [apply (fixture_unique_question_ids true) |].
    split; [exact Hone |]. split; [reflexivity |]. split; [reflexivity | discriminate].
  - eapply (proj1 (second_vote_refused (conv := decimal_pk) "1" fixture.vote42
                     (fixture.voted true) (by_token 42)
                     (fixture_unique_question_ids true) Hone eq_refl eq_refl)).
    + reflexivity.
    + left. reflexivity.
    + discriminate.
  - apply (proj2 (second_vote_refused (conv := decimal_pk) "1" twice
                    (fixture.voted true) (by_token 42)
                    (fixture_unique_question_ids true) Hone eq_refl eq_refl)).
    intros Hnd. inversion Hnd as [| x l Hnotin _]. apply Hnotin. left. reflexivity.
Defined.

(** C4 as stated fails for a question answered twice within one call.  In
    poll 1 voter 42 answers question 1 twice and question 2 not at all: the
    call is refused by validation, with "Invalid question ids for this
    poll" and not with the error of a second vote; afterwards the store
    holds no row of voter 42 for question 1 where the claim has one; and
    the same call after a vote of voter 42 is refused with the same
    validation error. *)
Lemma duplicate_within_one_call_counterexample :
  let a1 := fixture.answer 1 None (Some [1]) in
  let twice := fixture.vote [a1; a1] (Some 42) in
  UserPolls.post (conv := decimal_pk) "1" twice (fixture.store true)
    = (inl (ValidationError "Invalid question ids for this poll"), fixture.store true)
  /\ votes_of None (Some 42) 1
       (snd (UserPolls.post (conv := decimal_pk) "1" twice (fixture.store true))) = []
  /\ UserPolls.post (conv := decimal_pk) "1" twice (fixture.voted true)
    = (inl (ValidationError "Invalid question ids for this poll"), fixture.voted true)
  /\ ~ (fst (UserPolls.post (conv := decimal_pk) "1" twice (fixture.store true))
          = inl (ValidationError "Value not unique")
        /\ List.length
             (votes_of None (Some 42) 1
                (snd (UserPolls.post (conv := decimal_pk) "1" twice (fixture.store true))))
           = 1%nat).
Proof.
  cbv zeta. repeat split.
  intros [Herr _]. vm_compute in Herr. discriminate.
Qed.

(** What the amended claim leaves out: the authenticated user 7 votes in
    poll 1 without a token, and again with the token 0 in the body.  The
    permission check and [Answer.save] take the token 0 for no token, the
    filter of [save] looks for rows with the token 0, and the second vote
    is stored: user 7 has two rows of answers for question 1. *)
Example authenticated_user_votes_again_with_token_zero :
  let answers := [fixture.answer 1 None (Some [1]); fixture.answer 2 (Some "hello") None] in
  let vote_of token :=
    {| request.user := Some 7; request.query_params_anonymous_id := None;
       request.data := {| request.answers := answers; request.anonymous_id := token |} |} in
  let s1 := snd (UserPolls.post (conv := decimal_pk) "1" (vote_of None) (fixture.store true)) in
  let s2 := snd (UserPolls.post (conv := decimal_pk) "1" (vote_of (Some 0)) s1) in
  (exists res, UserPolls.post (conv := decimal_pk) "1" (vote_of None) (fixture.store true)
               = (inr res, s1))
  /\ (exists res, UserPolls.post (conv := decimal_pk) "1" (vote_of (Some 0)) s1
                  = (inr res, s2))
  /\ List.length (rows_of_voter (by_user 7) 1 s2) = 2%nat.
Proof.
  cbv zeta. split; [eexists; reflexivity |]. split; [eexists; reflexivity | reflexivity].
Qed.

(** The text of an answer is stored stripped of the white space around
    it. *)
Example text_is_stored_stripped :
  let r := fixture.vote [fixture.answer 1 None (Some [1]);
                         fixture.answer 2 (Some "  hello ") None] (Some 42) in
  snd (UserPolls.post (conv := decimal_pk) "1" r (fixture.store true)) = fixture.voted true.
Proof. reflexivity. Qed.

(** ** The questions of a published poll *)

Section Admin.

Context `{conv : PkConversion}.

Lemma get_poll_returns (pk : string) (s : db.Store) (poll : Poll.t) :
  db.get_poll pk s = inr poll ->
  find (fun p => Z.eqb (Poll.id p) (Poll.id poll)) (db.polls s) = Some poll.
Proof.
  unfold db.get_poll. destruct (to_python pk) as [k |]; [| discriminate].
  destruct (find _ (db.polls s)) as [p |] eqn:Hfind; [| discriminate].
  intros Heq. inversion Heq; subst.
  pose proof (find_some _ _ Hfind) as [_ Hid]. apply Z.eqb_eq in Hid.
  rewrite Hid. exact Hfind.
Qed.

Lemma get_poll_or_404_returns (pk : string) (s : db.Store) (poll : Poll.t) :
  db.get_poll pk s = inr poll -> db.get_poll_or_404 pk s = inr poll.
Proof. unfold db.get_poll_or_404. intros ->. reflexivity. Qed.

Lemma get_object_returns (poll : Poll.t) (pk : string) (s : db.Store) (q : Question.t) :
  QuestionAdminViewSet.get_object poll pk s = inr q ->
  In q (db.questions s) /\ Question.poll_id q = Poll.id poll.
Proof.
  unfold QuestionAdminViewSet.get_object.
  destruct (to_python pk) as [k |]; [| discriminate].
  destruct (find _ (db.poll_questions poll s)) as [q0 |] eqn:Hfind; [| discriminate].
  intros Heq. inversion Heq; subst.
  apply find_some in Hfind. destruct Hfind as [Hin _].
  unfold db.poll_questions in Hin. apply filter_In in Hin.
  destruct Hin as [Hin Hpoll]. apply Z.eqb_eq in Hpoll. auto.
Qed.

Lemma poll_of_question (poll : Poll.t) (q : Question.t) (s : db.Store) :
  find (fun p => Z.eqb (Poll.id p) (Poll.id poll)) (db.polls s) = Some poll ->
  Question.poll_id q = Poll.id poll ->
  db.poll_of q s = inr poll.
Proof. unfold db.poll_of. intros Hfind ->. rewrite Hfind. reflexivity. Qed.

Lemma create_published (poll_pk : string) (poll : Poll.t) (s : db.Store)
    (validated_data : QuestionSerializer.attrs) :
  db.get_poll poll_pk s = inr poll ->
  Poll.is_published poll = true ->
  QuestionSerializer.create poll_pk validated_data s
  = (inl (ValidationError "Cant update published poll"), s).
Proof.
  intros Hpoll Hpub. unfold QuestionSerializer.create, bind, reads.
  rewrite Hpoll, Hpub. reflexivity.
Qed.

Lemma update_published (instance : Question.t) (poll : Poll.t) (s : db.Store)
    (validated_data : QuestionSerializer.attrs) :
  db.poll_of instance s = inr poll ->
  Poll.is_published poll = true ->
  QuestionSerializer.update instance validated_data s
  = (inl (ValidationError "Cant update published poll"), s).
Proof.
  intros Hpoll Hpub. unfold QuestionSerializer.update, bind, reads.
  rewrite Hpoll, Hpub. reflexivity.
Qed.

Lemma QuestionSerializer_validate_returns (a a' : QuestionSerializer.attrs) :
  QuestionSerializer.validate a = inr a' -> a' = a.
Proof.
  unfold QuestionSerializer.validate.
  destruct (QuestionSerializer.get_choices a) as [[| c cs] |];
    try (intros Heq; inversion Heq; reflexivity).
  destruct (negb _); intros Heq; inversion Heq; reflexivity.
Qed.

(** C6, as the code has it: once a poll is published, the operations on
    its questions, creating a question in it, updating one of its
    questions and deleting one of its questions, all raise and leave the
    store, hence the questions and choices of the poll, as they were (the
    deletion of the poll itself is another operation, which has no such
    guard).
    The serializer's [create] and [update] raise the validation error
    "Cant update published poll", and [destroy] raises "Poll already
    published and cannot be changed"; through the view, a request that
    fails an earlier check (a choice list with a repeated entry, a
    question that is not one of the poll) raises the error of that
    check. *)
Theorem published_poll_questions_frozen (poll_pk : string) (poll : Poll.t)
    (s : db.Store) :
  db.get_poll poll_pk s = inr poll ->
  Poll.is_published poll = true ->
  (forall data,
     QuestionSerializer.create poll_pk data s
     = (inl (ValidationError "Cant update published poll"), s)
     /\ QuestionAdminViewSet.post poll_pk data s
        = (inl (match QuestionSerializer.validate data with
                | inl e => e
                | inr _ => ValidationError "Cant update published poll"
                end), s))
  /\ (forall pk data,
        (forall instance,
           QuestionAdminViewSet.get_object poll pk s = inr instance ->
           QuestionSerializer.update instance data s
           = (inl (ValidationError "Cant update published poll"), s))
        /\ QuestionAdminViewSet.put poll_pk pk data s
           = (inl (match QuestionAdminViewSet.get_object poll pk s with
                   | inl e => e
                   | inr _ =>
                       match QuestionSerializer.validate data with
                       | inl e => e
                       | inr _ => ValidationError "Cant update published poll"
                       end
                   end), s))
  /\ (forall pk,
        QuestionAdminViewSet.delete poll_pk pk s
        = (inl (ValidationError "Poll already published and cannot be changed"), s)).
Proof.
  intros Hpoll Hpub.
  pose proof (get_poll_returns _ _ _ Hpoll) as Hfind.
  pose proof (get_poll_or_404_returns _ _ _ Hpoll) as H404.
  assert (Hupdate : forall pk data instance,
            QuestionAdminViewSet.get_object poll pk s = inr instance ->
            QuestionSerializer.update instance data s
            = (inl (ValidationError "Cant update published poll"), s)).
  { intros pk data instance Hobj. apply get_object_returns in Hobj.
    destruct Hobj as [_ Hq].
    eapply update_published; [| exact Hpub].
    apply poll_of_question; assumption. }
  split; [| split].
  - intros data. split; [apply (create_published _ _ _ _ Hpoll Hpub) |].
    unfold QuestionAdminViewSet.post, QuestionAdminViewSet.initial,
      QuestionAdminViewSet.create.
    unfold bind at 1. unfold reads. rewrite H404.
    unfold atomic, bind, lift.
    destruct (QuestionSerializer.validate data) as [e | vd]; [reflexivity |].
    rewrite (create_published _ _ _ _ Hpoll Hpub). reflexivity.
  - intros pk data. split; [apply Hupdate |].
    unfold QuestionAdminViewSet.put, QuestionAdminViewSet.initial,
      QuestionAdminViewSet.update.
    unfold bind at 1. unfold reads at 1. rewrite H404.
    unfold atomic, bind, lift, reads.
    destruct (QuestionAdminViewSet.get_object poll pk s) as [e | instance] eqn:Hobj;
      [reflexivity |].
    destruct (QuestionSerializer.validate data) as [e | vd]; [reflexivity |].
    rewrite (Hupdate pk vd instance Hobj). reflexivity.
  - intros pk.
    unfold QuestionAdminViewSet.delete, QuestionAdminViewSet.initial,
      QuestionAdminViewSet.destroy.
    unfold bind at 1. unfold reads. rewrite H404.
    unfold atomic. rewrite Hpub. reflexivity.
Qed.

End Admin.

(** Poll 1 of the fixture, published: a new question, an update of
    question 1 and the deletion of question 1 are refused, and the store is
    as before. *)
Lemma published_poll_questions_frozen_witness :
  let s := fixture.store true in
  (db.get_poll (conv := decimal_pk) "1" s = inr (fixture.poll 1 true)
   /\ Poll.is_published (fixture.poll 1 true) = true)
  /\ QuestionAdminViewSet.post (conv := decimal_pk) "1"
       (fixture.new_question "Q4" Question.QuestionType.text QuestionSerializer.absent) s
     = (inl (ValidationError "Cant update published poll"), s)
  /\ QuestionAdminViewSet.put (conv := decimal_pk) "1" "1"
       (fixture.new_question "Q1" Question.QuestionType.single_choice
          (QuestionSerializer.given ["maybe"])) s
     = (inl (ValidationError "Cant update published poll"), s)
  /\ QuestionAdminViewSet.delete (conv := decimal_pk) "1" "1" s
     = (inl (ValidationError "Poll already published and cannot be changed"), s).
Proof.
  cbv zeta.
  pose proof (published_poll_questions_frozen (conv := decimal_pk) "1" (fixture.poll 1 true)
                (fixture.store true) eq_refl eq_refl) as [Hpost [Hput Hdelete]].
  split; [split; reflexivity |].
  split; [exact (proj2 (Hpost _)) |].
  split; [exact (proj2 (Hput "1" _)) | exact (Hdelete "1")].
Defined.

(** C6 as stated fails for the deletion of the poll, which is an admin
    operation too: poll 1 of the fixture is published and has two
    questions, one of them with two choices; [PollAdminViewSet.destroy]
    returns, and afterwards the poll has no question and no choice. *)
Lemma published_poll_deleted_counterexample :
  let s := fixture.store true in
  let s' := snd (PollAdminViewSet.destroy (conv := decimal_pk) "1" s) in
  Poll.is_published (fixture.poll 1 true) = true
  /\ PollAdminViewSet.destroy (conv := decimal_pk) "1" s = (inr tt, s')
  /\ List.length (questions_and_choices (fixture.poll 1 true) s) = 2%nat
  /\ questions_and_choices (fixture.poll 1 true) s' = []
  /\ questions_and_choices (fixture.poll 1 true) s'
     <> questions_and_choices (fixture.poll 1 true) s.
Proof.
  cbv zeta. repeat split. discriminate.
Qed.

(** ** Creating a single-choice question *)

Section CreateQuestion.

Context `{conv : PkConversion}.

(** [create] for a question of type single_choice, step by step: the row
    of the question is written before the number of choices is looked
    at. *)
Lemma create_single_choice (poll_pk : string) (data : QuestionSerializer.attrs)
    (s : db.Store) :
  QuestionSerializer.type data = Some Question.QuestionType.single_choice ->
  QuestionSerializer.create poll_pk data s =
    match db.get_poll poll_pk s with
    | inl e => (inl e, s)
    | inr poll =>
        if Poll.is_published poll
        then (inl (ValidationError "Cant update published poll"), s)
        else
          let q := question_row poll data s in
          if existsb (Question.same_unique_key q) (db.questions s)
          then (inl (ValidationError "This question exists in the poll"), s)
          else
            let s1 := db.set_questions s (db.questions s ++ [q])%list in
            match QuestionSerializer.pop_choices data with
            | None => (inl (TypeError "object of type 'NoneType' has no len()"), s1)
            | Some [c] =>
                (QuestionSerializer._save_choices q (Some [c]) ;;; ret q) s1
            | Some _ =>
                (inl (ValidationError "Single choice allow only one choice"), s1)
            end
    end.
Proof.
  intros Htype.
  unfold QuestionSerializer.create. unfold bind at 1. unfold reads.
  destruct (db.get_poll poll_pk s) as [e | poll]; [reflexivity |].
  destruct (Poll.is_published poll); [reflexivity |].
  unfold bind at 1. unfold except, db.create_question. unfold bind at 1. unfold gets.
  fold (question_row poll data s). cbv zeta.
  destruct (existsb _ (db.questions s)); [reflexivity |].
  unfold bind at 1. unfold modify. unfold ret at 1.
  assert (Hq : Question.has_choice (question_row poll data s)
               && Question.QuestionType.eqb (Question.type (question_row poll data s))
                    Question.QuestionType.single_choice = true).
  { unfold Question.has_choice, question_row. cbn [Question.type]. rewrite Htype.
    reflexivity. }
  rewrite Hq. unfold bind at 1. unfold bind at 1. unfold lift.
  destruct (QuestionSerializer.pop_choices data) as [[| c [| c' cs]] |]; reflexivity.
Qed.

End CreateQuestion.

Section SingleChoice.

Context `{conv : PkConversion}.

Lemma post_question_cases (poll_pk : string) (data : QuestionSerializer.attrs)
    (s : db.Store) :
  QuestionAdminViewSet.post poll_pk data s =
    match db.get_poll_or_404 poll_pk s with
    | inl e => (inl e, s)
    | inr _ =>
        match QuestionSerializer.validate data with
        | inl e => (inl e, s)
        | inr validated_data =>
            match QuestionSerializer.create poll_pk validated_data s with
            | (inl e, _) => (inl e, s)
            | (inr q, s') => (inr q, s')
            end
        end
    end.
Proof.
  unfold QuestionAdminViewSet.post, QuestionAdminViewSet.initial,
    QuestionAdminViewSet.create.
  unfold bind at 1. unfold reads.
  destruct (db.get_poll_or_404 poll_pk s) as [e | poll]; [reflexivity |].
  unfold atomic, bind, lift.
  destruct (QuestionSerializer.validate data) as [e | vd]; [reflexivity |].
  destruct (QuestionSerializer.create poll_pk vd s) as [[e | q] s']; reflexivity.
Qed.

Lemma pop_choices_one (data : QuestionSerializer.attrs) (c : string) :
  QuestionSerializer.pop_choices data = Some [c] ->
  QuestionSerializer.choices data = QuestionSerializer.given [c].
Proof.
  unfold QuestionSerializer.pop_choices.
  destruct (QuestionSerializer.choices data); intros Heq; inversion Heq; reflexivity.
Qed.

(** C8, as the code has it: creating a question of type single_choice with
    a choice list that is not of exactly one entry raises and persists
    nothing, and the empty list and the absent list are such lists: the
    count is checked whether or not the list is empty.  For a request that
    gets as far as the count (an unpublished poll, a question text new to
    the poll, valid data with a list that is not null) the error is the
    validation error "Single choice allow only one choice". *)
Theorem single_choice_creation_needs_one_choice (poll_pk : string)
    (data : QuestionSerializer.attrs) (s : db.Store) :
  QuestionSerializer.type data = Some Question.QuestionType.single_choice ->
  (forall c, QuestionSerializer.choices data <> QuestionSerializer.given [c]) ->
  (exists e, QuestionAdminViewSet.post poll_pk data s = (inl e, s))
  /\ (forall poll,
        db.get_poll poll_pk s = inr poll ->
        Poll.is_published poll = false ->
        existsb (Question.same_unique_key (question_row poll data s)) (db.questions s)
          = false ->
        QuestionSerializer.validate data = inr data ->
        QuestionSerializer.choices data <> QuestionSerializer.null ->
        QuestionAdminViewSet.post poll_pk data s
        = (inl (ValidationError "Single choice allow only one choice"), s)).
Proof.
  intros Htype Hnot_one. split.
  - rewrite post_question_cases.
    destruct (db.get_poll_or_404 poll_pk s) as [e | poll]; [eauto |].
    destruct (QuestionSerializer.validate data) as [e | vd] eqn:Hval; [eauto |].
    apply QuestionSerializer_validate_returns in Hval. subst vd.
    rewrite (create_single_choice _ _ _ Htype).
    destruct (db.get_poll poll_pk s) as [e | p]; [eauto |].
    destruct (Poll.is_published p); [eauto |]. cbv zeta.
    destruct (existsb _ (db.questions s)); [eauto |].
    destruct (QuestionSerializer.pop_choices data) as [[| c [| c' cs]] |] eqn:Hpop;
      eauto.
    apply pop_choices_one in Hpop. destruct (Hnot_one c Hpop).
  - intros poll Hpoll Hpub Hnew Hval Hnull.
    rewrite post_question_cases, (get_poll_or_404_returns _ _ _ Hpoll), Hval.
    rewrite (create_single_choice _ _ _ Htype), Hpoll, Hpub. cbv zeta. rewrite Hnew.
    destruct (QuestionSerializer.pop_choices data) as [[| c [| c' cs]] |] eqn:Hpop;
      try reflexivity.
    + apply pop_choices_one in Hpop. destruct (Hnot_one c Hpop).
    + exfalso. apply Hnull. unfold QuestionSerializer.pop_choices in Hpop.
      destruct (QuestionSerializer.choices data); congruence.
Qed.

End SingleChoice.

(** In the unpublished poll 1 a single-choice question is refused with no
    choice and with two choices, and nothing is stored. *)
Lemma single_choice_creation_needs_one_choice_witness :
  let s := fixture.store false in
  let none := fixture.new_question "Q4" Question.QuestionType.single_choice
                (QuestionSerializer.given []) in
  let two := fixture.new_question "Q4" Question.QuestionType.single_choice
               (QuestionSerializer.given ["yes"; "no"]) in
  (QuestionSerializer.type none = Some Question.QuestionType.single_choice
   /\ (forall c, QuestionSerializer.choices none <> QuestionSerializer.given [c]))
  /\ QuestionAdminViewSet.post (conv := decimal_pk) "1" none s
     = (inl (ValidationError "Single choice allow only one choice"), s)
  /\ QuestionAdminViewSet.post (conv := decimal_pk) "1" two s
     = (inl (ValidationError "Single choice allow only one choice"), s).
Proof.
  cbv zeta. split; [split; [reflexivity | discriminate] |]. split.
  - refine (proj2 (single_choice_creation_needs_one_choice (conv := decimal_pk) "1"
                     (fixture.new_question "Q4" Question.QuestionType.single_choice
                        (QuestionSerializer.given []))
                     (fixture.store false) eq_refl _)
              (fixture.poll 1 false) eq_refl eq_refl eq_refl eq_refl _);
      discriminate.
  - refine (proj2 (single_choice_creation_needs_one_choice (conv := decimal_pk) "1"
                     (fixture.new_question "Q4" Question.QuestionType.single_choice
                        (QuestionSerializer.given ["yes"; "no"]))
                     (fixture.store false) eq_refl _)
              (fixture.poll 1 false) eq_refl eq_refl eq_refl eq_refl _);
      discriminate.
Defined.

(** C8 as stated fails for the empty choice list: in the unpublished poll 1
    the creation of a single-choice question with no choice, the list left
    out or sent empty, does not succeed; it raises "Single choice allow
    only one choice" and the question is not stored. *)
Lemma single_choice_without_choice_counterexample :
  let s := fixture.store false in
  QuestionAdminViewSet.post (conv := decimal_pk) "1"
    (fixture.new_question "Q4" Question.QuestionType.single_choice
       (QuestionSerializer.given [])) s
  = (inl (ValidationError "Single choice allow only one choice"), s)
  /\ QuestionAdminViewSet.post (conv := decimal_pk) "1"
       (fixture.new_question "Q4" Question.QuestionType.single_choice
          QuestionSerializer.absent) s
     = (inl (ValidationError "Single choice allow only one choice"), s).
Proof. cbv zeta. split; reflexivity. Qed.

(** ** Updating a question *)

Lemma set_choiceanswers_same (s : db.Store) : db.set_choiceanswers s (db.choiceanswers s) = s.
Proof. destruct s; reflexivity. Qed.

(** A choice list [validate] lets through has no text twice. *)
Lemma distinct_when_as_long_as_set (l : list string) :
  List.length l = List.length (nodup string_dec l) -> NoDup l.
Proof.
  induction l as [| x l IH]; cbn [nodup List.length]; intros Hlen.
  - constructor.
  - destruct (in_dec string_dec x l) as [Hin | Hnotin].
    + exfalso.
      assert (Hle : (List.length (nodup string_dec l) <= List.length l)%nat).
      { apply NoDup_incl_length; [apply NoDup_nodup |].
        intros y Hy. apply nodup_In in Hy. exact Hy. }
      lia.
    + cbn [List.length] in Hlen. constructor; [exact Hnotin |].
      apply IH. lia.
Qed.

Lemma validate_choices_distinct (data data' : QuestionSerializer.attrs) (l : list string) :
  QuestionSerializer.validate data = inr data' ->
  QuestionSerializer.pop_choices data = Some l ->
  NoDup l.
Proof.
  unfold QuestionSerializer.validate, QuestionSerializer.get_choices,
    QuestionSerializer.pop_choices.
  destruct (QuestionSerializer.choices data) as [| | [| c cs]]; intros Hval Hpop;
    inversion Hpop; subst; try apply NoDup_nil.
  destruct (Nat.eqb _ _) eqn:Hlen; simpl in Hval; [| discriminate].
  apply Nat.eqb_eq in Hlen.
  exact (distinct_when_as_long_as_set (c :: cs) Hlen).
Qed.

(** The loop that deletes the old choices: polls and questions stay, and
    the choices that stay are those with another key than the deleted
    ones. *)
Lemma delete_choices_spec (old : list ChoiceAnswer.t) (s : db.Store) :
  exists us s1,
    for_each db.delete_choice old s = (inr us, s1)
    /\ db.polls s1 = db.polls s
    /\ db.questions s1 = db.questions s
    /\ db.choiceanswers s1
       = filter (fun r => negb (existsb (Z.eqb (ChoiceAnswer.id r))
                                  (map ChoiceAnswer.id old)))
           (db.choiceanswers s).
Proof.
  revert s. induction old as [| o old IH]; intros s; cbn [for_each].
  - exists [], s. unfold ret. repeat split; auto.
    cbn [map existsb negb]. symmetry. apply filter_all.
    apply Forall_forall. auto.
  - unfold bind at 1. unfold db.delete_choice at 1. unfold modify. cbv beta iota.
    unfold bind.
    match goal with |- context [for_each db.delete_choice old ?s0] =>
      destruct (IH s0) as [us [s1 [Hrun [Hpolls [Hquestions Hchoices]]]]]
    end.
    rewrite Hrun. unfold ret.
    exists (tt :: us), s1. split; [reflexivity |].
    cbn [db.polls db.questions db.choiceanswers] in *.
    split; [exact Hpolls |]. split; [exact Hquestions |].
    rewrite Hchoices. clear. cbn [map existsb].
    induction (db.choiceanswers s) as [| r rows IHrows]; cbn [filter].
    + reflexivity.
    + destruct (Z.eqb (ChoiceAnswer.id r) (ChoiceAnswer.id o)); cbn [negb orb filter].
      * exact IHrows.
      * destruct (negb _); [f_equal |]; exact IHrows.
Qed.

(** The loop of [bulk_create]: texts new to the question are inserted in
    order. *)
Lemma insert_choices_spec (q : Question.t) (l : list string) :
  forall (s : db.Store) (kept acc : list ChoiceAnswer.t),
    db.choiceanswers s = (kept ++ acc)%list ->
    (forall c, In c kept -> ChoiceAnswer.question_id c <> Question.id q) ->
    NoDup (map ChoiceAnswer.text acc ++ l)%list ->
    exists created,
      for_each (db.insert_choice q) l s
      = (inr created, db.set_choiceanswers s (kept ++ acc ++ created)%list)
      /\ map ChoiceAnswer.text created = l
      /\ Forall (fun c => ChoiceAnswer.question_id c = Question.id q) created.
Proof.
  induction l as [| t l IH]; intros s kept acc Htable Hkept Hnd; cbn [for_each].
  - exists []. unfold ret. rewrite app_nil_r, <- Htable, set_choiceanswers_same. auto.
  - unfold bind at 1. unfold db.insert_choice at 1. unfold bind at 1. unfold gets.
    assert (Hnew : existsb
                     (fun r => String.eqb (ChoiceAnswer.text r) t
                               && Z.eqb (ChoiceAnswer.question_id r) (Question.id q))
                     (db.choiceanswers s) = false).
    { apply not_true_is_false. intros Hex. apply existsb_exists in Hex.
      destruct Hex as [r [Hr Hsame]]. apply andb_true_iff in Hsame.
      destruct Hsame as [Htext Hq]. apply String.eqb_eq in Htext. apply Z.eqb_eq in Hq.
      rewrite Htable in Hr. apply in_app_or in Hr. destruct Hr as [Hr | Hr].
      - exact (Hkept r Hr Hq).
      - apply NoDup_remove_2 in Hnd. apply Hnd. apply in_or_app. left.
        apply in_map_iff. exists r. auto. }
    rewrite Hnew. unfold bind at 1. unfold modify. unfold ret at 1. cbv beta iota.
    unfold bind.
    match goal with |- context [for_each (db.insert_choice q) l ?s0] =>
      set (s1 := s0)
    end.
    match goal with |- context [ret (?c0 :: _)] => set (c := c0) end.
    destruct (IH s1 kept (acc ++ [c])%list) as [created [Hrun [Htexts Hq]]].
    + subst s1. cbn [db.set_choiceanswers db.choiceanswers].
      rewrite app_assoc, <- Htable. reflexivity.
    + exact Hkept.
    + rewrite map_app. cbn [map]. subst c. cbn [ChoiceAnswer.text].
      rewrite <- app_assoc. exact Hnd.
    + rewrite Hrun. unfold ret.
      exists (c :: created). split; [| split].
      * subst s1. unfold db.set_choiceanswers.
        cbn [db.polls db.questions db.choiceanswers db.answers].
        rewrite <- app_assoc. reflexivity.
      * cbn [map]. rewrite Htexts. reflexivity.
      * constructor; [reflexivity | exact Hq].
Qed.

Lemma save_choices_spec (q : Question.t) (choices : option (list string)) (s : db.Store) :
  (forall c, In c (db.choiceanswers s) -> ChoiceAnswer.question_id c <> Question.id q) ->
  (forall l, choices = Some l -> NoDup l) ->
  exists created,
    QuestionSerializer._save_choices q choices s
    = (inr tt, db.set_choiceanswers s (db.choiceanswers s ++ created)%list)
    /\ map ChoiceAnswer.text created = match choices with Some l => l | None => [] end
    /\ Forall (fun c => ChoiceAnswer.question_id c = Question.id q) created.
Proof.
  intros Hkept Hdistinct. unfold QuestionSerializer._save_choices.
  destruct choices as [[| t l] |].
  - exists []. unfold ret. rewrite app_nil_r, set_choiceanswers_same. auto.
  - destruct (insert_choices_spec q (t :: l) s (db.choiceanswers s) [])
      as [created [Hrun [Htexts Hq]]].
    + rewrite app_nil_r. reflexivity.
    + exact Hkept.
    + apply Hdistinct. reflexivity.
    + exists created. unfold db.bulk_create_choices, bind, atomic. rewrite Hrun.
      unfold ret. auto.
  - exists []. unfold ret. rewrite app_nil_r, set_choiceanswers_same. auto.
Qed.

(** C10: [update] never looks at the number of choices.  For a question
    of an unpublished poll, and so for a single-choice one, validated data
    with a choice list of any length, none, one or several entries, is
    accepted, provided the new text is not that of another question of the
    poll (the table is unique on poll and text): the choices the question
    had are deleted, and afterwards the choices of the question are exactly
    the rows created for the submitted list, while a question that was and
    stays single_choice keeps that type. *)
Theorem update_accepts_any_number_of_choices (instance : Question.t)
    (data : QuestionSerializer.attrs) (poll : Poll.t) (s : db.Store) :
  db.poll_of instance s = inr poll ->
  Poll.is_published poll = false ->
  QuestionSerializer.validate data = inr data ->
  (forall r, In r (db.questions s) ->
             Question.id r <> Question.id instance ->
             Question.poll_id r = Question.poll_id instance ->
             Question.text r <> QuestionSerializer.text data) ->
  exists q' s' created,
    QuestionSerializer.update instance data s = (inr q', s')
    /\ Question.id q' = Question.id instance
    /\ Question.type q' = match QuestionSerializer.type data with
                          | Some ty => ty
                          | None => Question.type instance
                          end
    /\ db.question_choices instance s' = created
    /\ map ChoiceAnswer.text created
       = match QuestionSerializer.pop_choices data with Some l => l | None => [] end
    /\ (forall c, In c (db.choiceanswers s') ->
                  In c created
                  \/ (In c (db.choiceanswers s)
                      /\ ChoiceAnswer.question_id c <> Question.id instance)).
Proof.
  intros Hpoll Hpub Hval Htext.
  unfold QuestionSerializer.update. unfold bind at 1. unfold reads. rewrite Hpoll, Hpub.
  unfold bind at 1. unfold gets.
  destruct (delete_choices_spec (db.question_choices instance s) s)
    as [us [s1 [Hdel [_ [Hquestions Hkept]]]]].
  unfold bind at 1. rewrite Hdel.
  assert (Hother : forall c, In c (db.choiceanswers s1) ->
                             In c (db.choiceanswers s)
                             /\ ChoiceAnswer.question_id c <> Question.id instance).
  { intros c Hc. rewrite Hkept in Hc. apply filter_In in Hc.
    destruct Hc as [Hc Hid]. split; [exact Hc |].
    intros Hq. apply negb_true_iff in Hid.
    assert (Hold : existsb (Z.eqb (ChoiceAnswer.id c))
                     (map ChoiceAnswer.id (db.question_choices instance s)) = true).
    { apply existsb_Zeqb_In, in_map. unfold db.question_choices.
      apply filter_In. split; [exact Hc | apply Z.eqb_eq; exact Hq]. }
    congruence. }
  destruct (save_choices_spec instance (QuestionSerializer.pop_choices data) s1)
    as [created [Hsave [Htexts Hq]]].
  { intros c Hc. apply (Hother c Hc). }
  { intros l Hl. eapply validate_choices_distinct; eassumption. }
  unfold bind at 1. rewrite Hsave.
  unfold QuestionSerializer.ModelSerializer_update, db.save_question.
  unfold bind at 1. unfold gets.
  cbn [db.set_choiceanswers db.questions]. rewrite Hquestions.
  match goal with |- context [existsb ?p (db.questions s)] =>
    assert (Hfree : existsb p (db.questions s) = false)
  end.
  { apply not_true_is_false. intros Hex. apply existsb_exists in Hex.
    destruct Hex as [r [Hr Hclash]]. apply andb_true_iff in Hclash.
    destruct Hclash as [Hid Hkey]. apply negb_true_iff, Z.eqb_neq in Hid.
    unfold Question.same_unique_key in Hkey. cbn [Question.poll_id Question.text] in Hkey.
    apply andb_true_iff in Hkey. destruct Hkey as [Hp Ht].
    apply Z.eqb_eq in Hp. apply String.eqb_eq in Ht.
    cbn [Question.id] in Hid.
    apply (Htext r Hr Hid); congruence. }
  rewrite Hfree.
  match goal with |- context [if ?b then modify ?f else modify ?g] =>
    assert (Hwrite : exists s3, (if b then modify f else modify g)
                                  (db.set_choiceanswers s1
                                     (db.choiceanswers s1 ++ created)%list)
                                = (inr tt, s3)
                                /\ db.choiceanswers s3
                                   = (db.choiceanswers s1 ++ created)%list)
      by (destruct b; unfold modify; eexists; split; reflexivity)
  end.
  destruct Hwrite as [s3 [Hwrite Hchoices]].
  unfold bind. rewrite Hwrite. unfold ret.
  eexists _, s3, created. split; [reflexivity |].
  split; [reflexivity |]. split; [reflexivity |].
  split; [| split; [exact Htexts |]].
  - unfold db.question_choices. rewrite Hchoices, filter_app.
    rewrite filter_none, filter_all; [reflexivity | |].
    + eapply Forall_impl; [| exact Hq]. intros c Hc. apply Z.eqb_eq. exact Hc.
    + intros c Hc. apply Z.eqb_neq. apply (Hother c Hc).
  - intros c Hc. rewrite Hchoices in Hc. apply in_app_or in Hc.
    destruct Hc as [Hc | Hc]; [right; apply (Hother c Hc) | left; exact Hc].
Qed.

(** The single-choice question 1 of the unpublished poll 1 is updated with
    three choices. *)
Lemma update_accepts_any_number_of_choices_witness :
  let q1 := fixture.question 1 1 "Q1" Question.QuestionType.single_choice in
  let data := fixture.new_question "Q1" Question.QuestionType.single_choice
                (QuestionSerializer.given ["a"; "b"; "c"]) in
  let s := fixture.store false in
  (db.poll_of q1 s = inr (fixture.poll 1 false)
   /\ Poll.is_published (fixture.poll 1 false) = false
   /\ QuestionSerializer.validate data = inr data)
  /\ exists q' s' created,
       QuestionSerializer.update q1 data s = (inr q', s')
       /\ Question.id q' = 1
       /\ Question.type q' = Question.QuestionType.single_choice
       /\ db.question_choices q1 s' = created
       /\ map ChoiceAnswer.text created = ["a"; "b"; "c"]
       /\ (forall c, In c (db.choiceanswers s') ->
                     In c created
                     \/ (In c (db.choiceanswers s) /\ ChoiceAnswer.question_id c <> 1)).
Proof.
  cbv zeta. split; [repeat split |].
  refine (update_accepts_any_number_of_choices
            (fixture.question 1 1 "Q1" Question.QuestionType.single_choice)
            (fixture.new_question "Q1" Question.QuestionType.single_choice
               (QuestionSerializer.given ["a"; "b"; "c"]))
            (fixture.poll 1 false) (fixture.store false) eq_refl eq_refl eq_refl _).
  intros r [<- | [<- | [<- | []]]] Hid Hpoll; simpl in *;
    try discriminate; congruence.
Defined.

(** Through the view: the single-choice question 1 takes no choice, one
    choice or three, and stays a single-choice question. *)
Example update_single_choice_with_0_1_3_choices :
  let s := fixture.store false in
  let data l := fixture.new_question "Q1" Question.QuestionType.single_choice
                  (QuestionSerializer.given l) in
  let choices_after l :=
    match QuestionAdminViewSet.put (conv := decimal_pk) "1" "1" (data l) s with
    | (inr q', s') => Some (Question.type q',
                            map ChoiceAnswer.text (db.question_choices q' s'))
    | (inl _, _) => None
    end in
  choices_after [] = Some (Question.QuestionType.single_choice, [])
  /\ choices_after ["maybe"] = Some (Question.QuestionType.single_choice, ["maybe"])
  /\ choices_after ["a"; "b"; "c"]
     = Some (Question.QuestionType.single_choice, ["a"; "b"; "c"]).
Proof. repeat split. Qed.

(** ** Where the code departs from the claims *)

(** C1: the vote handler does not look at the publication flag or at the
    dates of the poll.  Poll 1 of the fixture is not published: [list] and
    [get_object], which go through [get_queryset], do not show it at any
    time, yet the complete vote of voter 42 in it is accepted and its two
    rows are stored.  The same holds for the published poll outside its
    window: the handler never reads the clock.  The poll is looked up after
    the shape of the answers and their polls have been checked, and a poll
    that does not exist ends the call with [DoesNotExist], not with a
    validation error. *)
Example vote_in_inactive_poll_is_stored :
  (forall now, UserPolls.get_queryset now (fixture.store false) = [])
  /\ (forall now, UserPolls.get_object (conv := decimal_pk) now "1" (fixture.store false)
                  = (inl Http404, fixture.store false))
  /\ UserPolls.post (conv := decimal_pk) "1" fixture.vote42 (fixture.store false)
     = (inr {| UserPollSerializer.result_answers := db.answers (fixture.voted false);
               UserPollSerializer.result_anonymous_id := Some 42 |},
        fixture.voted false)
  /\ UserPolls.get_queryset 30 (fixture.store true) = []
  /\ UserPolls.post (conv := decimal_pk) "1" fixture.vote42 (fixture.store true)
     = (inr {| UserPollSerializer.result_answers := db.answers (fixture.voted true);
               UserPollSerializer.result_anonymous_id := Some 42 |},
        fixture.voted true)
  /\ UserPolls.post (conv := decimal_pk) "9"
       (fixture.vote [fixture.answer 2 (Some "hello") (Some [1])] (Some 42))
       (fixture.store true)
     = (inl (ValidationError "This is text question, not choice"), fixture.store true)
  /\ UserPolls.post (conv := decimal_pk) "9" (fixture.vote [] (Some 42)) (fixture.store true)
     = (inl DoesNotExist, fixture.store true).
Proof.
  split; [| split].
  - intros now. unfold UserPolls.get_queryset, UserPolls.queryset. simpl.
    rewrite !andb_false_r. reflexivity.
  - intros now. unfold UserPolls.get_object, reads, UserPolls.get_queryset,
      UserPolls.queryset. simpl. rewrite !andb_false_r. reflexivity.
  - repeat split.
Qed.

(** The shape check of an answer to a single-choice question. *)
Lemma single_choice_answer_shape (a : AnswerSerializer.attrs) (cs : list Z) :
  Question.type (AnswerSerializer.question a) = Question.QuestionType.single_choice ->
  AnswerSerializer.choice a = Some cs ->
  AnswerSerializer.validate a
  = if Nat.ltb 1 (List.length cs)
       || (match AnswerSerializer.text a with Some _ => true | None => false end)
    then inl (ValidationError
           "This question only for one choice and choice field not contains text")
    else inr a.
Proof.
  intros Htype Hchoice. unfold AnswerSerializer.validate. rewrite Htype, Hchoice.
  reflexivity.
Qed.

(** C2: the shape check of an answer to a single-choice question refuses
    two choices or more and accepts exactly one choice without text, but it
    also accepts the empty choice list without text, which the claim has
    refused: the vote below answers the single-choice question 1 with no
    choice and is stored, its row without a link.  When the [choice] entry
    is left out altogether the check ends with a [TypeError]. *)
Example single_choice_answer_without_choice_accepted :
  let q1 := fixture.question 1 1 "Q1" Question.QuestionType.single_choice in
  let shape text choice :=
    AnswerSerializer.validate
      {| AnswerSerializer.question := q1; AnswerSerializer.text := text;
         AnswerSerializer.choice := choice |} in
  shape None (Some [])
    = inr {| AnswerSerializer.question := q1; AnswerSerializer.text := None;
             AnswerSerializer.choice := Some [] |}
  /\ shape None (Some [1])
     = inr {| AnswerSerializer.question := q1; AnswerSerializer.text := None;
              AnswerSerializer.choice := Some [1] |}
  /\ shape None (Some [1; 2])
     = inl (ValidationError
              "This question only for one choice and choice field not contains text")
  /\ shape None None = inl (TypeError "object of type 'NoneType' has no len()")
  /\ UserPolls.post (conv := decimal_pk) "1"
       (fixture.vote [fixture.answer 1 None (Some []);
                      fixture.answer 2 (Some "hello") None] (Some 42))
       (fixture.store true)
     = (inr {| UserPollSerializer.result_answers :=
                 [ {| Answer.id := Some 1; Answer.question_id := 1; Answer.text := None;
                      Answer.choice := []; Answer.user_id := None;
                      Answer.anonymous_id := Some 42 |};
                   {| Answer.id := Some 2; Answer.question_id := 2;
                      Answer.text := Some "hello"; Answer.choice := [];
                      Answer.user_id := None; Answer.anonymous_id := Some 42 |} ];
               UserPollSerializer.result_anonymous_id := Some 42 |},
        db.set_answers (fixture.store true)
          [ {| Answer.id := Some 1; Answer.question_id := 1; Answer.text := None;
               Answer.choice := []; Answer.user_id := None;
               Answer.anonymous_id := Some 42 |};
            {| Answer.id := Some 2; Answer.question_id := 2;
               Answer.text := Some "hello"; Answer.choice := [];
               Answer.user_id := None; Answer.anonymous_id := Some 42 |} ]).
Proof. repeat split. Qed.

(** The permission check of a vote: exactly one of "authenticated" and "a
    token that counts as true in the query string or in the body". *)
Lemma has_permission_vote (r : request.t) :
  UserPollsPermission.has_permission r action.vote_in_poll
  = xorb (request.is_authenticated r)
      (truthy_str (request.query_params_anonymous_id r)
       || truthy_int (request.anonymous_id (request.data r))).
Proof.
  unfold UserPollsPermission.has_permission. cbn [existsb action.eqb orb].
  destruct (request.is_authenticated r), (truthy_str _ || truthy_int _); reflexivity.
Qed.

(** C7: the permission check lets a caller through when exactly one of
    "authenticated" and "[anonymous_id] supplied" holds, as long as the
    token is not 0: a caller who is not authenticated and sends the integer
    0 as [anonymous_id] in the body is taken as sending none and is denied,
    where the claim has every integer permitted; with the token 42 the same
    caller is let through.  An authenticated caller who sends the token 0
    is let through as well. *)
Example anonymous_id_zero_is_denied :
  let answers := [fixture.answer 1 None (Some [1]);
                  fixture.answer 2 (Some "hello") None] in
  UserPollsPermission.has_permission (fixture.vote answers (Some 0)) action.vote_in_poll
    = false
  /\ UserPollsPermission.has_permission (fixture.vote answers (Some 0))
       action.show_answers = false
  /\ UserPolls.post (conv := decimal_pk) "1" (fixture.vote answers (Some 0))
       (fixture.store true)
     = (inl PermissionDenied, fixture.store true)
  /\ UserPollsPermission.has_permission (fixture.vote answers (Some 42))
       action.vote_in_poll = true
  /\ UserPollsPermission.has_permission
       {| request.user := Some 7; request.query_params_anonymous_id := None;
          request.data := {| request.answers := answers;
                             request.anonymous_id := Some 0 |} |}
       action.vote_in_poll = true.
Proof. repeat split. Qed.

(** [Answer.save] on an instance that has no key yet. *)
Lemma save_new_answer (self : Answer.t) (rows : list Answer.t) :
  Answer.id self = None ->
  Answer.save self rows =
    if (match Answer.user_id self with Some _ => true | None => false end)
       && truthy_int (Answer.anonymous_id self)
    then (inl (ValueError "Cant use user auth and anonymous token both"), rows)
    else if existsb (Answer.same_voter_and_question self) rows
    then (inl (ValueError "Value not unique"), rows)
    else (inr (Answer.with_id self (next_id (Answer.keys rows))),
          (rows ++ [Answer.with_id self (next_id (Answer.keys rows))])%list).
Proof.
  intros Hid. unfold Answer.save.
  destruct (_ && truthy_int (Answer.anonymous_id self)); [reflexivity |].
  unfold UniqueTogetherValidator._validate_unique_together_for_null_fields, bind, gets.
  destruct (existsb _ rows); [reflexivity |].
  unfold ret, Answer.Model_save, bind, gets, modify, ret. rewrite Hid. reflexivity.
Qed.

(** C9: [Answer.save] raises when [user] is set and [anonymous_id] is a
    number other than 0, and does not refuse an answer with neither; but
    with [user] set and [anonymous_id] 0 it raises nothing and the row is
    stored with both identities, which the claim excludes.  The vote
    handler stores such a row for an authenticated caller who sends the
    token 0. *)
Example save_accepts_user_with_anonymous_id_zero :
  let answer user anonymous_id :=
    {| Answer.id := None; Answer.question_id := 1; Answer.text := None;
       Answer.choice := []; Answer.user_id := user;
       Answer.anonymous_id := anonymous_id |} in
  Answer.save (answer (Some 7) (Some 0)) []
    = (inr (Answer.with_id (answer (Some 7) (Some 0)) 1),
       [Answer.with_id (answer (Some 7) (Some 0)) 1])
  /\ Answer.save (answer (Some 7) (Some 42)) []
     = (inl (ValueError "Cant use user auth and anonymous token both"), [])
  /\ Answer.save (answer None None) []
     = (inr (Answer.with_id (answer None None) 1), [Answer.with_id (answer None None) 1])
  /\ db.answers
       (snd (UserPolls.post (conv := decimal_pk) "1"
               {| request.user := Some 7; request.query_params_anonymous_id := None;
                  request.data :=
                    {| request.answers := [fixture.answer 1 None (Some [1]);
                                           fixture.answer 2 (Some "hello") None];
                       request.anonymous_id := Some 0 |} |}
               (fixture.store true)))
     = [ {| Answer.id := Some 1; Answer.question_id := 1; Answer.text := None;
            Answer.choice := [1]; Answer.user_id := Some 7;
            Answer.anonymous_id := Some 0 |};
         {| Answer.id := Some 2; Answer.question_id := 2; Answer.text := Some "hello";
            Answer.choice := []; Answer.user_id := Some 7;
            Answer.anonymous_id := Some 0 |} ].
Proof. repeat split. Qed.

(** ** The rollback at work *)

(** Voter 42 already has a row for question 2 only.  The loop of [create]
    stores the answer to question 1 and raises at the answer to question
    2; run on its own, [create] leaves the first row behind, and it is the
    [transaction.atomic] of the view that takes it back. *)
Example second_vote_at_a_later_answer_rolled_back :
  let row2 := {| Answer.id := Some 1; Answer.question_id := 2;
                 Answer.text := Some "hello"; Answer.choice := [];
                 Answer.user_id := None; Answer.anonymous_id := Some 42 |} in
  let row1 := {| Answer.id := Some 2; Answer.question_id := 1; Answer.text := None;
                 Answer.choice := [1]; Answer.user_id := None;
                 Answer.anonymous_id := Some 42 |} in
  let s := db.set_answers (fixture.store true) [row2] in
  UserPolls.post (conv := decimal_pk) "1" fixture.vote42 s
    = (inl (ValidationError "Value not unique"), s)
  /\ (forall vd,
        UserPollSerializer.run_validation (conv := decimal_pk) "1"
          (request.data fixture.vote42) s = inr vd ->
        UserPollSerializer.create fixture.vote42 vd s
        = (inl (ValidationError "Value not unique"), db.set_answers s [row2; row1])).
Proof.
  cbv zeta. split; [reflexivity |].
  intros vd Hvd. vm_compute in Hvd. inversion Hvd; subst. reflexivity.
Qed.

(** ** One row per voter and question *)

Lemma not_voted_no_votes (user anon : option Z) (q : Z) (s : db.Store) :
  already_voted user anon q (db.answers s) = false -> votes_of user anon q s = [].
Proof.
  unfold already_voted, votes_of. intros Hnone. apply filter_none.
  intros row Hrow. apply not_true_is_false. intros Hmatch.
  assert (Hex : existsb (fun row => option_eqb Z.eqb (Answer.user_id row) user
                                    && option_eqb Z.eqb (Answer.anonymous_id row) anon
                                    && Z.eqb (Answer.question_id row) q)
                  (db.answers s) = true).
  { apply existsb_exists. exists row. auto. }
  congruence.
Qed.

(** One turn of the loop of [create] keeps the rows of every voter and
    question at one at most. *)
Lemma create_answer_keeps_unique_votes (r : request.t) (vd : UserPollSerializer.attrs)
    (a : AnswerSerializer.attrs) (s s' : db.Store) (out : exn + Answer.t) :
  unique_votes s ->
  UserPollSerializer.create_answer r vd a s = (out, s') ->
  unique_votes s'.
Proof.
  intros Huniq. rewrite create_answer_spec. cbv zeta.
  destruct (request.is_authenticated r && _).
  { intros Heq. inversion Heq; subst. exact Huniq. }
  destruct (already_voted _ _ _ (db.answers s)) eqn:Hvoted.
  { intros Heq. inversion Heq; subst. exact Huniq. }
  intros Heq. inversion Heq; subst. clear Heq.
  intros user anon q. unfold votes_of. cbn [db.set_answers db.answers].
  rewrite filter_app, length_app. cbn [filter].
  match goal with |- context [if ?b then _ else _] => destruct b eqn:Hmatch end.
  - apply andb_true_iff in Hmatch. destruct Hmatch as [Hmatch Hq].
    apply andb_true_iff in Hmatch. destruct Hmatch as [Huser Hanon].
    apply option_eqb_Z_eq in Huser. apply option_eqb_Z_eq in Hanon.
    apply Z.eqb_eq in Hq. unfold vote_row in Huser, Hanon, Hq.
    cbn [Answer.user_id Answer.anonymous_id Answer.question_id] in Huser, Hanon, Hq.
    subst user anon q.
    apply not_voted_no_votes in Hvoted. unfold votes_of in Hvoted. rewrite Hvoted.
    simpl. lia.
  - specialize (Huniq user anon q). unfold votes_of in Huniq. simpl. lia.
Qed.

Lemma create_loop_keeps_unique_votes (r : request.t) (vd : UserPollSerializer.attrs)
    (l : list AnswerSerializer.attrs) :
  forall (s s' : db.Store) (out : exn + list Answer.t),
    unique_votes s ->
    for_each (UserPollSerializer.create_answer r vd) l s = (out, s') ->
    unique_votes s'.
Proof.
  induction l as [| a l IH]; intros s s' out Huniq; cbn [for_each].
  - unfold ret. intros Heq. inversion Heq; subst. exact Huniq.
  - unfold bind at 1.
    destruct (UserPollSerializer.create_answer r vd a s) as [[e | row] s1] eqn:Hbody.
    + intros Heq. inversion Heq; subst.
      eapply create_answer_keeps_unique_votes; eassumption.
    + unfold bind.
      destruct (for_each (UserPollSerializer.create_answer r vd) l s1)
        as [[e | rows] s2] eqn:Hloop;
        intros Heq; inversion Heq; subst;
        (eapply IH; [| exact Hloop]);
        eapply create_answer_keeps_unique_votes; eassumption.
Qed.

(** X1: votes never give a voter a second row for a question: a store in which
    every voter has at most one row per question is such a store again
    after any vote, accepted or not. *)
Theorem votes_stay_unique `{conv : PkConversion} (pk : string) (r : request.t) (s : db.Store) :
  unique_votes s -> unique_votes (snd (UserPolls.post pk r s)).
Proof.
  intros Huniq. rewrite post_cases.
  destruct (UserPollsPermission.has_permission r action.vote_in_poll); [| exact Huniq].
  destruct (UserPollSerializer.run_validation pk (request.data r) s) as [e | vd];
    [exact Huniq |].
  destruct (UserPollSerializer.create r vd s) as [[e | res] s'] eqn:Hcreate;
    [exact Huniq |].
  cbn [snd]. unfold UserPollSerializer.create, bind in Hcreate.
  destruct (for_each (UserPollSerializer.create_answer r vd)
              (UserPollSerializer.answers vd) s) as [[e | rows] s1] eqn:Hloop;
    [discriminate |].
  unfold ret in Hcreate. inversion Hcreate; subst.
  eapply create_loop_keeps_unique_votes; eassumption.
Qed.

(** The store of the fixture has no votes, and after the vote of voter 42
    every voter has at most one row per question. *)
Lemma votes_stay_unique_witness :
  unique_votes (fixture.store true) /\ unique_votes (fixture.voted true).
Proof.
  assert (Hempty : unique_votes (fixture.store true)).
  { intros user anon q. simpl. lia. }
  split; [exact Hempty |].
  exact (votes_stay_unique (conv := decimal_pk) "1" fixture.vote42 (fixture.store true) Hempty).
Defined.

(** ** The vote handler and the state of the poll *)

Section PollState.

Context `{conv : PkConversion}.

Lemma find_poll_same_keys (k : Z) (ps ps' : list Poll.t) :
  map Poll.id ps = map Poll.id ps' ->
  match find (fun p => Z.eqb (Poll.id p) k) ps,
        find (fun p => Z.eqb (Poll.id p) k) ps' with
  | Some p, Some p' => Poll.id p = Poll.id p'
  | None, None => True
  | _, _ => False
  end.
Proof.
  revert ps'. induction ps as [| p ps IH]; intros [| p' ps'] Hkeys;
    try discriminate; cbn [find].
  - exact I.
  - cbn [map] in Hkeys. inversion Hkeys as [[Hid Hrest]].
    destruct (Z.eqb (Poll.id p) k); [exact Hid | apply IH; exact Hrest].
Qed.

Lemma validate_same_keys (pk : string) (a : UserPollSerializer.attrs) (s : db.Store)
    (ps : list Poll.t) :
  map Poll.id ps = map Poll.id (db.polls s) ->
  UserPollSerializer.validate pk a (with_polls s ps) = UserPollSerializer.validate pk a s.
Proof.
  intros Hkeys. unfold UserPollSerializer.validate.
  destruct (for_each_pure _ (UserPollSerializer.answers a)) as [e | us]; [reflexivity |].
  unfold db.get_poll. destruct (to_python pk) as [k |]; [| reflexivity].
  pose proof (find_poll_same_keys k _ _ Hkeys) as Hfind.
  cbn [with_polls db.polls].
  destruct (find _ ps) as [p |], (find _ (db.polls s)) as [p' |];
    try contradiction; [| reflexivity].
  unfold db.poll_questions. cbn [with_polls db.questions]. rewrite Hfind. reflexivity.
Qed.

Lemma create_answer_with_polls (r : request.t) (vd : UserPollSerializer.attrs)
    (a : AnswerSerializer.attrs) (s : db.Store) (ps : list Poll.t) :
  UserPollSerializer.create_answer r vd a (with_polls s ps)
  = let (out, s') := UserPollSerializer.create_answer r vd a s in (out, with_polls s' ps).
Proof.
  rewrite !create_answer_spec. cbv zeta. cbn [with_polls db.answers].
  destruct (request.is_authenticated r && _); [reflexivity |].
  destruct (already_voted _ _ _ (db.answers s)); reflexivity.
Qed.

Lemma create_loop_with_polls (r : request.t) (vd : UserPollSerializer.attrs)
    (l : list AnswerSerializer.attrs) (ps : list Poll.t) :
  forall s,
    for_each (UserPollSerializer.create_answer r vd) l (with_polls s ps)
    = let (out, s') := for_each (UserPollSerializer.create_answer r vd) l s in
      (out, with_polls s' ps).
Proof.
  induction l as [| a l IH]; intros s; cbn [for_each].
  - reflexivity.
  - unfold bind at 1 3. rewrite create_answer_with_polls.
    destruct (UserPollSerializer.create_answer r vd a s) as [[e | row] s1];
      [reflexivity |].
    unfold bind. rewrite IH.
    destruct (for_each (UserPollSerializer.create_answer r vd) l s1) as [[e | rows] s2];
      reflexivity.
Qed.

(** X2: the vote handler reads of the polls their keys only: two stores that
    differ in the publication flags, the dates or the texts of their polls
    get the same outcome and the same rows of answers for a vote.  So the
    handler treats a poll that is unpublished or outside its window like an
    active one. *)
Theorem vote_ignores_state_of_poll (pk : string) (r : request.t) (s : db.Store)
    (ps : list Poll.t) :
  map Poll.id ps = map Poll.id (db.polls s) ->
  UserPolls.post pk r (with_polls s ps)
  = let (out, s') := UserPolls.post pk r s in (out, with_polls s' ps).
Proof.
  intros Hkeys. rewrite !post_cases.
  destruct (UserPollsPermission.has_permission r action.vote_in_poll); [| reflexivity].
  assert (Hval : UserPollSerializer.run_validation pk (request.data r) (with_polls s ps)
                 = UserPollSerializer.run_validation pk (request.data r) s).
  { unfold UserPollSerializer.run_validation.
    change (UserPollSerializer.to_internal_value (request.data r) (with_polls s ps))
      with (UserPollSerializer.to_internal_value (request.data r) s).
    destruct (UserPollSerializer.to_internal_value (request.data r) s) as [e | a];
      [reflexivity |].
    apply validate_same_keys. exact Hkeys. }
  rewrite Hval.
  destruct (UserPollSerializer.run_validation pk (request.data r) s) as [e | vd];
    [reflexivity |].
  unfold UserPollSerializer.create, bind. rewrite create_loop_with_polls.
  destruct (for_each (UserPollSerializer.create_answer r vd)
              (UserPollSerializer.answers vd) s) as [[e | rows] s1]; reflexivity.
Qed.

End PollState.

(** The published and the unpublished fixture have the same polls by key,
    so the vote of voter 42 ends the same way in both. *)
Lemma vote_ignores_state_of_poll_witness :
  map Poll.id (db.polls (fixture.store false)) = map Poll.id (db.polls (fixture.store true))
  /\ UserPolls.post (conv := decimal_pk) "1" fixture.vote42 (fixture.store false)
     = let (out, s') := UserPolls.post (conv := decimal_pk) "1" fixture.vote42
                          (fixture.store true) in
       (out, with_polls s' (db.polls (fixture.store false))).
Proof.
  split; [reflexivity |].
  exact (vote_ignores_state_of_poll (conv := decimal_pk) "1" fixture.vote42 (fixture.store true)
           (db.polls (fixture.store false)) eq_refl).
Defined.

(** ** The key of the table of questions *)

(** A loop keeps what each of its turns keeps. *)
Lemma for_each_keeps {S A B} (inv : S -> Prop) (body : A -> M S B) (l : list A) :
  (forall a s out s', inv s -> body a s = (out, s') -> inv s') ->
  forall s out s', inv s -> for_each body l s = (out, s') -> inv s'.
Proof.
  intros Hbody. induction l as [| a l IH]; intros s out s' Hinv; cbn [for_each].
  - unfold ret. intros Heq. inversion Heq; subst. exact Hinv.
  - unfold bind at 1. destruct (body a s) as [[e | b] s1] eqn:Ha.
    + intros Heq. inversion Heq; subst. eapply Hbody; eassumption.
    + unfold bind.
      destruct (for_each body l s1) as [[e | bs] s2] eqn:Hl;
        intros Heq; inversion Heq; subst;
        (eapply IH; [| exact Hl]); eapply Hbody; eassumption.
Qed.

Lemma insert_choice_keeps_questions (q : Question.t) (t : string) (qs : list Question.t)
    (s s' : db.Store) (out : exn + ChoiceAnswer.t) :
  db.questions s = qs -> db.insert_choice q t s = (out, s') -> db.questions s' = qs.
Proof.
  intros Hqs. unfold db.insert_choice, bind, gets.
  destruct (existsb _ (db.choiceanswers s)); unfold raise, modify, ret;
    intros Heq; inversion Heq; subst; reflexivity.
Qed.

Lemma delete_choice_keeps_questions (c : ChoiceAnswer.t) (qs : list Question.t)
    (s s' : db.Store) (out : exn + unit) :
  db.questions s = qs -> db.delete_choice c s = (out, s') -> db.questions s' = qs.
Proof.
  intros Hqs. unfold db.delete_choice, modify.
  intros Heq. inversion Heq; subst. reflexivity.
Qed.

Lemma save_choices_keeps_questions (q : Question.t) (choices : option (list string))
    (s s' : db.Store) (out : exn + unit) :
  QuestionSerializer._save_choices q choices s = (out, s') ->
  db.questions s' = db.questions s.
Proof.
  unfold QuestionSerializer._save_choices.
  destruct choices as [[| t l] |]; unfold ret;
    try (intros Heq; inversion Heq; subst; reflexivity).
  unfold db.bulk_create_choices, bind, atomic.
  destruct (for_each (db.insert_choice q) (t :: l) s) as [[e | cs] s1] eqn:Hloop;
    intros Heq; inversion Heq; subst; [reflexivity |].
  apply (for_each_keeps (fun s0 => db.questions s0 = db.questions s)
           (db.insert_choice q) (t :: l)
           (fun a s0 out0 s0' => insert_choice_keeps_questions q a _ s0 s0' out0)
           s _ _ eq_refl Hloop).
Qed.

Lemma append_fresh_unique_ids (q : Question.t) (qs : list Question.t) :
  NoDup (map Question.id qs) ->
  ~ In (Question.id q) (map Question.id qs) ->
  NoDup (map Question.id (qs ++ [q])%list).
Proof.
  intros Hkeys Hfresh. rewrite map_app. cbn [map].
  apply NoDup_app; [exact Hkeys | repeat constructor; simpl; tauto |].
  intros k Hk [<- | []]. exact (Hfresh Hk).
Qed.

Lemma create_question_keeps_unique_ids (poll : Poll.t) (text : string)
    (ty : Question.QuestionType.t) (s s' : db.Store) (out : exn + Question.t) :
  unique_question_ids s ->
  db.create_question poll text ty s = (out, s') ->
  unique_question_ids s'.
Proof.
  unfold unique_question_ids, db.create_question, bind, gets. intros Hkeys.
  destruct (existsb _ (db.questions s)); unfold raise, modify, ret;
    intros Heq; inversion Heq; subst; [exact Hkeys |].
  cbn [db.set_questions db.questions].
  apply append_fresh_unique_ids; [exact Hkeys |].
  cbn [Question.id]. intros Hin. apply next_id_above in Hin. lia.
Qed.

Lemma save_question_keeps_unique_ids (q : Question.t) (s s' : db.Store)
    (out : exn + Question.t) :
  unique_question_ids s ->
  db.save_question q s = (out, s') ->
  unique_question_ids s'.
Proof.
  unfold unique_question_ids, db.save_question, bind, gets. intros Hkeys.
  destruct (existsb _ (db.questions s)); unfold raise;
    [intros Heq; inversion Heq; subst; exact Hkeys |].
  destruct (existsb (fun r => Z.eqb (Question.id r) (Question.id q)) (db.questions s))
    eqn:Hstored; unfold modify, ret; intros Heq; inversion Heq; subst;
    cbn [db.set_questions db.questions].
  - rewrite map_map.
    erewrite map_ext; [exact Hkeys |].
    intros r. cbv beta. destruct (Z.eqb_spec (Question.id r) (Question.id q)); congruence.
  - apply append_fresh_unique_ids; [exact Hkeys |].
    intros Hin. apply in_map_iff in Hin. destruct Hin as [r [Hid Hr]].
    assert (Hex : existsb (fun r => Z.eqb (Question.id r) (Question.id q))
                    (db.questions s) = true).
    { apply existsb_exists. exists r. split; [exact Hr | apply Z.eqb_eq; exact Hid]. }
    congruence.
Qed.

Section Keeps.

Context {S : Type} (inv : S -> Prop).

Lemma keeps_ret {A} (a : A) : keeps inv (ret a).
Proof. intros s out s' Hinv Heq. inversion Heq; subst. exact Hinv. Qed.

Lemma keeps_raise {A} (e : exn) : keeps inv (@raise S A e).
Proof. intros s out s' Hinv Heq. inversion Heq; subst. exact Hinv. Qed.

Lemma keeps_reads {A} (f : S -> exn + A) : keeps inv (reads f).
Proof. intros s out s' Hinv Heq. inversion Heq; subst. exact Hinv. Qed.

Lemma keeps_gets {A} (f : S -> A) : keeps inv (gets f).
Proof. intros s out s' Hinv Heq. inversion Heq; subst. exact Hinv. Qed.

Lemma keeps_lift {A} (r : exn + A) : keeps inv (lift r).
Proof. intros s out s' Hinv Heq. inversion Heq; subst. exact Hinv. Qed.

Lemma keeps_bind {A B} (m : M S A) (k : A -> M S B) :
  keeps inv m -> (forall a, keeps inv (k a)) -> keeps inv (bind m k).
Proof.
  intros Hm Hk s out s' Hinv. unfold bind.
  destruct (m s) as [[e | a] s1] eqn:Hrun.
  - intros Heq. inversion Heq; subst. eapply Hm; eassumption.
  - intros Heq. eapply Hk; [| exact Heq]. eapply Hm; eassumption.
Qed.

Lemma keeps_except {A} (m : M S A) (h : exn -> exn) : keeps inv m -> keeps inv (except m h).
Proof.
  intros Hm s out s' Hinv. unfold except.
  destruct (m s) as [[e | a] s1] eqn:Hrun; intros Heq; inversion Heq; subst;
    eapply Hm; eassumption.
Qed.

Lemma keeps_atomic {A} (m : M S A) : keeps inv m -> keeps inv (atomic m).
Proof.
  intros Hm s out s' Hinv. unfold atomic.
  destruct (m s) as [[e | a] s1] eqn:Hrun; intros Heq; inversion Heq; subst.
  - exact Hinv.
  - eapply Hm; eassumption.
Qed.

Lemma keeps_for_each {A B} (body : A -> M S B) (l : list A) :
  (forall a, keeps inv (body a)) -> keeps inv (for_each body l).
Proof.
  intros Hbody s out s' Hinv Hrun.
  eapply (for_each_keeps inv body l); [| exact Hinv | exact Hrun].
  intros a s0 out0 s0' Hinv0 Ha. eapply Hbody; eassumption.
Qed.

End Keeps.

Lemma save_choices_keeps_unique_ids (q : Question.t) (choices : option (list string)) :
  keeps unique_question_ids (QuestionSerializer._save_choices q choices).
Proof.
  intros s out s' Hkeys Hrun. unfold unique_question_ids.
  rewrite (save_choices_keeps_questions _ _ _ _ _ Hrun). exact Hkeys.
Qed.

Lemma delete_choice_keeps_unique_ids (c : ChoiceAnswer.t) :
  keeps unique_question_ids (db.delete_choice c).
Proof.
  intros s out s' Hkeys Hrun. unfold unique_question_ids.
  rewrite (delete_choice_keeps_questions c _ s s' out eq_refl Hrun). exact Hkeys.
Qed.

Lemma delete_question_keeps_unique_ids (q : Question.t) :
  keeps unique_question_ids (db.delete_question q).
Proof.
  unfold db.delete_question.
  apply keeps_bind; [apply keeps_gets |]. intros s0.
  apply keeps_bind.
  - apply keeps_for_each. intros c. apply delete_choice_keeps_unique_ids.
  - intros _ s out s' Hkeys Hrun. unfold modify in Hrun. inversion Hrun; subst.
    unfold unique_question_ids. cbn [db.questions].
    apply filter_keeps_unique_ids. exact Hkeys.
Qed.

Section KeysOfQuestions.

Context `{conv : PkConversion}.

Lemma create_keeps_unique_ids (poll_pk : string) (data : QuestionSerializer.attrs) :
  keeps unique_question_ids (QuestionSerializer.create poll_pk data).
Proof.
  unfold QuestionSerializer.create.
  apply keeps_bind; [apply keeps_reads |]. intros poll.
  destruct (Poll.is_published poll); [apply keeps_raise |].
  apply keeps_bind.
  { apply keeps_except. intros s out s' Hkeys Hrun.
    eapply create_question_keeps_unique_ids; eassumption. }
  intros question. apply keeps_bind.
  { destruct (Question.has_choice question && _); [| apply keeps_ret].
    apply keeps_bind; [apply keeps_lift |]. intros n.
    destruct (negb (Nat.eqb n 1)); [apply keeps_raise | apply keeps_ret]. }
  intros _. apply keeps_bind; [apply save_choices_keeps_unique_ids |].
  intros _. apply keeps_ret.
Qed.

Lemma update_keeps_unique_ids (instance : Question.t) (data : QuestionSerializer.attrs) :
  keeps unique_question_ids (QuestionSerializer.update instance data).
Proof.
  unfold QuestionSerializer.update.
  apply keeps_bind; [apply keeps_reads |]. intros poll.
  destruct (Poll.is_published poll); [apply keeps_raise |].
  apply keeps_bind; [apply keeps_gets |]. intros old.
  apply keeps_bind.
  { apply keeps_for_each. intros c. apply delete_choice_keeps_unique_ids. }
  intros _. apply keeps_bind; [apply save_choices_keeps_unique_ids |].
  intros _ s out s' Hkeys Hrun.
  eapply save_question_keeps_unique_ids; eassumption.
Qed.

Lemma vote_keeps_questions (pk : string) (r : request.t) (s : db.Store) :
  db.questions (snd (UserPolls.post pk r s)) = db.questions s.
Proof.
  destruct (UserPolls.post pk r s) as [[e | res] s'] eqn:Hpost; cbn [snd].
  - apply post_raises_unchanged in Hpost. subst. reflexivity.
  - apply post_returns in Hpost. destruct Hpost as [_ [vd [_ Hcreate]]].
    apply create_returns in Hcreate. destruct Hcreate as [-> _]. reflexivity.
Qed.

(** X3: the keys of the questions stay distinct under every operation of the
    package that writes: creating, updating and deleting a question
    through the admin view, and voting. *)
Theorem question_keys_stay_unique (s : db.Store) :
  unique_question_ids s ->
  (forall poll_pk data,
     unique_question_ids (snd (QuestionAdminViewSet.post poll_pk data s)))
  /\ (forall poll_pk pk data,
        unique_question_ids (snd (QuestionAdminViewSet.put poll_pk pk data s)))
  /\ (forall poll_pk pk,
        unique_question_ids (snd (QuestionAdminViewSet.delete poll_pk pk s)))
  /\ (forall pk r, unique_question_ids (snd (UserPolls.post pk r s))).
Proof.
  intros Hkeys.
  assert (Hsnd : forall A (m : M db.Store A),
            keeps unique_question_ids m -> unique_question_ids (snd (m s))).
  { intros A m Hm. destruct (m s) as [out s'] eqn:Hrun. eapply Hm; eassumption. }
  split; [| split; [| split]].
  - intros poll_pk data. apply Hsnd. unfold QuestionAdminViewSet.post.
    apply keeps_bind; [apply keeps_reads |]. intros _.
    apply keeps_atomic, keeps_bind; [apply keeps_lift |].
    intros vd. apply create_keeps_unique_ids.
  - intros poll_pk pk data. apply Hsnd. unfold QuestionAdminViewSet.put.
    apply keeps_bind; [apply keeps_reads |]. intros poll.
    apply keeps_atomic, keeps_bind; [apply keeps_reads |]. intros instance.
    apply keeps_bind; [apply keeps_lift |].
    intros vd. apply update_keeps_unique_ids.
  - intros poll_pk pk. apply Hsnd. unfold QuestionAdminViewSet.delete.
    apply keeps_bind; [apply keeps_reads |]. intros poll.
    apply keeps_atomic. destruct (Poll.is_published poll); [apply keeps_raise |].
    apply keeps_bind; [apply keeps_reads |]. intros instance.
    apply delete_question_keeps_unique_ids.
  - intros pk r. unfold unique_question_ids. rewrite vote_keeps_questions. exact Hkeys.
Qed.

End KeysOfQuestions.

(** The questions of the fixture have distinct keys, and still have after a
    question has been added to poll 1. *)
Lemma question_keys_stay_unique_witness :
  unique_question_ids (fixture.store false)
  /\ unique_question_ids
       (snd (QuestionAdminViewSet.post (conv := decimal_pk) "1"
               (fixture.new_question "Q4" Question.QuestionType.text QuestionSerializer.absent)
               (fixture.store false))).
Proof.
  split; [apply fixture_unique_question_ids |].
  exact (proj1 (question_keys_stay_unique (conv := decimal_pk) (fixture.store false)
                  (fixture_unique_question_ids false)) "1" _).
Defined.

(** ** A single-choice question with its one choice *)

(** What the model writes for a single-choice question with one choice,
    with the keys it takes. *)
Lemma single_choice_creation_writes `{conv : PkConversion} (poll_pk : string)
    (data : QuestionSerializer.attrs) (c : string) (poll : Poll.t) (s : db.Store) :
  QuestionSerializer.type data = Some Question.QuestionType.single_choice ->
  QuestionSerializer.choices data = QuestionSerializer.given [c] ->
  db.get_poll poll_pk s = inr poll ->
  Poll.is_published poll = false ->
  existsb (Question.same_unique_key (question_row poll data s)) (db.questions s) = false ->
  choices_reference_questions s ->
  let q := question_row poll data s in
  QuestionAdminViewSet.post poll_pk data s
  = (inr q,
     db.set_choiceanswers (db.set_questions s (db.questions s ++ [q])%list)
       (db.choiceanswers s
        ++ [ {| ChoiceAnswer.id := next_id (map ChoiceAnswer.id (db.choiceanswers s));
                ChoiceAnswer.question_id := Question.id q;
                ChoiceAnswer.text := c |} ])%list).
Proof.
  intros Htype Hchoices Hpoll Hpub Hnew Hrefs. cbv zeta.
  rewrite post_question_cases, (get_poll_or_404_returns _ _ _ Hpoll).
  assert (Hval : QuestionSerializer.validate data = inr data).
  { unfold QuestionSerializer.validate, QuestionSerializer.get_choices.
    rewrite Hchoices. reflexivity. }
  rewrite Hval, (create_single_choice _ _ _ Htype), Hpoll, Hpub. cbv zeta. rewrite Hnew.
  unfold QuestionSerializer.pop_choices. rewrite Hchoices.
  unfold QuestionSerializer._save_choices, db.bulk_create_choices. cbn [for_each].
  unfold bind at 1 2. unfold atomic. unfold bind at 1. unfold db.insert_choice.
  unfold bind at 1. unfold gets.
  cbn [db.set_questions db.choiceanswers].
  assert (Hfree : existsb
                    (fun r => String.eqb (ChoiceAnswer.text r) c
                              && Z.eqb (ChoiceAnswer.question_id r)
                                   (Question.id (question_row poll data s)))
                    (db.choiceanswers s) = false).
  { apply not_true_is_false. intros Hex. apply existsb_exists in Hex.
    destruct Hex as [r [Hr Hsame]]. apply andb_true_iff in Hsame.
    destruct Hsame as [_ Hq]. apply Z.eqb_eq in Hq.
    apply Hrefs in Hr. apply next_id_above in Hr.
    unfold question_row in Hq. cbn [Question.id] in Hq. lia. }
  rewrite Hfree. reflexivity.
Qed.

(** X4: with exactly one choice a single-choice question is created: in an
    unpublished poll, for a text no question of the poll has, in a store
    where every choice belongs to a stored question, the call returns the
    new question, and the store has gained the row of the question, of the
    poll, the text and the type sent, and the row of its one choice, of
    the text sent, each under a key new to its table; nothing else
    changes. *)
Theorem single_choice_creation_with_one_choice `{conv : PkConversion} (poll_pk : string)
    (data : QuestionSerializer.attrs) (c : string) (poll : Poll.t) (s : db.Store) :
  QuestionSerializer.type data = Some Question.QuestionType.single_choice ->
  QuestionSerializer.choices data = QuestionSerializer.given [c] ->
  db.get_poll poll_pk s = inr poll ->
  Poll.is_published poll = false ->
  (forall r, In r (db.questions s) -> Question.poll_id r = Poll.id poll ->
             Question.text r <> QuestionSerializer.text data) ->
  choices_reference_questions s ->
  exists q choice,
    QuestionAdminViewSet.post poll_pk data s
    = (inr q,
       db.set_choiceanswers (db.set_questions s (db.questions s ++ [q])%list)
         (db.choiceanswers s ++ [choice])%list)
    /\ ~ In (Question.id q) (map Question.id (db.questions s))
    /\ Question.poll_id q = Poll.id poll
    /\ Question.text q = QuestionSerializer.text data
    /\ Question.type q = Question.QuestionType.single_choice
    /\ ~ In (ChoiceAnswer.id choice) (map ChoiceAnswer.id (db.choiceanswers s))
    /\ ChoiceAnswer.question_id choice = Question.id q
    /\ ChoiceAnswer.text choice = c.
Proof.
  intros Htype Hchoices Hpoll Hpub Hnew Hrefs.
  assert (Hfree : existsb (Question.same_unique_key (question_row poll data s))
                    (db.questions s) = false).
  { apply not_true_is_false. intros Hex. apply existsb_exists in Hex.
    destruct Hex as [r [Hr Hsame]]. unfold Question.same_unique_key in Hsame.
    cbn [question_row Question.poll_id Question.text] in Hsame.
    apply andb_true_iff in Hsame. destruct Hsame as [Hp Ht].
    apply Z.eqb_eq in Hp. apply String.eqb_eq in Ht.
    apply (Hnew r Hr); congruence. }
  eexists _, _. split.
  - exact (single_choice_creation_writes poll_pk data c poll s Htype Hchoices Hpoll Hpub
             Hfree Hrefs).
  - cbn [question_row Question.id Question.poll_id Question.text Question.type
         ChoiceAnswer.id ChoiceAnswer.question_id ChoiceAnswer.text].
    rewrite Htype.
    split; [intros Hin; apply next_id_above in Hin; lia |].
    split; [reflexivity |]. split; [reflexivity |]. split; [reflexivity |].
    split; [intros Hin; apply next_id_above in Hin; lia |].
    split; reflexivity.
Qed.

(** The single-choice question "Q4" with the choice "yes" is added to poll
    1 of the fixture. *)
Lemma single_choice_creation_with_one_choice_witness :
  let s := fixture.store false in
  let data := fixture.new_question "Q4" Question.QuestionType.single_choice
                (QuestionSerializer.given ["yes"]) in
  choices_reference_questions s
  /\ exists q choice,
       QuestionAdminViewSet.post (conv := decimal_pk) "1" data s
       = (inr q,
          db.set_choiceanswers (db.set_questions s (db.questions s ++ [q])%list)
            (db.choiceanswers s ++ [choice])%list)
       /\ ~ In (Question.id q) (map Question.id (db.questions s))
       /\ Question.poll_id q = 1
       /\ Question.text q = "Q4"
       /\ Question.type q = Question.QuestionType.single_choice
       /\ ~ In (ChoiceAnswer.id choice) (map ChoiceAnswer.id (db.choiceanswers s))
       /\ ChoiceAnswer.question_id choice = Question.id q
       /\ ChoiceAnswer.text choice = "yes".
Proof.
  intros s data.
  assert (Hrefs : choices_reference_questions s).
  { intros c [<- | [<- | []]]; simpl; auto. }
  split; [exact Hrefs |].
  apply (single_choice_creation_with_one_choice (conv := decimal_pk) "1" data
           "yes" (fixture.poll 1 false) s eq_refl eq_refl eq_refl eq_refl); [| exact Hrefs].
  intros r [<- | [<- | [<- | []]]] _; discriminate.
Defined.

(** ** What the admin operations write *)

Lemma insert_choices_returns (q : Question.t) (l : list string) :
  forall (s s' : db.Store) (created : list ChoiceAnswer.t),
    for_each (db.insert_choice q) l s = (inr created, s') ->
    s' = db.set_choiceanswers s (db.choiceanswers s ++ created)%list
    /\ Forall (fun c => ChoiceAnswer.question_id c = Question.id q) created.
Proof.
  induction l as [| t l IH]; intros s s' created; cbn [for_each].
  - unfold ret. intros Heq. inversion Heq; subst.
    rewrite app_nil_r, set_choiceanswers_same. auto.
  - intros Hrun. apply bind_returns in Hrun. destruct Hrun as [c [s1 [Hc Hrest]]].
    apply bind_returns in Hrest. destruct Hrest as [cs [s2 [Hloop Hret]]].
    unfold ret in Hret. inversion Hret; subst. clear Hret.
    unfold db.insert_choice, bind, gets in Hc.
    destruct (existsb _ (db.choiceanswers s)); [discriminate |].
    unfold modify, ret in Hc. inversion Hc; subst. clear Hc.
    apply IH in Hloop. destruct Hloop as [-> Hq].
    split; [| constructor; [reflexivity | exact Hq]].
    unfold db.set_choiceanswers. cbn [db.polls db.questions db.choiceanswers db.answers].
    rewrite <- app_assoc. reflexivity.
Qed.

Lemma save_choices_returns (q : Question.t) (choices : option (list string))
    (s s' : db.Store) (u : unit) :
  QuestionSerializer._save_choices q choices s = (inr u, s') ->
  exists created,
    s' = db.set_choiceanswers s (db.choiceanswers s ++ created)%list
    /\ Forall (fun c => ChoiceAnswer.question_id c = Question.id q) created.
Proof.
  unfold QuestionSerializer._save_choices.
  destruct choices as [[| t l] |];
    try solve [unfold ret; intros Heq; inversion Heq; subst; exists [];
               rewrite app_nil_r, set_choiceanswers_same; auto].
  intros Hrun. apply bind_returns in Hrun. destruct Hrun as [cs [s1 [Hbulk Hret]]].
  unfold ret in Hret. inversion Hret; subst. clear Hret.
  unfold db.bulk_create_choices, atomic in Hbulk.
  destruct (for_each (db.insert_choice q) (t :: l) s) as [[e | cs'] s2] eqn:Hloop;
    [discriminate |].
  inversion Hbulk; subst. exists cs. eapply insert_choices_returns. exact Hloop.
Qed.

Section Shapes.

Context `{conv : PkConversion}.

(** What [create] has written when it returns. *)
Lemma create_returns_shape (poll_pk : string) (data : QuestionSerializer.attrs)
    (s s' : db.Store) (q : Question.t) :
  QuestionSerializer.create poll_pk data s = (inr q, s') ->
  exists poll created,
    db.get_poll poll_pk s = inr poll
    /\ Poll.is_published poll = false
    /\ q = question_row poll data s
    /\ s' = db.set_choiceanswers (db.set_questions s (db.questions s ++ [q])%list)
              (db.choiceanswers s ++ created)%list
    /\ Forall (fun c => ChoiceAnswer.question_id c = Question.id q) created.
Proof.
  unfold QuestionSerializer.create. intros Hrun.
  apply bind_returns in Hrun. destruct Hrun as [poll [s0 [Hpoll Hrun]]].
  unfold reads in Hpoll.
  destruct (db.get_poll poll_pk s) as [e | p] eqn:Hget; inversion Hpoll; subst.
  clear Hpoll.
  destruct (Poll.is_published poll) eqn:Hpub; [discriminate |].
  apply bind_returns in Hrun. destruct Hrun as [question [s1 [Hq Hrun]]].
  unfold except, db.create_question, bind, gets in Hq.
  fold (question_row poll data s0) in Hq. cbv zeta in Hq.
  destruct (existsb _ (db.questions s0)); [discriminate |].
  unfold modify, ret in Hq. inversion Hq; subst. clear Hq.
  apply bind_returns in Hrun. destruct Hrun as [u [s2 [Hcheck Hrun]]].
  assert (Hs2 : s2 = db.set_questions s0
                       (db.questions s0 ++ [question_row poll data s0])%list).
  { destruct (Question.has_choice _ && _).
    - unfold bind, lift in Hcheck.
      destruct (len (QuestionSerializer.pop_choices data)) as [e | n]; [discriminate |].
      destruct (negb (Nat.eqb n 1)); inversion Hcheck; reflexivity.
    - inversion Hcheck; reflexivity. }
  subst s2.
  apply bind_returns in Hrun. destruct Hrun as [u' [s3 [Hsave Hret]]].
  unfold ret in Hret. inversion Hret; subst. clear Hret.
  destruct u'. apply save_choices_returns in Hsave.
  destruct Hsave as [created [Hs' Hcreated]].
  exists poll, created. auto.
Qed.

(** What [update] has written when it returns. *)
Lemma update_returns_shape (instance : Question.t) (data : QuestionSerializer.attrs)
    (s s' : db.Store) (q' : Question.t) :
  QuestionSerializer.update instance data s = (inr q', s') ->
  exists poll created,
    db.poll_of instance s = inr poll
    /\ Poll.is_published poll = false
    /\ Question.id q' = Question.id instance
    /\ Question.poll_id q' = Question.poll_id instance
    /\ db.polls s' = db.polls s
    /\ db.choiceanswers s'
       = (filter (fun r => negb (existsb (Z.eqb (ChoiceAnswer.id r))
                                   (map ChoiceAnswer.id (db.question_choices instance s))))
            (db.choiceanswers s) ++ created)%list
    /\ Forall (fun c => ChoiceAnswer.question_id c = Question.id instance) created
    /\ db.questions s'
       = if existsb (fun r => Z.eqb (Question.id r) (Question.id instance)) (db.questions s)
         then map (fun r => if Z.eqb (Question.id r) (Question.id instance) then q' else r)
                (db.questions s)
         else (db.questions s ++ [q'])%list.
Proof.
  unfold QuestionSerializer.update. intros Hrun.
  apply bind_returns in Hrun. destruct Hrun as [poll [s0 [Hpoll Hrun]]].
  unfold reads in Hpoll.
  destruct (db.poll_of instance s) as [e | p] eqn:Hof; inversion Hpoll; subst.
  clear Hpoll.
  destruct (Poll.is_published poll) eqn:Hpub; [discriminate |].
  apply bind_returns in Hrun. destruct Hrun as [old [s1 [Hold Hrun]]].
  unfold gets in Hold. inversion Hold; subst. clear Hold.
  apply bind_returns in Hrun. destruct Hrun as [us [s2 [Hdel Hrun]]].
  destruct (delete_choices_spec (db.question_choices instance s1) s1)
    as [us' [s2' [Hdel' [Hpolls [Hquestions Hchoices]]]]].
  rewrite Hdel' in Hdel. inversion Hdel; subst. clear Hdel.
  apply bind_returns in Hrun. destruct Hrun as [u [s3 [Hsave Hrun]]].
  destruct u. apply save_choices_returns in Hsave.
  destruct Hsave as [created [Hs3 Hcreated]]. subst s3.
  unfold QuestionSerializer.ModelSerializer_update, db.save_question, bind, gets in Hrun.
  cbn [db.set_choiceanswers db.questions Question.id] in Hrun.
  rewrite Hquestions in Hrun.
  destruct (existsb _ (db.questions s1)); [discriminate |].
  exists poll, created.
  destruct (existsb (fun r => Z.eqb (Question.id r) (Question.id instance))
              (db.questions s1));
    unfold modify, ret in Hrun; inversion Hrun; subst; clear Hrun;
    cbn [db.set_questions db.set_choiceanswers db.polls db.questions db.choiceanswers
         Question.id Question.poll_id];
    rewrite Hchoices, Hpolls; repeat split; auto;
    rewrite Hquestions; reflexivity.
Qed.

End Shapes.

(** What [question.delete()] writes. *)
Lemma delete_question_shape (q : Question.t) (s : db.Store) :
  exists s',
    db.delete_question q s = (inr tt, s')
    /\ db.polls s' = db.polls s
    /\ db.questions s'
       = filter (fun r => negb (Z.eqb (Question.id r) (Question.id q))) (db.questions s)
    /\ db.choiceanswers s'
       = filter (fun r => negb (existsb (Z.eqb (ChoiceAnswer.id r))
                                  (map ChoiceAnswer.id (db.question_choices q s))))
           (db.choiceanswers s).
Proof.
  unfold db.delete_question. unfold bind at 1. unfold gets.
  destruct (delete_choices_spec (db.question_choices q s) s)
    as [us [s1 [Hdel [Hpolls [Hquestions Hchoices]]]]].
  unfold bind. rewrite Hdel. unfold modify.
  eexists. split; [reflexivity |].
  cbn [db.polls db.questions db.choiceanswers].
  rewrite Hpolls, Hquestions, Hchoices. auto.
Qed.

(** ** The questions and choices of the other polls *)

Lemma same_question_by_key (s : db.Store) (q1 q2 : Question.t) :
  unique_question_ids s ->
  In q1 (db.questions s) -> In q2 (db.questions s) ->
  Question.id q1 = Question.id q2 -> q1 = q2.
Proof.
  unfold unique_question_ids. induction (db.questions s) as [| q qs IH];
    cbn [map]; intros Hkeys H1 H2 Hid.
  - destruct H1.
  - apply NoDup_cons_iff in Hkeys. destruct Hkeys as [Hfresh Hrest].
    destruct H1 as [-> | H1], H2 as [-> | H2]; auto.
    + exfalso. apply Hfresh. rewrite Hid. apply in_map. exact H2.
    + exfalso. apply Hfresh. rewrite <- Hid. apply in_map. exact H1.
Qed.

Lemma same_choice_by_key (s : db.Store) (c1 c2 : ChoiceAnswer.t) :
  unique_choice_ids s ->
  In c1 (db.choiceanswers s) -> In c2 (db.choiceanswers s) ->
  ChoiceAnswer.id c1 = ChoiceAnswer.id c2 -> c1 = c2.
Proof.
  unfold unique_choice_ids. induction (db.choiceanswers s) as [| c cs IH];
    cbn [map]; intros Hkeys H1 H2 Hid.
  - destruct H1.
  - apply NoDup_cons_iff in Hkeys. destruct Hkeys as [Hfresh Hrest].
    destruct H1 as [-> | H1], H2 as [-> | H2]; auto.
    + exfalso. apply Hfresh. rewrite Hid. apply in_map. exact H2.
    + exfalso. apply Hfresh. rewrite <- Hid. apply in_map. exact H1.
Qed.

(** The rows [update] and [delete] take from the table of choices are the
    choices of the question. *)
Lemma deleted_choices_of_question (s : db.Store) (q : Question.t) (r : ChoiceAnswer.t) :
  unique_choice_ids s ->
  In r (db.choiceanswers s) ->
  existsb (Z.eqb (ChoiceAnswer.id r)) (map ChoiceAnswer.id (db.question_choices q s)) = true ->
  ChoiceAnswer.question_id r = Question.id q.
Proof.
  intros Hkeys Hr Hdel. apply existsb_Zeqb_In, in_map_iff in Hdel.
  destruct Hdel as [c [Hid Hc]]. unfold db.question_choices in Hc.
  apply filter_In in Hc. destruct Hc as [Hc Hq]. apply Z.eqb_eq in Hq.
  rewrite (same_choice_by_key s r c Hkeys Hr Hc (eq_sym Hid)). exact Hq.
Qed.

Section Frame.

Variable k : Z.

Let of_poll (q : Question.t) : bool := Z.eqb (Question.poll_id q) k.

Lemma questions_of_poll_append (qs : list Question.t) (q : Question.t) :
  Question.poll_id q <> k -> filter of_poll (qs ++ [q])%list = filter of_poll qs.
Proof.
  intros Hother. rewrite filter_app. cbn [filter].
  assert (Hq : of_poll q = false).
  { apply Z.eqb_neq. exact Hother. }
  rewrite Hq. apply app_nil_r.
Qed.

Lemma questions_of_poll_replace (qs : list Question.t) (i : Z) (q' : Question.t) :
  (forall r, In r qs -> Question.id r = i -> Question.poll_id r <> k) ->
  Question.poll_id q' <> k ->
  filter of_poll (map (fun r => if Z.eqb (Question.id r) i then q' else r) qs)
  = filter of_poll qs.
Proof.
  intros Hold Hnew. induction qs as [| r qs IH]; cbn [map filter].
  - reflexivity.
  - rewrite IH by (intros r0 Hr0; apply Hold; right; exact Hr0).
    destruct (Z.eqb_spec (Question.id r) i) as [Hid | Hid]; [| reflexivity].
    assert (Hr : of_poll r = false).
    { apply Z.eqb_neq. exact (Hold r (or_introl eq_refl) Hid). }
    assert (Hq' : of_poll q' = false).
    { apply Z.eqb_neq. exact Hnew. }
    rewrite Hr, Hq'. reflexivity.
Qed.

Lemma questions_of_poll_remove (qs : list Question.t) (i : Z) :
  (forall r, In r qs -> Question.id r = i -> Question.poll_id r <> k) ->
  filter of_poll (filter (fun r => negb (Z.eqb (Question.id r) i)) qs) = filter of_poll qs.
Proof.
  intros Hold. induction qs as [| r qs IH]; cbn [filter].
  - reflexivity.
  - rewrite <- IH by (intros r0 Hr0; apply Hold; right; exact Hr0).
    destruct (Z.eqb_spec (Question.id r) i) as [Hid | Hid]; cbn [negb filter];
      [| reflexivity].
    assert (Hr : of_poll r = false).
    { apply Z.eqb_neq. exact (Hold r (or_introl eq_refl) Hid). }
    rewrite Hr. reflexivity.
Qed.

Let of_question (c : ChoiceAnswer.t) : bool := Z.eqb (ChoiceAnswer.question_id c) k.

Lemma choices_of_question_kept (cs created : list ChoiceAnswer.t)
    (deleted : ChoiceAnswer.t -> bool) (i : Z) :
  i <> k ->
  (forall r, In r cs -> deleted r = true -> ChoiceAnswer.question_id r = i) ->
  Forall (fun c => ChoiceAnswer.question_id c = i) created ->
  filter of_question (filter (fun r => negb (deleted r)) cs ++ created)%list
  = filter of_question cs.
Proof.
  intros Hother Hdeleted Hcreated. rewrite filter_app.
  rewrite (filter_none of_question created).
  - rewrite app_nil_r. induction cs as [| r cs IH]; cbn [filter].
    + reflexivity.
    + rewrite <- IH by (intros r0 Hr0; apply Hdeleted; right; exact Hr0).
      destruct (deleted r) eqn:Hdel; cbn [negb filter]; [| reflexivity].
      assert (Hr : of_question r = false).
      { apply Z.eqb_neq. rewrite (Hdeleted r (or_introl eq_refl) Hdel). exact Hother. }
      rewrite Hr. reflexivity.
  - rewrite Forall_forall in Hcreated. intros c Hc. unfold of_question.
    apply Z.eqb_neq. rewrite (Hcreated c Hc). exact Hother.
Qed.

End Frame.

Lemma questions_and_choices_same (poll : Poll.t) (s s' : db.Store) :
  db.poll_questions poll s' = db.poll_questions poll s ->
  (forall q, In q (db.poll_questions poll s) ->
             db.question_choices q s' = db.question_choices q s) ->
  questions_and_choices poll s' = questions_and_choices poll s.
Proof.
  intros Hquestions Hchoices. unfold questions_and_choices. rewrite Hquestions.
  apply map_ext_in. intros q Hq. rewrite (Hchoices q Hq). reflexivity.
Qed.

Section OtherPolls.

Context `{conv : PkConversion}.

Lemma get_poll_of_404 (pk : string) (s : db.Store) (poll : Poll.t) :
  db.get_poll_or_404 pk s = inr poll -> db.get_poll pk s = inr poll.
Proof.
  unfold db.get_poll_or_404.
  destruct (db.get_poll pk s) as [[] | p]; intros Heq; inversion Heq; reflexivity.
Qed.

Lemma put_question_cases (poll_pk pk : string) (data : QuestionSerializer.attrs)
    (s : db.Store) :
  QuestionAdminViewSet.put poll_pk pk data s =
    match db.get_poll_or_404 poll_pk s with
    | inl e => (inl e, s)
    | inr self_poll =>
        match QuestionAdminViewSet.get_object self_poll pk s with
        | inl e => (inl e, s)
        | inr instance =>
            match QuestionSerializer.validate data with
            | inl e => (inl e, s)
            | inr validated_data =>
                match QuestionSerializer.update instance validated_data s with
                | (inl e, _) => (inl e, s)
                | (inr q, s') => (inr q, s')
                end
            end
        end
    end.
Proof.
  unfold QuestionAdminViewSet.put, QuestionAdminViewSet.initial,
    QuestionAdminViewSet.update.
  unfold bind at 1. unfold reads at 1.
  destruct (db.get_poll_or_404 poll_pk s) as [e | poll]; [reflexivity |].
  unfold atomic, bind, reads, lift.
  destruct (QuestionAdminViewSet.get_object poll pk s) as [e | instance]; [reflexivity |].
  destruct (QuestionSerializer.validate data) as [e | vd]; [reflexivity |].
  destruct (QuestionSerializer.update instance vd s) as [[e | q] s']; reflexivity.
Qed.

Lemma delete_question_cases (poll_pk pk : string) (s : db.Store) :
  QuestionAdminViewSet.delete poll_pk pk s =
    match db.get_poll_or_404 poll_pk s with
    | inl e => (inl e, s)
    | inr self_poll =>
        if Poll.is_published self_poll
        then (inl (ValidationError "Poll already published and cannot be changed"), s)
        else
          match QuestionAdminViewSet.get_object self_poll pk s with
          | inl e => (inl e, s)
          | inr instance => db.delete_question instance s
          end
    end.
Proof.
  unfold QuestionAdminViewSet.delete, QuestionAdminViewSet.initial,
    QuestionAdminViewSet.destroy.
  unfold bind at 1. unfold reads at 1.
  destruct (db.get_poll_or_404 poll_pk s) as [e | poll]; [reflexivity |].
  unfold atomic. destruct (Poll.is_published poll); [reflexivity |].
  unfold bind, reads.
  destruct (QuestionAdminViewSet.get_object poll pk s) as [e | instance]; [reflexivity |].
  destruct (delete_question_shape instance s) as [s' [Hrun _]]. rewrite Hrun. reflexivity.
Qed.

Variable published : Poll.t.
Variable s : db.Store.
Hypothesis Hquestion_keys : unique_question_ids s.
Hypothesis Hchoice_keys : unique_choice_ids s.
Hypothesis Hstored :
  find (fun p => Z.eqb (Poll.id p) (Poll.id published)) (db.polls s) = Some published.
Hypothesis Hpublished : Poll.is_published published = true.

(** A poll that is not published has another key than the published
    one. *)
Lemma unpublished_is_other (poll : Poll.t) :
  find (fun p => Z.eqb (Poll.id p) (Poll.id poll)) (db.polls s) = Some poll ->
  Poll.is_published poll = false ->
  Poll.id poll <> Poll.id published.
Proof.
  intros Hfind Hunpublished Hid. rewrite Hid in Hfind.
  rewrite Hstored in Hfind. inversion Hfind; subst. congruence.
Qed.

Lemma question_of_unpublished_is_other (q : Question.t) (poll : Poll.t) :
  db.poll_of q s = inr poll ->
  Poll.is_published poll = false ->
  Question.poll_id q <> Poll.id published.
Proof.
  unfold db.poll_of. intros Hof Hunpublished Hid. rewrite Hid, Hstored in Hof.
  inversion Hof; subst. congruence.
Qed.

(** A question of another poll shares its key with no question of the
    published poll. *)
Lemma other_question_other_key (instance q : Question.t) :
  In instance (db.questions s) ->
  Question.poll_id instance <> Poll.id published ->
  In q (db.poll_questions published s) ->
  Question.id instance <> Question.id q.
Proof.
  intros Hinstance Hother Hq Hid. unfold db.poll_questions in Hq.
  apply filter_In in Hq. destruct Hq as [Hq Hpoll]. apply Z.eqb_eq in Hpoll.
  rewrite (same_question_by_key s instance q Hquestion_keys Hinstance Hq Hid) in Hother.
  contradiction.
Qed.

Lemma create_leaves_published (poll_pk : string) (data : QuestionSerializer.attrs)
    (q : Question.t) (s' : db.Store) :
  QuestionSerializer.create poll_pk data s = (inr q, s') ->
  questions_and_choices published s' = questions_and_choices published s.
Proof.
  intros Hrun. apply create_returns_shape in Hrun.
  destruct Hrun as [poll [created [Hpoll [Hunpublished [Hq [Hs' Hcreated]]]]]].
  pose proof (unpublished_is_other poll (get_poll_returns _ _ _ Hpoll) Hunpublished)
    as Hother.
  subst s'. apply questions_and_choices_same.
  - unfold db.poll_questions. cbn [db.set_choiceanswers db.set_questions db.questions].
    apply questions_of_poll_append. subst q. exact Hother.
  - intros qa Hqa. unfold db.question_choices.
    cbn [db.set_choiceanswers db.set_questions db.choiceanswers].
    rewrite filter_app, (filter_none _ created); [apply app_nil_r |].
    intros c Hc. rewrite Forall_forall in Hcreated. rewrite (Hcreated c Hc).
    apply Z.eqb_neq.
    unfold db.poll_questions in Hqa. apply filter_In in Hqa. destruct Hqa as [Hqa _].
    subst q. unfold question_row. cbn [Question.id].
    apply (in_map Question.id) in Hqa. apply next_id_above in Hqa. lia.
Qed.

Lemma update_leaves_published (instance : Question.t) (data : QuestionSerializer.attrs)
    (q' : Question.t) (s' : db.Store) :
  In instance (db.questions s) ->
  QuestionSerializer.update instance data s = (inr q', s') ->
  questions_and_choices published s' = questions_and_choices published s.
Proof.
  intros Hinstance Hrun. apply update_returns_shape in Hrun.
  destruct Hrun as [poll [created [Hof [Hunpublished [Hid [Hpoll [_ [Hchoices
                     [Hcreated Hquestions]]]]]]]]].
  pose proof (question_of_unpublished_is_other instance poll Hof Hunpublished) as Hother.
  apply questions_and_choices_same.
  - unfold db.poll_questions. rewrite Hquestions.
    destruct (existsb _ (db.questions s)).
    + apply questions_of_poll_replace; [| congruence].
      intros r Hr Hkey.
      rewrite (same_question_by_key s r instance Hquestion_keys Hr Hinstance Hkey).
      exact Hother.
    + apply questions_of_poll_append. congruence.
  - intros qa Hqa. unfold db.question_choices. rewrite Hchoices.
    apply (choices_of_question_kept (Question.id qa) (db.choiceanswers s) created
             (fun r => existsb (Z.eqb (ChoiceAnswer.id r))
                         (map ChoiceAnswer.id (db.question_choices instance s)))
             (Question.id instance)).
    + apply other_question_other_key; assumption.
    + intros r Hr Hdel. eapply deleted_choices_of_question; eassumption.
    + exact Hcreated.
Qed.

Lemma delete_leaves_published (instance : Question.t) (s' : db.Store) (u : unit) :
  In instance (db.questions s) ->
  Question.poll_id instance <> Poll.id published ->
  db.delete_question instance s = (inr u, s') ->
  questions_and_choices published s' = questions_and_choices published s.
Proof.
  intros Hinstance Hother Hrun.
  destruct (delete_question_shape instance s) as [s1 [Hrun1 [_ [Hquestions Hchoices]]]].
  rewrite Hrun1 in Hrun. inversion Hrun; subst. clear Hrun.
  apply questions_and_choices_same.
  - unfold db.poll_questions. rewrite Hquestions.
    apply questions_of_poll_remove. intros r Hr Hkey.
    rewrite (same_question_by_key s r instance Hquestion_keys Hr Hinstance Hkey).
    exact Hother.
  - intros qa Hqa. unfold db.question_choices. rewrite Hchoices.
    rewrite <- (app_nil_r (filter _ (db.choiceanswers s))).
    apply (choices_of_question_kept (Question.id qa) (db.choiceanswers s) []
             (fun r => existsb (Z.eqb (ChoiceAnswer.id r))
                         (map ChoiceAnswer.id (db.question_choices instance s)))
             (Question.id instance)).
    + apply other_question_other_key; assumption.
    + intros r Hr Hdel. eapply deleted_choices_of_question; eassumption.
    + constructor.
Qed.

(** X5: no operation on questions, whatever poll and question it names,
    changes the questions of a published poll or their choices: an
    operation on the published poll is refused, and an operation on
    another poll writes rows of that poll only. *)
Theorem published_poll_untouched :
  (forall poll_pk data,
     questions_and_choices published (snd (QuestionAdminViewSet.post poll_pk data s))
     = questions_and_choices published s)
  /\ (forall poll_pk pk data,
        questions_and_choices published (snd (QuestionAdminViewSet.put poll_pk pk data s))
        = questions_and_choices published s)
  /\ (forall poll_pk pk,
        questions_and_choices published (snd (QuestionAdminViewSet.delete poll_pk pk s))
        = questions_and_choices published s).
Proof.
  split; [| split].
  - intros poll_pk data. rewrite post_question_cases.
    destruct (db.get_poll_or_404 poll_pk s) as [e | poll]; [reflexivity |].
    destruct (QuestionSerializer.validate data) as [e | vd]; [reflexivity |].
    destruct (QuestionSerializer.create poll_pk vd s) as [[e | q] s'] eqn:Hrun;
      [reflexivity |].
    cbn [snd]. eapply create_leaves_published. exact Hrun.
  - intros poll_pk pk data. rewrite put_question_cases.
    destruct (db.get_poll_or_404 poll_pk s) as [e | poll]; [reflexivity |].
    destruct (QuestionAdminViewSet.get_object poll pk s) as [e | instance] eqn:Hobj;
      [reflexivity |].
    destruct (QuestionSerializer.validate data) as [e | vd]; [reflexivity |].
    destruct (QuestionSerializer.update instance vd s) as [[e | q] s'] eqn:Hrun;
      [reflexivity |].
    cbn [snd]. apply get_object_returns in Hobj. destruct Hobj as [Hinstance _].
    eapply update_leaves_published; eassumption.
  - intros poll_pk pk. rewrite delete_question_cases.
    destruct (db.get_poll_or_404 poll_pk s) as [e | poll] eqn:Hpoll; [reflexivity |].
    destruct (Poll.is_published poll) eqn:Hunpublished; [reflexivity |].
    destruct (QuestionAdminViewSet.get_object poll pk s) as [e | instance] eqn:Hobj;
      [reflexivity |].
    apply get_object_returns in Hobj. destruct Hobj as [Hinstance Hof].
    apply get_poll_of_404, get_poll_returns in Hpoll.
    pose proof (unpublished_is_other poll Hpoll Hunpublished) as Hother.
    destruct (db.delete_question instance s) as [[e | u] s'] eqn:Hrun.
    + destruct (delete_question_shape instance s) as [s1 [Hrun1 _]]. congruence.
    + cbn [snd]. eapply delete_leaves_published; [exact Hinstance | congruence | exact Hrun].
Qed.

End OtherPolls.

(** With poll 1 published and poll 2 not, a question is added to poll 2,
    question 3 of poll 2 is updated, and it is deleted: each operation is
    carried out, and poll 1 keeps its questions and choices. *)
Lemma published_poll_untouched_witness :
  let s := fixture.mixed in
  let data := fixture.new_question "Q5" Question.QuestionType.multi_choice
                (QuestionSerializer.given ["a"; "b"]) in
  (unique_question_ids s /\ unique_choice_ids s
   /\ Poll.is_published (fixture.poll 1 true) = true)
  /\ (exists q s', QuestionAdminViewSet.post (conv := decimal_pk) "2" data s = (inr q, s'))
  /\ (exists q s', QuestionAdminViewSet.put (conv := decimal_pk) "2" "3" data s = (inr q, s'))
  /\ (exists s', QuestionAdminViewSet.delete (conv := decimal_pk) "2" "3" s = (inr tt, s'))
  /\ questions_and_choices (fixture.poll 1 true)
       (snd (QuestionAdminViewSet.post (conv := decimal_pk) "2" data s))
     = questions_and_choices (fixture.poll 1 true) s
  /\ questions_and_choices (fixture.poll 1 true)
       (snd (QuestionAdminViewSet.put (conv := decimal_pk) "2" "3" data s))
     = questions_and_choices (fixture.poll 1 true) s
  /\ questions_and_choices (fixture.poll 1 true)
       (snd (QuestionAdminViewSet.delete (conv := decimal_pk) "2" "3" s))
     = questions_and_choices (fixture.poll 1 true) s.
Proof.
  cbv zeta.
  assert (Hchoices : unique_choice_ids fixture.mixed).
  { unfold unique_choice_ids. simpl. repeat constructor; simpl; intuition discriminate. }
  pose proof (published_poll_untouched (conv := decimal_pk) (fixture.poll 1 true)
                fixture.mixed (fixture_unique_question_ids false) Hchoices
                eq_refl eq_refl) as [Hpost [Hput Hdelete]].
  split.
  { split; [apply (fixture_unique_question_ids false) |].
    split; [exact Hchoices | reflexivity]. }
  split; [eexists _, _; reflexivity |].
  split; [eexists _, _; reflexivity |].
  split; [eexists; reflexivity |].
  split; [apply Hpost |]. split; [apply Hput | apply Hdelete].
Defined.

(** ** The shape of the rows a vote stores *)

Lemma run_validation_question (d : request.answer_data) (s : db.Store)
    (a : AnswerSerializer.attrs) :
  AnswerSerializer.run_validation d s = inr a ->
  find (fun q => Z.eqb (Question.id q) (request.question d)) (db.questions s)
  = Some (AnswerSerializer.question a).
Proof.
  unfold AnswerSerializer.run_validation, AnswerSerializer.to_internal_value.
  destruct (find _ (db.questions s)) as [q |]; [| discriminate].
  destruct (AnswerSerializer.text_field (request.text d)) as [e | text]; [discriminate |].
  destruct (request.choice d) as [cs |].
  - destruct (forallb _ cs); [| discriminate].
    intros Hval. pose proof (AnswerSerializer_validate_returns _ _ Hval) as ->.
    reflexivity.
  - intros Hval. pose proof (AnswerSerializer_validate_returns _ _ Hval) as ->.
    reflexivity.
Qed.

(** The row stored for an answer [validate] lets through has the shape of
    the type of its question. *)
Lemma validated_row_shaped (user anon : option Z) (a : AnswerSerializer.attrs)
    (row : Answer.t) :
  AnswerSerializer.validate a = inr a ->
  row_of user anon a row ->
  shaped_for (Question.type (AnswerSerializer.question a)) row.
Proof.
  intros Hval [rows ->]. unfold AnswerSerializer.validate in Hval.
  unfold shaped_for, vote_row.
  destruct (Question.type (AnswerSerializer.question a));
    cbn [Answer.choice Answer.text].
  - destruct (AnswerSerializer.choice a); [discriminate | reflexivity].
  - destruct (AnswerSerializer.choice a) as [cs |]; [| discriminate].
    cbn [len] in Hval.
    destruct (AnswerSerializer.text a) as [t |].
    + rewrite orb_true_r in Hval. discriminate.
    + split; [reflexivity |].
      destruct cs as [| c [| c' cs]]; [simpl; lia | simpl; lia |].
      simpl in Hval. discriminate.
  - destruct (AnswerSerializer.text a); [discriminate | reflexivity].
Qed.

(** X6: the rows an accepted vote stores have the shape of their
    questions, one row per submitted answer in order: the row for a text
    question has no link to a choice, the row for a single-choice question
    has no text and at most one link, the row for a multi-choice question
    has no text. *)
Theorem stored_answers_have_shape `{conv : PkConversion} (pk : string) (r : request.t)
    (s : db.Store) :
  match UserPolls.post pk r s with
  | (inr res, _) =>
      Forall2
        (fun d row =>
           exists q,
             find (fun q => Z.eqb (Question.id q) (request.question d)) (db.questions s)
             = Some q
             /\ shaped_for (Question.type q) row)
        (request.answers (request.data r)) (UserPollSerializer.result_answers res)
  | (inl _, _) => True
  end.
Proof.
  destruct (UserPolls.post pk r s) as [[e | res] s'] eqn:Hpost; [exact I |].
  apply post_returns in Hpost. destruct Hpost as [_ [vd [Hval Hcreate]]].
  apply UserPollSerializer_run_validation_returns in Hval. destruct Hval as [Hfields _].
  apply create_returns in Hcreate. destruct Hcreate as [_ [Hrows _]].
  revert Hrows. generalize (UserPollSerializer.result_answers res).
  induction Hfields as [| d a ds l Hda _ IH]; intros rows Hrows.
  - inversion Hrows. constructor.
  - inversion Hrows as [| a0 row l0 rows0 Hrow Hrest]; subst.
    constructor; [| apply IH; exact Hrest].
    exists (AnswerSerializer.question a). split.
    + apply run_validation_question. exact Hda.
    + apply AnswerSerializer_run_validation_returns in Hda.
      destruct Hda as [_ [_ [_ Hvalid]]].
      eapply validated_row_shaped; eassumption.
Qed.

(** ** The choice texts of a question *)


(** ** A question text the poll already has *)

Lemma insert_choices_raise (q : Question.t) (l : list string) (s s' : db.Store) (e : exn) :
  for_each (db.insert_choice q) l s = (inl e, s') -> e = IntegrityError.
Proof.
  revert s s'. induction l as [| t l IH]; intros s s'; cbn [for_each].
  - unfold ret. discriminate.
  - intros Hrun. apply bind_raises in Hrun.
    destruct Hrun as [Hc | [c [s1 [_ Hrest]]]].
    + unfold db.insert_choice, bind, gets in Hc.
      destruct (existsb _ (db.choiceanswers s)).
      * unfold raise in Hc. inversion Hc. reflexivity.
      * unfold modify, ret in Hc. discriminate.
    + apply bind_raises in Hrest. destruct Hrest as [Hloop | [cs [s2 [_ Hret]]]].
      * eapply IH. exact Hloop.
      * unfold ret in Hret. discriminate.
Qed.

Lemma save_choices_raise (q : Question.t) (choices : option (list string))
    (s s' : db.Store) (e : exn) :
  QuestionSerializer._save_choices q choices s = (inl e, s') -> e = IntegrityError.
Proof.
  unfold QuestionSerializer._save_choices.
  destruct choices as [[| t l] |]; try (unfold ret; discriminate).
  intros Hrun. apply bind_raises in Hrun.
  destruct Hrun as [Hbulk | [cs [s1 [_ Hret]]]]; [| unfold ret in Hret; discriminate].
  unfold db.bulk_create_choices, atomic in Hbulk.
  destruct (for_each (db.insert_choice q) (t :: l) s) as [[e0 | cs] s2] eqn:Hloop;
    [| discriminate].
  inversion Hbulk; subst. eapply insert_choices_raise. exact Hloop.
Qed.

Section TextTaken.

Context `{conv : PkConversion}.

(** X8: creating a question whose text another question of the poll has is
    refused with the validation error "This question exists in the poll",
    into which [create] turns the integrity error of the table, and the
    store stays as it was. *)
Theorem create_refuses_text_of_the_poll (poll_pk : string) (poll : Poll.t)
    (data : QuestionSerializer.attrs) (s : db.Store) (taken : Question.t) :
  db.get_poll poll_pk s = inr poll ->
  Poll.is_published poll = false ->
  QuestionSerializer.validate data = inr data ->
  In taken (db.questions s) ->
  Question.poll_id taken = Poll.id poll ->
  Question.text taken = QuestionSerializer.text data ->
  QuestionAdminViewSet.post poll_pk data s
  = (inl (ValidationError "This question exists in the poll"), s).
Proof.
  intros Hpoll Hpub Hval Hin Hpid Htext.
  rewrite post_question_cases, (get_poll_or_404_returns _ _ _ Hpoll), Hval.
  unfold QuestionSerializer.create. unfold bind at 1. unfold reads.
  rewrite Hpoll, Hpub. unfold bind at 1.
  unfold except, db.create_question. unfold bind at 1. unfold gets.
  match goal with |- context [existsb ?f (db.questions s)] =>
    assert (Htaken : existsb f (db.questions s) = true)
  end.
  { apply existsb_exists. exists taken. split; [exact Hin |].
    unfold Question.same_unique_key. cbn [Question.poll_id Question.text].
    rewrite Hpid, Htext, Z.eqb_refl, String.eqb_refl. reflexivity. }
  rewrite Htaken. reflexivity.
Qed.

(** An update of a question of an unpublished poll to the text of another
    question of the poll raises the integrity error of the table. *)
Lemma update_text_taken (instance : Question.t) (poll : Poll.t)
    (data : QuestionSerializer.attrs) (s s' : db.Store) (taken : Question.t)
    (out : exn + Question.t) :
  db.poll_of instance s = inr poll ->
  Poll.is_published poll = false ->
  In taken (db.questions s) ->
  Question.id taken <> Question.id instance ->
  Question.poll_id taken = Question.poll_id instance ->
  Question.text taken = QuestionSerializer.text data ->
  QuestionSerializer.update instance data s = (out, s') ->
  out = inl IntegrityError.
Proof.
  intros Hpoll Hpub Hin Hother Hpid Htext.
  unfold QuestionSerializer.update. unfold bind at 1. unfold reads.
  rewrite Hpoll, Hpub. unfold bind at 1. unfold gets.
  destruct (delete_choices_spec (db.question_choices instance s) s)
    as [us [s1 [Hdel [_ [Hquestions _]]]]].
  unfold bind at 1. rewrite Hdel. unfold bind at 1.
  destruct (QuestionSerializer._save_choices instance
              (QuestionSerializer.pop_choices data) s1) as [[e | u] s2] eqn:Hsave.
  - apply save_choices_raise in Hsave. subst. intros Heq. inversion Heq. reflexivity.
  - apply save_choices_returns in Hsave. destruct Hsave as [created [-> _]].
    unfold QuestionSerializer.ModelSerializer_update, db.save_question.
    unfold bind at 1. unfold gets.
    cbn [db.set_choiceanswers db.questions Question.id]. rewrite Hquestions.
    match goal with |- context [if existsb ?f (db.questions s) then raise _ else _] =>
      assert (Htaken : existsb f (db.questions s) = true)
    end.
    { apply existsb_exists. exists taken. split; [exact Hin |].
      unfold Question.same_unique_key. cbn [Question.poll_id Question.text].
      rewrite Hpid, Htext, Z.eqb_refl, String.eqb_refl.
      destruct (Z.eqb_spec (Question.id taken) (Question.id instance));
        [contradiction | reflexivity]. }
    rewrite Htaken. unfold raise. intros Heq. inversion Heq. reflexivity.
Qed.

(** X9: updating a question of an unpublished poll to the text of another
    question of the same poll is not reported as a validation error, as it
    is on creation: the integrity error of the table comes out of the
    handler as it is, and the store stays as it was. *)
Theorem update_lets_integrity_error_out (poll_pk pk : string) (poll : Poll.t)
    (instance taken : Question.t) (data : QuestionSerializer.attrs) (s : db.Store) :
  db.get_poll poll_pk s = inr poll ->
  Poll.is_published poll = false ->
  QuestionAdminViewSet.get_object poll pk s = inr instance ->
  QuestionSerializer.validate data = inr data ->
  In taken (db.questions s) ->
  Question.id taken <> Question.id instance ->
  Question.poll_id taken = Poll.id poll ->
  Question.text taken = QuestionSerializer.text data ->
  QuestionAdminViewSet.put poll_pk pk data s = (inl IntegrityError, s).
Proof.
  intros Hpoll Hpub Hobj Hval Hin Hother Hpid Htext.
  rewrite put_question_cases, (get_poll_or_404_returns _ _ _ Hpoll), Hobj, Hval.
  pose proof (get_object_returns _ _ _ _ Hobj) as [_ Hinstance].
  pose proof (poll_of_question _ _ _ (get_poll_returns _ _ _ Hpoll) Hinstance) as Hof.
  destruct (QuestionSerializer.update instance data s) as [out s'] eqn:Hupdate.
  assert (Hout : out = inl IntegrityError).
  { eapply (update_text_taken instance poll data s s' taken); eauto. congruence. }
  subst out. reflexivity.
Qed.

End TextTaken.

(** Question 2 of poll 1 exists; a new question of poll 1 with its text
    "Q2" is refused. *)
Lemma create_refuses_text_of_the_poll_witness :
  QuestionAdminViewSet.post (conv := decimal_pk) "1"
    (fixture.new_question "Q2" Question.QuestionType.text QuestionSerializer.absent)
    (fixture.store false)
  = (inl (ValidationError "This question exists in the poll"), fixture.store false).
Proof.
  apply (create_refuses_text_of_the_poll (conv := decimal_pk) "1" (fixture.poll 1 false) _ _
           (fixture.question 2 1 "Q2" Question.QuestionType.text)).
  - reflexivity.
  - reflexivity.
  - reflexivity.
  - simpl. auto.
  - reflexivity.
  - reflexivity.
Defined.

(** Question 1 of poll 1 is given the text "Q2" of question 2. *)
Lemma update_lets_integrity_error_out_witness :
  QuestionAdminViewSet.put (conv := decimal_pk) "1" "1"
    (fixture.new_question "Q2" Question.QuestionType.single_choice
       (QuestionSerializer.given ["yes"]))
    (fixture.store false)
  = (inl IntegrityError, fixture.store false).
Proof.
  apply (update_lets_integrity_error_out (conv := decimal_pk) "1" "1" (fixture.poll 1 false)
           (fixture.question 1 1 "Q1" Question.QuestionType.single_choice)
           (fixture.question 2 1 "Q2" Question.QuestionType.text)).
  - reflexivity.
  - reflexivity.
  - reflexivity.
  - reflexivity.
  - simpl. auto.
  - simpl. lia.
  - reflexivity.
  - reflexivity.
Defined.

(** ** The vote handler and the owner of a choice *)

Lemma for_each_pure_same {A B} (f g : A -> exn + B) (l : list A) :
  (forall x, In x l -> f x = g x) -> for_each_pure f l = for_each_pure g l.
Proof.
  induction l as [| x l IH]; intros Hsame; cbn [for_each_pure].
  - reflexivity.
  - rewrite (Hsame x (or_introl eq_refl)), IH; [reflexivity |].
    intros y Hy. apply Hsame. right. exact Hy.
Qed.

Lemma for_each_collect_same {A B} (f g : A -> exn + B) (l : list A) :
  (forall x, In x l -> f x = g x) -> for_each_collect f l = for_each_collect g l.
Proof.
  induction l as [| x l IH]; intros Hsame; cbn [for_each_collect].
  - reflexivity.
  - rewrite (Hsame x (or_introl eq_refl)), IH; [reflexivity |].
    intros y Hy. apply Hsame. right. exact Hy.
Qed.

Lemma choice_stored_same_keys (c : Z) (cs cs' : list ChoiceAnswer.t) :
  map ChoiceAnswer.id cs = map ChoiceAnswer.id cs' ->
  existsb (fun r => Z.eqb (ChoiceAnswer.id r) c) cs
  = existsb (fun r => Z.eqb (ChoiceAnswer.id r) c) cs'.
Proof.
  revert cs'. induction cs as [| r cs IH]; intros [| r' cs'] Hkeys;
    try discriminate; cbn [existsb].
  - reflexivity.
  - cbn [map] in Hkeys. inversion Hkeys as [[Hid Hrest]].
    rewrite Hid, (IH cs' Hrest). reflexivity.
Qed.

Lemma answer_fields_same_keys (d : request.answer_data) (s : db.Store)
    (cs : list ChoiceAnswer.t) :
  map ChoiceAnswer.id cs = map ChoiceAnswer.id (db.choiceanswers s) ->
  AnswerSerializer.run_validation d (db.set_choiceanswers s cs)
  = AnswerSerializer.run_validation d s.
Proof.
  intros Hkeys. unfold AnswerSerializer.run_validation, AnswerSerializer.to_internal_value.
  cbn [db.set_choiceanswers db.questions db.choiceanswers].
  destruct (find _ (db.questions s)) as [q |]; [| reflexivity].
  destruct (AnswerSerializer.text_field (request.text d)) as [e | text]; [reflexivity |].
  destruct (request.choice d) as [l |]; [| reflexivity].
  assert (Hall : forallb (fun c => existsb (fun r => Z.eqb (ChoiceAnswer.id r) c) cs) l
                 = forallb (fun c => existsb (fun r => Z.eqb (ChoiceAnswer.id r) c)
                                       (db.choiceanswers s)) l).
  { clear - Hkeys. induction l as [| c l IH]; cbn [forallb]; [reflexivity |].
    rewrite (choice_stored_same_keys c _ _ Hkeys), IH. reflexivity. }
  rewrite Hall. reflexivity.
Qed.

Lemma create_loop_with_choices (r : request.t) (vd : UserPollSerializer.attrs)
    (l : list AnswerSerializer.attrs) (cs : list ChoiceAnswer.t) :
  forall s,
    for_each (UserPollSerializer.create_answer r vd) l (db.set_choiceanswers s cs)
    = let (out, s') := for_each (UserPollSerializer.create_answer r vd) l s in
      (out, db.set_choiceanswers s' cs).
Proof.
  induction l as [| a l IH]; intros s; cbn [for_each].
  - reflexivity.
  - unfold bind at 1 3. rewrite !create_answer_spec. cbv zeta.
    cbn [db.set_choiceanswers db.answers].
    destruct (request.is_authenticated r && _); [reflexivity |].
    destruct (already_voted _ _ _ (db.answers s)); [reflexivity |].
    unfold bind.
    match goal with |- context [for_each _ l (db.set_answers ?s0 ?rows)] =>
      change (db.set_answers s0 rows)
        with (db.set_choiceanswers (db.set_answers s rows) cs)
    end.
    rewrite IH.
    match goal with |- context [for_each _ l ?s1] =>
      destruct (for_each (UserPollSerializer.create_answer r vd) l s1)
        as [[e | rows] s2]
    end; reflexivity.
Qed.

(** X10: the vote handler reads of the table of choices the keys only: for
    two stores whose choices have the same keys but belong to other
    questions or have other texts, a vote has the same outcome and stores
    the same rows.  The handler never compares the question of a selected
    choice with the question answered, so an answer can select the choices
    of any question. *)
Theorem vote_ignores_owner_of_choices `{conv : PkConversion} (pk : string) (r : request.t)
    (s : db.Store) (cs : list ChoiceAnswer.t) :
  map ChoiceAnswer.id cs = map ChoiceAnswer.id (db.choiceanswers s) ->
  UserPolls.post pk r (db.set_choiceanswers s cs)
  = let (out, s') := UserPolls.post pk r s in (out, db.set_choiceanswers s' cs).
Proof.
  intros Hkeys. rewrite !post_cases.
  destruct (UserPollsPermission.has_permission r action.vote_in_poll); [| reflexivity].
  assert (Hval : UserPollSerializer.run_validation pk (request.data r)
                   (db.set_choiceanswers s cs)
                 = UserPollSerializer.run_validation pk (request.data r) s).
  { unfold UserPollSerializer.run_validation, UserPollSerializer.to_internal_value.
    rewrite (for_each_collect_same
               (fun a => AnswerSerializer.run_validation a (db.set_choiceanswers s cs))
               (fun a => AnswerSerializer.run_validation a s)).
    - destruct (for_each_collect _ (request.answers (request.data r))); reflexivity.
    - intros d _. apply answer_fields_same_keys. exact Hkeys. }
  rewrite Hval.
  destruct (UserPollSerializer.run_validation pk (request.data r) s) as [e | vd];
    [reflexivity |].
  unfold UserPollSerializer.create, bind. rewrite create_loop_with_choices.
  destruct (for_each (UserPollSerializer.create_answer r vd)
              (UserPollSerializer.answers vd) s) as [[e | rows] s1]; reflexivity.
Qed.

(** The choices 1 and 2 are moved to question 3 of poll 2: the vote of
    voter 42 in poll 1, which selects choice 1 for question 1, is stored as
    before. *)
Lemma vote_ignores_owner_of_choices_witness :
  let cs := [fixture.choice 1 3 "yes"; fixture.choice 2 3 "no"] in
  UserPolls.post (conv := decimal_pk) "1" fixture.vote42
    (db.set_choiceanswers (fixture.store true) cs)
  = (let (out, s') := UserPolls.post (conv := decimal_pk) "1" fixture.vote42
                        (fixture.store true) in
     (out, db.set_choiceanswers s' cs)).
Proof.
  exact (vote_ignores_owner_of_choices (conv := decimal_pk) "1" fixture.vote42
           (fixture.store true)
           [fixture.choice 1 3 "yes"; fixture.choice 2 3 "no"] eq_refl).
Defined.

(** ** Who a voter is *)

(** The row stored for a validated answer of a vote is in the table
    afterwards, under the user of the request and the token of the body. *)
Lemma accepted_answer_is_stored `{conv : PkConversion} (pk : string) (r : request.t)
    (s s' : db.Store) (res : UserPollSerializer.result) (d : request.answer_data) :
  UserPolls.post pk r s = (inr res, s') ->
  In d (request.answers (request.data r)) ->
  already_voted (request.user r) (request.anonymous_id (request.data r))
    (request.question d) (db.answers s') = true.
Proof.
  intros Hpost Hd. apply post_returns in Hpost.
  destruct Hpost as [_ [vd [Hval Hcreate]]].
  apply UserPollSerializer_run_validation_returns in Hval.
  destruct Hval as [Hfields [Hanon _]].
  apply create_returns in Hcreate. destruct Hcreate as [-> [Hrows _]].
  destruct (Forall2_In_left _ _ _ _ Hfields Hd) as [a [Ha Hda]].
  destruct (Forall2_In_left _ _ _ _ Hrows Ha) as [row [Hrow [rows0 Hshape]]].
  apply AnswerSerializer_run_validation_returns in Hda. destruct Hda as [Hq _].
  unfold already_voted. apply existsb_exists. exists row. split.
  - cbn [db.set_answers db.answers]. apply in_or_app. right. exact Hrow.
  - subst row. unfold vote_row.
    cbn [Answer.user_id Answer.anonymous_id Answer.question_id].
    rewrite Hanon, Hq, Z.eqb_refl.
    rewrite (proj2 (option_eqb_Z_eq _ _) eq_refl).
    rewrite (proj2 (option_eqb_Z_eq _ _) eq_refl). reflexivity.
Qed.

(** X11: a voter is the pair of the authenticated user and the token of
    the body; a token of the query string counts for the permission check
    and is not stored.  After an accepted vote, a vote of a request with
    the same user and the same token in the body, whatever its query
    string, that passes the permission check and validation and answers
    one of the questions answered before, is refused as a second vote and
    leaves the store as it was.  So two callers who are not authenticated
    and send their tokens in the query string only are one voter. *)
Theorem voter_is_user_and_body_token `{conv : PkConversion} (pk pk' : string)
    (r r' : request.t) (s s' : db.Store) (res : UserPollSerializer.result)
    (vd' : UserPollSerializer.attrs) (d d' : request.answer_data) :
  UserPolls.post pk r s = (inr res, s') ->
  request.user r' = request.user r ->
  request.anonymous_id (request.data r') = request.anonymous_id (request.data r) ->
  UserPollsPermission.has_permission r' action.vote_in_poll = true ->
  UserPollSerializer.run_validation pk' (request.data r') s' = inr vd' ->
  In d (request.answers (request.data r)) ->
  In d' (request.answers (request.data r')) ->
  request.question d' = request.question d ->
  UserPolls.post pk' r' s' = (inl (ValidationError "Value not unique"), s').
Proof.
  intros Hpost Huser Hanon Hperm Hval Hd Hd' Hq.
  pose proof (accepted_answer_is_stored pk r s s' res d Hpost Hd) as Hvoted.
  rewrite post_cases, Hperm, Hval.
  pose proof (UserPollSerializer_run_validation_returns _ _ _ _ Hval)
    as [Hfields [Hanon' _]].
  destruct (UserPollSerializer.create r' vd' s') as [[e | res'] s2] eqn:Hcreate.
  - apply create_raises in Hcreate; [subst; reflexivity |].
    rewrite Hanon'. apply has_permission_one_identity. exact Hperm.
  - exfalso. apply create_returns in Hcreate. destruct Hcreate as [_ [_ Hfresh]].
    destruct (Forall2_In_left _ _ _ _ Hfields Hd') as [a [Ha Hda]].
    rewrite Forall_forall in Hfresh. specialize (Hfresh a Ha).
    apply AnswerSerializer_run_validation_returns in Hda. destruct Hda as [Hqa _].
    rewrite Hqa, Hanon', Huser, Hanon, Hq in Hfresh. congruence.
Qed.

(** Two callers who are not authenticated vote in poll 1 with the tokens 7
    and 8 in the query string and null in the body: the first vote is
    stored, the second is refused as a second vote. *)
Lemma voter_is_user_and_body_token_witness :
  let answers := [fixture.answer 1 None (Some [1]); fixture.answer 2 (Some "hello") None] in
  let first := {| request.user := None; request.query_params_anonymous_id := Some "7";
                  request.data := {| request.answers := answers;
                                     request.anonymous_id := None |} |} in
  let second := {| request.user := None; request.query_params_anonymous_id := Some "8";
                   request.data := {| request.answers := answers;
                                      request.anonymous_id := None |} |} in
  let rows := [ {| Answer.id := Some 1; Answer.question_id := 1; Answer.text := None;
                   Answer.choice := [1]; Answer.user_id := None;
                   Answer.anonymous_id := None |};
                {| Answer.id := Some 2; Answer.question_id := 2;
                   Answer.text := Some "hello"; Answer.choice := [];
                   Answer.user_id := None; Answer.anonymous_id := None |} ] in
  let s' := db.set_answers (fixture.store true) rows in
  UserPolls.post (conv := decimal_pk) "1" first (fixture.store true)
  = (inr {| UserPollSerializer.result_answers := rows;
            UserPollSerializer.result_anonymous_id := None |}, s')
  /\ UserPolls.post (conv := decimal_pk) "1" second s'
     = (inl (ValidationError "Value not unique"), s').
Proof.
  intros answers first second rows s'. split; [reflexivity |].
  eapply (voter_is_user_and_body_token (conv := decimal_pk) "1" "1" first second
            (fixture.store true) s' _ _
            (fixture.answer 1 None (Some [1])) (fixture.answer 1 None (Some [1]))).
  - reflexivity.
  - reflexivity.
  - reflexivity.
  - reflexivity.
  - reflexivity.
  - simpl. auto.
  - simpl. auto.
  - reflexivity.
Defined.

(** ** The history of a voter *)

Lemma create_keeps_unique_votes (r : request.t) (vd : UserPollSerializer.attrs)
    (s s' : db.Store) (res : UserPollSerializer.result) :
  unique_votes s ->
  UserPollSerializer.create r vd s = (inr res, s') ->
  unique_votes s'.
Proof.
  intros Huniq Hcreate. unfold UserPollSerializer.create, bind in Hcreate.
  destruct (for_each (UserPollSerializer.create_answer r vd)
              (UserPollSerializer.answers vd) s) as [[e | rows] s1] eqn:Hloop;
    [discriminate |].
  unfold ret in Hcreate. inversion Hcreate; subst.
  eapply create_loop_keeps_unique_votes; eassumption.
Qed.

Lemma the_one_vote (user anon : option Z) (q : Z) (s : db.Store) (row : Answer.t) :
  unique_votes s ->
  In row (db.answers s) ->
  Answer.user_id row = user ->
  Answer.anonymous_id row = anon ->
  Answer.question_id row = q ->
  votes_of user anon q s = [row].
Proof.
  intros Huniq Hin Huser Hanon Hq.
  assert (Hrow : In row (votes_of user anon q s)).
  { unfold votes_of. apply filter_In. split; [exact Hin |].
    rewrite Huser, Hanon, Hq, Z.eqb_refl.
    rewrite (proj2 (option_eqb_Z_eq _ _) eq_refl).
    rewrite (proj2 (option_eqb_Z_eq _ _) eq_refl). reflexivity. }
  specialize (Huniq user anon q).
  destruct (votes_of user anon q s) as [| x [| y l]]; simpl in *.
  - contradiction.
  - destruct Hrow as [-> | []]. reflexivity.
  - lia.
Qed.

Section History.

Context `{conv : PkConversion}.

Lemma stored_rows_in_history (r h : request.t) (s' : db.Store)
    (ds : list request.answer_data) (rows : list Answer.t) :
  unique_votes s' ->
  request.user h = request.user r ->
  UserQuestionHistorySerializer.anonymous_id_lookup h
  = inr (request.anonymous_id (request.data r)) ->
  Forall2 (stored_as r) ds rows ->
  (forall row, In row rows -> In row (db.answers s')) ->
  Forall2
    (fun d row =>
       forall q, Question.id q = request.question d ->
                 UserQuestionHistorySerializer.get_answers h q s'
                 = inr [UserAnswerHistorySerializer.to_representation row s'])
    ds rows.
Proof.
  intros Huniq Huser Hlookup Hstored.
  induction Hstored as [| d row ds rows Hrow _ IH]; intros Hin.
  - constructor.
  - constructor; [| apply IH; intros row' Hrow'; apply Hin; right; exact Hrow'].
    intros q Hq. unfold UserQuestionHistorySerializer.get_answers.
    rewrite Hlookup, Huser.
    change (UserQuestionHistorySerializer.filter_answers (request.user r)
              (request.anonymous_id (request.data r)) q s')
      with (votes_of (request.user r) (request.anonymous_id (request.data r))
              (Question.id q) s').
    destruct Hrow as [_ [Hquestion [_ [Hu [Ha _]]]]].
    rewrite (the_one_vote _ _ _ s' row Huniq (Hin row (or_introl eq_refl)) Hu Ha);
      [reflexivity | congruence].
Qed.

(** X12: what a vote stores is what the history gives back.  In a store
    where no voter has two rows for a question, after an accepted vote the
    answers [get_answers] finds for a question of the vote, for a request
    of the same user whose query string carries the token of the body of
    the vote (or no token, for a vote without one), are exactly the one
    row stored for the submitted answer, with its choices written out. *)
Theorem history_returns_the_vote (pk : string) (r h : request.t) (s s' : db.Store)
    (res : UserPollSerializer.result) :
  unique_votes s ->
  UserPolls.post pk r s = (inr res, s') ->
  request.user h = request.user r ->
  UserQuestionHistorySerializer.anonymous_id_lookup h
  = inr (request.anonymous_id (request.data r)) ->
  Forall2
    (fun d row =>
       forall q, Question.id q = request.question d ->
                 UserQuestionHistorySerializer.get_answers h q s'
                 = inr [UserAnswerHistorySerializer.to_representation row s'])
    (request.answers (request.data r)) (UserPollSerializer.result_answers res).
Proof.
  intros Huniq Hpost Huser Hlookup.
  apply post_returns in Hpost. destruct Hpost as [_ [vd [Hval Hcreate]]].
  pose proof (create_keeps_unique_votes _ _ _ _ _ Huniq Hcreate) as Huniq'.
  apply UserPollSerializer_run_validation_returns in Hval.
  destruct Hval as [Hfields [Hanon _]].
  apply create_returns in Hcreate. destruct Hcreate as [Hs' [Hrows _]].
  apply (stored_rows_in_history r); auto.
  - eapply rows_stored_as; eassumption.
  - intros row Hrow. rewrite Hs'. cbn [db.set_answers db.answers].
    apply in_or_app. right. exact Hrow.
Qed.

Lemma history_same_answers (h : request.t) (s s' : db.Store) :
  db.polls s' = db.polls s ->
  db.questions s' = db.questions s ->
  db.choiceanswers s' = db.choiceanswers s ->
  (forall token q,
     UserQuestionHistorySerializer.anonymous_id_lookup h = inr token ->
     UserQuestionHistorySerializer.filter_answers (request.user h) token q s'
     = UserQuestionHistorySerializer.filter_answers (request.user h) token q s) ->
  forall now,
    fst (UserPolls.show_answers now h s') = fst (UserPolls.show_answers now h s).
Proof.
  intros Hpolls Hquestions Hchoices Hanswers now.
  unfold UserPolls.show_answers, UserPolls.check_permissions, bind.
  destruct (UserPollsPermission.has_permission h action.show_answers); [| reflexivity].
  unfold ret, reads. cbn [fst].
  unfold UserPolls.get_queryset, UserPolls.queryset. rewrite Hpolls.
  apply for_each_pure_same. intros p _.
  unfold UserPollShowSerializer.to_representation, db.poll_questions.
  rewrite Hquestions.
  rewrite (for_each_pure_same
             (fun q => UserQuestionHistorySerializer.to_representation h q s')
             (fun q => UserQuestionHistorySerializer.to_representation h q s));
    [reflexivity |].
  intros q _.
  unfold UserQuestionHistorySerializer.to_representation,
    UserQuestionHistorySerializer.get_answers.
  destruct (UserQuestionHistorySerializer.anonymous_id_lookup h) as [e | token] eqn:Hlookup;
    [reflexivity |].
  rewrite (Hanswers token q eq_refl).
  unfold UserAnswerHistorySerializer.to_representation,
    UserAnswerHistorySerializer.linked_choices.
  rewrite Hchoices. reflexivity.
Qed.

(** X13: the history of a voter does not change when somebody else votes.
    For a history request whose voter, the pair of its user and the token
    of its query string, is not the voter of a vote, [show_answers] gives
    the same result (the same list, or the same error) after the vote as
    before it, whether the vote is accepted or not. *)
Theorem history_unchanged_by_other_voters (pk : string) (r h : request.t) (now : Z)
    (s : db.Store) :
  (forall token,
     UserQuestionHistorySerializer.anonymous_id_lookup h = inr token ->
     request.user h <> request.user r
     \/ token <> request.anonymous_id (request.data r)) ->
  fst (UserPolls.show_answers now h (snd (UserPolls.post pk r s)))
  = fst (UserPolls.show_answers now h s).
Proof.
  intros Hother.
  destruct (UserPolls.post pk r s) as [[e | res] s'] eqn:Hpost; cbn [snd].
  - apply post_raises_unchanged in Hpost. subst. reflexivity.
  - apply post_returns in Hpost. destruct Hpost as [_ [vd [Hval Hcreate]]].
    apply UserPollSerializer_run_validation_returns in Hval.
    destruct Hval as [Hfields [Hanon _]].
    apply create_returns in Hcreate. destruct Hcreate as [-> [Hrows _]].
    pose proof (rows_stored_as r vd s _ _ _ Hanon Hfields Hrows) as Hstored.
    apply history_same_answers; try reflexivity.
    intros token q Hlookup.
    unfold UserQuestionHistorySerializer.filter_answers.
    cbn [db.set_answers db.answers]. rewrite filter_app.
    rewrite (filter_none _ (UserPollSerializer.result_answers res)).
    + apply app_nil_r.
    + intros row Hrow.
      assert (Hkey : Answer.user_id row = request.user r
                     /\ Answer.anonymous_id row = request.anonymous_id (request.data r)).
      { clear - Hstored Hrow.
        induction Hstored as [| d row0 ds rows Hd _ IH]; [destruct Hrow |].
        destruct Hrow as [-> | Hrow]; [| exact (IH Hrow)].
        destruct Hd as [_ [_ [_ [Hu [Ha _]]]]]. auto. }
      destruct Hkey as [Hu Ha]. rewrite Hu, Ha.
      destruct (option_eqb Z.eqb (request.user r) (request.user h)) eqn:Huser;
        [| reflexivity].
      destruct (option_eqb Z.eqb (request.anonymous_id (request.data r)) token) eqn:Htoken;
        [| reflexivity].
      apply option_eqb_Z_eq in Huser. apply option_eqb_Z_eq in Htoken.
      destruct (Hother token Hlookup) as [Hne | Hne]; exfalso; apply Hne; congruence.
Qed.

End History.

(** Voter 42 has voted in poll 1; the history asked for with
    [?anonymous_id=42] holds, for question 1, the answer with choice 1
    written out as "yes", and for question 2 the text answer. *)
Lemma history_returns_the_vote_witness :
  let h := {| request.user := None; request.query_params_anonymous_id := Some "42";
              request.data := {| request.answers := []; request.anonymous_id := None |} |} in
  let s' := fixture.voted true in
  unique_votes (fixture.store true)
  /\ UserQuestionHistorySerializer.get_answers (conv := decimal_pk) h
       (fixture.question 1 1 "Q1" Question.QuestionType.single_choice) s'
     = inr [ {| UserAnswerHistorySerializer.id := Some 1;
                UserAnswerHistorySerializer.text := None;
                UserAnswerHistorySerializer.choice :=
                  [ {| ChoiceSerializer.id := 1; ChoiceSerializer.text := "yes" |} ];
                UserAnswerHistorySerializer.user := None;
                UserAnswerHistorySerializer.anonymous_id := Some 42 |} ]
  /\ UserQuestionHistorySerializer.get_answers (conv := decimal_pk) h
       (fixture.question 2 1 "Q2" Question.QuestionType.text) s'
     = inr [ {| UserAnswerHistorySerializer.id := Some 2;
                UserAnswerHistorySerializer.text := Some "hello";
                UserAnswerHistorySerializer.choice := [];
                UserAnswerHistorySerializer.user := None;
                UserAnswerHistorySerializer.anonymous_id := Some 42 |} ].
Proof.
  intros h s'.
  assert (Huniq : unique_votes (fixture.store true)).
  { intros user anon q. simpl. lia. }
  pose proof (history_returns_the_vote (conv := decimal_pk) "1" fixture.vote42 h
                (fixture.store true) s' _ Huniq eq_refl eq_refl eq_refl) as Hhistory.
  cbn [fixture.vote42 fixture.vote request.data request.answers
       UserPollSerializer.result_answers] in Hhistory.
  inversion Hhistory as [| d1 row1 ds1 rows1 H1 Hrest1]; subst.
  inversion Hrest1 as [| d2 row2 ds2 rows2 H2 _]; subst.
  split; [exact Huniq |]. split.
  - exact (H1 (fixture.question 1 1 "Q1" Question.QuestionType.single_choice) eq_refl).
  - exact (H2 (fixture.question 2 1 "Q2" Question.QuestionType.text) eq_refl).
Defined.

(** Voter 42 has voted; voter 43 votes: the history of voter 42, asked for
    at the time 15, is the same before and after. *)
Lemma history_unchanged_by_other_voters_witness :
  let h := {| request.user := None; request.query_params_anonymous_id := Some "42";
              request.data := {| request.answers := []; request.anonymous_id := None |} |} in
  let r := fixture.vote [fixture.answer 1 None (Some [2]); fixture.answer 2 (Some "bye") None]
             (Some 43) in
  (exists res s', UserPolls.post (conv := decimal_pk) "1" r (fixture.voted true)
                  = (inr res, s'))
  /\ fst (UserPolls.show_answers (conv := decimal_pk) 15 h
            (snd (UserPolls.post (conv := decimal_pk) "1" r (fixture.voted true))))
     = fst (UserPolls.show_answers (conv := decimal_pk) 15 h (fixture.voted true)).
Proof.
  intros h r. split; [eexists _, _; reflexivity |].
  apply (history_unchanged_by_other_voters (conv := decimal_pk) "1" r h 15
           (fixture.voted true)).
  intros token Hlookup. right.
  vm_compute in Hlookup. inversion Hlookup. discriminate.
Defined.

(** ** The routes *)

Lemma resolve_app (l1 l2 : list urls.pattern) (p : string) :
  urls.resolve (l1 ++ l2)%list p
  = match urls.resolve l1 p with
    | Some m => Some m
    | None => urls.resolve l2 p
    end.
Proof.
  induction l1 as [| pat l1 IH]; cbn [urls.resolve app].
  - reflexivity.
  - destruct (pat p); [reflexivity | exact IH].
Qed.

Lemma resolve_routed (l : list (string -> option (string * list (string * string))))
    (p : string) (m : urls.ResolverMatch) :
  urls.resolve (map urls.routed l) p = Some m ->
  exists name, urls.func m = urls.of_router name.
Proof.
  induction l as [| pat l IH]; cbn [urls.resolve map].
  - discriminate.
  - unfold urls.routed at 1. destruct (pat p) as [m0 |]; cbn [option_map].
    + intros Heq. inversion Heq. eexists. reflexivity.
    + exact IH.
Qed.

Lemma resolve_let_through (l : list (string -> option (string * list (string * string))))
    (p : string) :
  (forall pat, In pat l -> pat p = None) ->
  urls.resolve (map urls.routed l) p = None.
Proof.
  induction l as [| pat l IH]; cbn [urls.resolve map]; intros Hnone.
  - reflexivity.
  - unfold urls.routed at 1. rewrite (Hnone pat (or_introl eq_refl)). cbn [option_map].
    apply IH. intros pat' Hin. apply Hnone. right. exact Hin.
Qed.

(** X14: no request runs [show_answers].  The route 'user/<pk>' of the vote
    stands before the route 'user/show_answers' in [urlpatterns] and
    matches its path, with "show_answers" as the key of a poll, and the
    view it leads to binds [post] only.  So whatever the patterns of the
    two routers are, no method and path are dispatched to [show_answers],
    and when the routers let the path through, a GET of
    'user/show_answers' ends as a method that is not allowed. *)
Theorem show_answers_route_is_shadowed
    (polls_urls admin_questions_urls
       : list (string -> option (string * list (string * string)))) :
  (forall method p,
     urls.dispatch (urls.urlpatterns polls_urls admin_questions_urls) method p
     <> urls.runs action.show_answers)
  /\ ((forall pat, In pat (polls_urls ++ admin_questions_urls)%list ->
                   pat "user/show_answers" = None) ->
      urls.dispatch (urls.urlpatterns polls_urls admin_questions_urls)
        "get" "user/show_answers"
      = urls.http_method_not_allowed).
Proof.
  split.
  - intros method p. unfold urls.dispatch, urls.urlpatterns.
    rewrite !resolve_app.
    destruct (urls.resolve (map urls.routed polls_urls) p) as [m |] eqn:Hpolls.
    { apply resolve_routed in Hpolls. destruct Hpolls as [name ->]. discriminate. }
    destruct (urls.resolve (map urls.routed admin_questions_urls) p) as [m |] eqn:Hadmin.
    { apply resolve_routed in Hadmin. destruct Hadmin as [name ->]. discriminate. }
    cbn [urls.resolve]. unfold urls.path at 1.
    destruct (urls.match_route _ p) as [kw |] eqn:Hvote; cbn [option_map urls.func].
    { cbn [find fst snd]. destruct (String.eqb "post" method); discriminate. }
    unfold urls.path.
    destruct (urls.match_route {| urls.literal := "user/show_answers";
                                  urls.parameter := None |} p) as [kw |] eqn:Hshow;
      cbn [option_map]; [| discriminate].
    exfalso. unfold urls.match_route in Hshow. cbn [urls.parameter urls.literal] in Hshow.
    destruct (String.eqb_spec p "user/show_answers") as [-> |]; [| discriminate].
    vm_compute in Hvote. discriminate.
  - intros Hthrough. unfold urls.dispatch, urls.urlpatterns.
    rewrite !resolve_app.
    rewrite resolve_let_through
      by (intros pat Hin; apply Hthrough; apply in_or_app; left; exact Hin).
    rewrite resolve_let_through
      by (intros pat Hin; apply Hthrough; apply in_or_app; right; exact Hin).
    reflexivity.
Qed.

(** With a router that matches 'user/' and 'user/<pk>/' only: the GET of
    'user/show_answers' is not allowed, and the POST of the same path runs
    the vote. *)
Lemma show_answers_route_is_shadowed_witness :
  let polls_urls :=
    [ (fun p => if String.eqb p "user/" then Some ("poll_user-list", []) else None);
      (fun p => if String.prefix "user/" p && String.eqb (substring (String.length p - 1) 1 p) "/"
                then Some ("poll_user-detail", [("pk", substring 5 (String.length p - 6) p)])
                else None) ] in
  urls.dispatch (urls.urlpatterns polls_urls []) "get" "user/show_answers"
  = urls.http_method_not_allowed
  /\ urls.dispatch (urls.urlpatterns polls_urls []) "post" "user/show_answers"
     = urls.runs action.vote_in_poll.
Proof.
  intros polls_urls. split; [| reflexivity].
  apply (proj2 (show_answers_route_is_shadowed polls_urls [])).
  intros pat Hin. rewrite app_nil_r in Hin.
  destruct Hin as [<- | [<- | []]]; reflexivity.
Defined.

(** ** The foreign keys *)

Lemma without_no_links (a : Answer.t) : without_links [] a = a.
Proof.
  unfold without_links. cbn [map existsb negb].
  rewrite filter_all by (apply Forall_forall; auto).
  destruct a; reflexivity.
Qed.

Lemma without_links_cons (o : ChoiceAnswer.t) (old : list ChoiceAnswer.t) (a : Answer.t) :
  without_links old
    (Answer.with_choice a
       (filter (fun k => negb (Z.eqb k (ChoiceAnswer.id o))) (Answer.choice a)))
  = without_links (o :: old) a.
Proof.
  unfold without_links, Answer.with_choice.
  cbn [Answer.id Answer.question_id Answer.text Answer.choice Answer.user_id
       Answer.anonymous_id map existsb].
  f_equal. induction (Answer.choice a) as [| k l IH]; cbn [filter].
  - reflexivity.
  - destruct (Z.eqb k (ChoiceAnswer.id o)); cbn [negb orb filter].
    + exact IH.
    + destruct (negb _); [f_equal |]; exact IH.
Qed.

(** The loop that deletes choices takes their links out of the answers. *)
Lemma delete_choices_answers (old : list ChoiceAnswer.t) :
  forall s,
    db.answers (snd (for_each db.delete_choice old s))
    = map (without_links old) (db.answers s).
Proof.
  induction old as [| o old IH]; intros s; cbn [for_each].
  - unfold ret. cbn [snd]. rewrite <- (map_id (db.answers s)) at 1.
    apply map_ext. intros a. symmetry. apply without_no_links.
  - unfold bind at 1. unfold db.delete_choice at 1. unfold modify. cbv beta iota.
    unfold bind.
    match goal with |- context [for_each db.delete_choice old ?s0] =>
      specialize (IH s0); destruct (for_each db.delete_choice old s0) as [[e | us] s1]
    end; unfold ret; cbn [snd db.answers] in *; rewrite IH, map_map;
      apply map_ext; intros a; apply without_links_cons.
Qed.

Lemma delete_question_answers (q : Question.t) (s : db.Store) :
  db.answers (snd (db.delete_question q s))
  = filter (fun a => negb (Z.eqb (Answer.question_id a) (Question.id q)))
      (map (without_links (db.question_choices q s)) (db.answers s)).
Proof.
  unfold db.delete_question. unfold bind at 1. unfold gets.
  pose proof (delete_choices_answers (db.question_choices q s) s) as Hanswers.
  destruct (delete_choices_spec (db.question_choices q s) s) as [us [s1 [Hdel _]]].
  rewrite Hdel in Hanswers. cbn [snd] in Hanswers.
  unfold bind. rewrite Hdel. unfold modify. cbn [snd db.answers].
  rewrite Hanswers. reflexivity.
Qed.

(** A choice that is not one of the deleted ones stays under its key. *)
Lemma choice_key_stays (old cs : list ChoiceAnswer.t) (k : Z) :
  In k (map ChoiceAnswer.id cs) ->
  ~ In k (map ChoiceAnswer.id old) ->
  In k (map ChoiceAnswer.id
          (filter (fun r => negb (existsb (Z.eqb (ChoiceAnswer.id r))
                                    (map ChoiceAnswer.id old))) cs)).
Proof.
  intros Hin Hnot. apply in_map_iff in Hin. destruct Hin as [c [Hid Hc]].
  apply in_map_iff. exists c. split; [exact Hid |].
  apply filter_In. split; [exact Hc |].
  destruct (existsb _ (map ChoiceAnswer.id old)) eqn:Hex; [| reflexivity].
  apply existsb_Zeqb_In in Hex. rewrite Hid in Hex. contradiction.
Qed.

Lemma link_stays (old : list ChoiceAnswer.t) (a : Answer.t) (k : Z) :
  In k (Answer.choice (without_links old a)) ->
  In k (Answer.choice a) /\ ~ In k (map ChoiceAnswer.id old).
Proof.
  unfold without_links. cbn [Answer.with_choice Answer.choice]. intros Hk.
  apply filter_In in Hk. destruct Hk as [Hin Hnot]. split; [exact Hin |].
  intros Hold. apply existsb_Zeqb_In in Hold. rewrite Hold in Hnot. discriminate.
Qed.

(** [question.delete()] keeps the foreign keys. *)
Lemma delete_question_keeps_references (q : Question.t) :
  keeps referential_integrity (db.delete_question q).
Proof.
  intros s out s' [Hquestions [Hchoices Hanswers]] Hrun.
  pose proof (delete_question_answers q s) as Ha.
  destruct (delete_question_shape q s) as [s0 [Hrun0 [Hp [Hq Hc]]]].
  rewrite Hrun in Hrun0. inversion Hrun0; subst s0. clear Hrun0.
  rewrite Hrun in Ha. cbn [snd] in Ha.
  assert (Hkept : forall k, In k (map Question.id (db.questions s)) ->
                            k <> Question.id q ->
                            In k (map Question.id (db.questions s'))).
  { intros k Hk Hne. apply in_map_iff in Hk. destruct Hk as [q0 [Hid Hq0]].
    apply in_map_iff. exists q0. split; [exact Hid |].
    rewrite Hq. apply filter_In. split; [exact Hq0 |].
    destruct (Z.eqb_spec (Question.id q0) (Question.id q)); [congruence | reflexivity]. }
  split; [| split].
  - intros q0 Hq0. rewrite Hq in Hq0. apply filter_In in Hq0.
    rewrite Hp. apply Hquestions. tauto.
  - intros c Hc0. rewrite Hc in Hc0. apply filter_In in Hc0. destruct Hc0 as [Hin Hnot].
    apply Hkept; [apply Hchoices; exact Hin |].
    intros Hsame. apply negb_true_iff in Hnot.
    assert (Hex : existsb (Z.eqb (ChoiceAnswer.id c))
                    (map ChoiceAnswer.id (db.question_choices q s)) = true).
    { apply existsb_Zeqb_In. apply in_map. unfold db.question_choices.
      apply filter_In. split; [exact Hin | apply Z.eqb_eq; exact Hsame]. }
    congruence.
  - intros a Hin. rewrite Ha in Hin. apply filter_In in Hin. destruct Hin as [Hin Hne].
    apply in_map_iff in Hin. destruct Hin as [a0 [<- Ha0]].
    destruct (Hanswers a0 Ha0) as [Hquestion Hlinks]. split.
    + apply Hkept; [exact Hquestion |].
      unfold without_links in Hne. cbn [Answer.with_choice Answer.question_id] in Hne.
      destruct (Z.eqb_spec (Answer.question_id a0) (Question.id q)); [discriminate | auto].
    + intros k Hk. apply link_stays in Hk. destruct Hk as [Hk Hnot].
      rewrite Hc. apply choice_key_stays; [apply Hlinks; exact Hk | exact Hnot].
Qed.

(** The loop of [poll.delete()] over the questions of the poll. *)
Lemma delete_questions_spec (qs : list Question.t) :
  forall s,
    exists us s1,
      for_each db.delete_question qs s = (inr us, s1)
      /\ db.polls s1 = db.polls s
      /\ db.questions s1
         = filter (fun r => negb (existsb (Z.eqb (Question.id r)) (map Question.id qs)))
             (db.questions s)
      /\ (forall c, In c (db.choiceanswers s1) ->
                    In c (db.choiceanswers s)
                    /\ forall q, In q qs -> ChoiceAnswer.question_id c <> Question.id q)
      /\ (forall a, In a (db.answers s1) ->
                    (exists a0, In a0 (db.answers s)
                                /\ Answer.question_id a0 = Answer.question_id a)
                    /\ forall q, In q qs -> Answer.question_id a <> Question.id q).
Proof.
  induction qs as [| q qs IH]; intros s; cbn [for_each].
  - exists [], s. unfold ret. split; [reflexivity |]. split; [reflexivity |].
    split; [| split].
    + cbn [map existsb negb]. symmetry. apply filter_all. apply Forall_forall. auto.
    + intros c Hc. split; [exact Hc | intros q []].
    + intros a Ha. split; [exists a; auto | intros q []].
  - pose proof (delete_question_answers q s) as Ha.
    destruct (delete_question_shape q s) as [s0 [Hrun [Hp [Hq Hc]]]].
    rewrite Hrun in Ha. cbn [snd] in Ha.
    destruct (IH s0) as [us [s1 [Hloop [Hp1 [Hq1 [Hc1 Ha1]]]]]].
    exists (tt :: us), s1. unfold bind. rewrite Hrun, Hloop. unfold ret.
    split; [reflexivity |]. split; [congruence |]. split; [| split].
    + rewrite Hq1, Hq. clear. cbn [map existsb].
      induction (db.questions s) as [| r rows IHrows]; cbn [filter].
      * reflexivity.
      * destruct (Z.eqb (Question.id r) (Question.id q)); cbn [negb orb filter].
        -- exact IHrows.
        -- destruct (negb _); [f_equal |]; exact IHrows.
    + intros c Hin. destruct (Hc1 c Hin) as [Hin0 Hrest].
      rewrite Hc in Hin0. apply filter_In in Hin0. destruct Hin0 as [Hins Hnot].
      split; [exact Hins |].
      intros q0 [<- | Hq0]; [| exact (Hrest q0 Hq0)].
      intros Hsame. apply negb_true_iff in Hnot.
      assert (Hex : existsb (Z.eqb (ChoiceAnswer.id c))
                      (map ChoiceAnswer.id (db.question_choices q s)) = true).
      { apply existsb_Zeqb_In. apply in_map. unfold db.question_choices.
        apply filter_In. split; [exact Hins | apply Z.eqb_eq; exact Hsame]. }
      congruence.
    + intros a Hin. destruct (Ha1 a Hin) as [[a0 [Hin0 Hsame]] Hrest].
      rewrite Ha in Hin0. apply filter_In in Hin0. destruct Hin0 as [Hin0 Hne].
      apply in_map_iff in Hin0. destruct Hin0 as [a1 [<- Hin1]].
      unfold without_links in Hsame, Hne.
      cbn [Answer.with_choice Answer.question_id] in Hsame, Hne.
      split; [exists a1; auto |].
      intros q0 [<- | Hq0]; [| exact (Hrest q0 Hq0)].
      rewrite <- Hsame.
      destruct (Z.eqb_spec (Answer.question_id a1) (Question.id q)); [discriminate | auto].
Qed.

(** [poll.delete()] keeps the foreign keys. *)
Lemma delete_poll_keeps_references (p : Poll.t) :
  keeps referential_integrity (db.delete_poll p).
Proof.
  intros s out s' Hri Hrun.
  unfold db.delete_poll in Hrun. unfold bind at 1 in Hrun. unfold gets in Hrun.
  destruct (delete_questions_spec (db.poll_questions p s) s)
    as [us [s1 [Hloop [Hp [Hq _]]]]].
  assert (Hri1 : referential_integrity s1).
  { eapply (for_each_keeps referential_integrity db.delete_question);
      [| exact Hri | exact Hloop].
    intros q. apply delete_question_keeps_references. }
  unfold bind in Hrun. rewrite Hloop in Hrun. unfold modify in Hrun.
  inversion Hrun; subst. clear Hrun.
  destruct Hri as [Hquestions _]. destruct Hri1 as [Hquestions1 [Hchoices1 Hanswers1]].
  split; [| split].
  - intros q Hin. cbn [db.set_polls db.questions db.polls] in *.
    pose proof (Hquestions1 q Hin) as Hpoll. rewrite Hp in Hpoll.
    apply in_map_iff in Hpoll. destruct Hpoll as [p0 [Hid Hp0]].
    apply in_map_iff. exists p0. split; [exact Hid |].
    rewrite Hp. apply filter_In. split; [exact Hp0 |].
    destruct (Z.eqb_spec (Poll.id p0) (Poll.id p)) as [Hsame |]; [| reflexivity].
    exfalso. rewrite Hq in Hin. apply filter_In in Hin. destruct Hin as [Hin Hnot].
    apply negb_true_iff in Hnot.
    assert (Hex : existsb (Z.eqb (Question.id q))
                    (map Question.id (db.poll_questions p s)) = true).
    { apply existsb_Zeqb_In. apply in_map. unfold db.poll_questions.
      apply filter_In. split; [exact Hin | apply Z.eqb_eq; congruence]. }
    congruence.
  - exact Hchoices1.
  - exact Hanswers1.
Qed.

(** A validated answer refers to a stored question and to stored
    choices. *)
Lemma validated_answer_references (d : request.answer_data) (s : db.Store)
    (a : AnswerSerializer.attrs) :
  AnswerSerializer.run_validation d s = inr a ->
  In (Question.id (AnswerSerializer.question a)) (map Question.id (db.questions s))
  /\ forall cs, AnswerSerializer.choice a = Some cs ->
                forall k, In k cs -> In k (map ChoiceAnswer.id (db.choiceanswers s)).
Proof.
  unfold AnswerSerializer.run_validation, AnswerSerializer.to_internal_value.
  destruct (find _ (db.questions s)) as [q |] eqn:Hfind; [| discriminate].
  apply find_some in Hfind. destruct Hfind as [Hq _].
  destruct (AnswerSerializer.text_field (request.text d)) as [e | text]; [discriminate |].
  destruct (request.choice d) as [l |].
  - destruct (forallb _ l) eqn:Hall; [| discriminate].
    intros Hval. pose proof (AnswerSerializer_validate_returns _ _ Hval) as ->.
    cbn [AnswerSerializer.question AnswerSerializer.choice].
    split; [apply in_map; exact Hq |].
    intros cs Hcs k Hk. inversion Hcs; subst.
    rewrite forallb_forall in Hall. specialize (Hall k Hk).
    apply existsb_exists in Hall. destruct Hall as [c [Hc Hid]].
    apply Z.eqb_eq in Hid. subst. apply in_map. exact Hc.
  - intros Hval. pose proof (AnswerSerializer_validate_returns _ _ Hval) as ->.
    cbn [AnswerSerializer.question AnswerSerializer.choice].
    split; [apply in_map; exact Hq | discriminate].
Qed.

(** What [update] has done to the answers when it returns. *)
Lemma update_returns_answers (instance : Question.t) (data : QuestionSerializer.attrs)
    (s s' : db.Store) (q' : Question.t) :
  QuestionSerializer.update instance data s = (inr q', s') ->
  db.answers s' = map (without_links (db.question_choices instance s)) (db.answers s).
Proof.
  unfold QuestionSerializer.update. intros Hrun.
  apply bind_returns in Hrun. destruct Hrun as [poll [s0 [Hpoll Hrun]]].
  unfold reads in Hpoll.
  destruct (db.poll_of instance s) as [e | p]; inversion Hpoll; subst. clear Hpoll.
  destruct (Poll.is_published poll); [discriminate |].
  apply bind_returns in Hrun. destruct Hrun as [old [s1 [Hold Hrun]]].
  unfold gets in Hold. inversion Hold; subst. clear Hold.
  apply bind_returns in Hrun. destruct Hrun as [us [s2 [Hdel Hrun]]].
  pose proof (delete_choices_answers (db.question_choices instance s1) s1) as Hanswers.
  rewrite Hdel in Hanswers. cbn [snd] in Hanswers.
  apply bind_returns in Hrun. destruct Hrun as [u [s3 [Hsave Hrun]]].
  destruct u. apply save_choices_returns in Hsave.
  destruct Hsave as [created [Hs3 _]]. subst s3.
  unfold QuestionSerializer.ModelSerializer_update, db.save_question, bind, gets in Hrun.
  destruct (existsb _ (db.questions _)); [discriminate |].
  destruct (existsb _ (db.questions _));
    unfold modify, ret in Hrun; inversion Hrun; subst;
    cbn [db.set_questions db.set_choiceanswers db.answers]; exact Hanswers.
Qed.

Section References.

Context `{conv : PkConversion}.

Lemma vote_keeps_references (pk : string) (r : request.t) :
  keeps referential_integrity (UserPolls.post pk r).
Proof.
  intros s [e | res] s' Hri Hrun.
  - apply post_raises_unchanged in Hrun. subst. exact Hri.
  - apply post_returns in Hrun. destruct Hrun as [_ [vd [Hval Hcreate]]].
    apply UserPollSerializer_run_validation_returns in Hval. destruct Hval as [Hfields _].
    apply create_returns in Hcreate. destruct Hcreate as [-> [Hrows _]].
    destruct Hri as [Hquestions [Hchoices Hanswers]].
    split; [exact Hquestions |]. split; [exact Hchoices |].
    intros row Hin. cbn [db.set_answers db.answers db.questions db.choiceanswers] in *.
    apply in_app_or in Hin. destruct Hin as [Hin | Hin]; [exact (Hanswers row Hin) |].
    apply Forall2_flip in Hrows.
    destruct (Forall2_In_left _ _ _ _ Hrows Hin) as [a [Ha [rows0 ->]]].
    apply Forall2_flip in Hfields.
    destruct (Forall2_In_left _ _ _ _ Hfields Ha) as [d [_ Hda]].
    apply validated_answer_references in Hda. destruct Hda as [Hq Hcs].
    unfold vote_row. cbn [Answer.question_id Answer.choice].
    split; [exact Hq |].
    destruct (AnswerSerializer.choice a) as [cs |]; [| intros k []].
    intros k Hk. apply (add_links_spec cs []) in Hk; [| constructor].
    destruct Hk as [[] | Hk]. exact (Hcs cs eq_refl k Hk).
Qed.

Lemma create_keeps_references (poll_pk : string) (data : QuestionSerializer.attrs)
    (s s' : db.Store) (q : Question.t) :
  referential_integrity s ->
  QuestionSerializer.create poll_pk data s = (inr q, s') ->
  referential_integrity s'.
Proof.
  intros [Hquestions [Hchoices Hanswers]] Hrun.
  apply create_returns_shape in Hrun.
  destruct Hrun as [poll [created [Hpoll [_ [Hq [-> Hcreated]]]]]].
  apply get_poll_returns in Hpoll. apply find_some in Hpoll. destruct Hpoll as [Hpoll _].
  split; [| split];
    cbn [db.set_choiceanswers db.set_questions db.polls db.questions db.choiceanswers
         db.answers].
  - intros q0 Hin. apply in_app_or in Hin. destruct Hin as [Hin | [<- | []]].
    + exact (Hquestions q0 Hin).
    + rewrite Hq. cbn [question_row Question.poll_id]. apply in_map. exact Hpoll.
  - intros c Hin.
    cbn [db.set_choiceanswers db.set_questions db.questions db.choiceanswers] in *.
    rewrite map_app, in_app_iff. apply in_app_or in Hin. destruct Hin as [Hin | Hin].
    + left. exact (Hchoices c Hin).
    + right. rewrite Forall_forall in Hcreated. rewrite (Hcreated c Hin). simpl. auto.
  - intros a Hin. destruct (Hanswers a Hin) as [Hquestion Hlinks]. split.
    + rewrite map_app, in_app_iff. left. exact Hquestion.
    + intros k Hk. rewrite map_app, in_app_iff. left. exact (Hlinks k Hk).
Qed.

Lemma update_keeps_references (instance : Question.t) (data : QuestionSerializer.attrs)
    (s s' : db.Store) (q' : Question.t) :
  referential_integrity s ->
  QuestionSerializer.update instance data s = (inr q', s') ->
  referential_integrity s'.
Proof.
  intros [Hquestions [Hchoices Hanswers]] Hrun.
  pose proof (update_returns_answers _ _ _ _ _ Hrun) as Ha.
  apply update_returns_shape in Hrun.
  destruct Hrun as [poll [created [Hpoll [_ [Hid [Hpid [Hp [Hc [Hcreated Hq]]]]]]]]].
  assert (Hpoll_stored : In (Question.poll_id q') (map Poll.id (db.polls s))).
  { unfold db.poll_of in Hpoll.
    destruct (find _ (db.polls s)) as [p |] eqn:Hfind; [| discriminate].
    apply find_some in Hfind. destruct Hfind as [Hin Hsame]. apply Z.eqb_eq in Hsame.
    rewrite Hpid, <- Hsame. apply in_map. exact Hin. }
  assert (Hkept : forall k, In k (map Question.id (db.questions s)) ->
                            In k (map Question.id (db.questions s'))).
  { intros k Hk. rewrite Hq. apply in_map_iff in Hk. destruct Hk as [q0 [Hk Hq0]].
    destruct (existsb _ (db.questions s)).
    - apply in_map_iff.
      exists (if Z.eqb (Question.id q0) (Question.id instance) then q' else q0).
      split; [| apply in_map_iff; exists q0; auto].
      destruct (Z.eqb_spec (Question.id q0) (Question.id instance)); congruence.
    - rewrite map_app, in_app_iff. left. apply in_map_iff. exists q0. auto. }
  assert (Hinstance : In (Question.id instance) (map Question.id (db.questions s'))).
  { rewrite Hq.
    destruct (existsb _ (db.questions s)) eqn:Hex.
    - apply existsb_exists in Hex. destruct Hex as [q0 [Hq0 Hsame]].
      apply in_map_iff.
      exists (if Z.eqb (Question.id q0) (Question.id instance) then q' else q0).
      rewrite Hsame. split; [exact Hid | apply in_map_iff; exists q0].
      rewrite Hsame. auto.
    - rewrite map_app, in_app_iff. right. simpl. auto. }
  split; [| split].
  - intros q0 Hin. rewrite Hp. rewrite Hq in Hin.
    destruct (existsb _ (db.questions s)).
    + apply in_map_iff in Hin. destruct Hin as [q1 [Hq1 Hin]].
      destruct (Z.eqb (Question.id q1) (Question.id instance)); subst q0;
        [exact Hpoll_stored | exact (Hquestions q1 Hin)].
    + apply in_app_or in Hin. destruct Hin as [Hin | [<- | []]];
        [exact (Hquestions q0 Hin) | exact Hpoll_stored].
  - intros c Hin. rewrite Hc in Hin. apply in_app_or in Hin. destruct Hin as [Hin | Hin].
    + apply filter_In in Hin. apply Hkept, Hchoices. tauto.
    + rewrite Forall_forall in Hcreated. rewrite (Hcreated c Hin). exact Hinstance.
  - intros a Hin. rewrite Ha in Hin. apply in_map_iff in Hin.
    destruct Hin as [a0 [<- Ha0]]. destruct (Hanswers a0 Ha0) as [Hquestion Hlinks].
    split.
    + apply Hkept. exact Hquestion.
    + intros k Hk. apply link_stays in Hk. destruct Hk as [Hk Hnot].
      rewrite Hc, map_app, in_app_iff. left.
      apply choice_key_stays; [apply Hlinks; exact Hk | exact Hnot].
Qed.

Lemma create_poll_keeps_references (now : Z) (data : PollAdminSerializer.attrs) :
  keeps referential_integrity (PollAdminViewSet.create now data).
Proof.
  intros s out s' Hri Hrun.
  unfold PollAdminViewSet.create, bind, lift in Hrun.
  destruct (PollAdminSerializer.run_validation data) as [e | vd].
  { inversion Hrun; subst. exact Hri. }
  destruct Hri as [Hquestions [Hchoices Hanswers]].
  unfold PollAdminSerializer.create, db.create_poll, bind, gets, modify, ret in Hrun.
  inversion Hrun; subst. clear Hrun.
  split; [| split; [exact Hchoices | exact Hanswers]].
  intros q Hin. cbn [db.set_polls db.polls db.questions] in *.
  rewrite map_app, in_app_iff. left. exact (Hquestions q Hin).
Qed.

Lemma update_poll_keeps_references (pk : string) (data : PollAdminSerializer.attrs) :
  keeps referential_integrity (PollAdminViewSet.update pk data).
Proof.
  intros s out s' Hri Hrun.
  unfold PollAdminViewSet.update, bind, reads in Hrun.
  destruct (PollAdminViewSet.get_object pk s) as [e | instance].
  { inversion Hrun; subst. exact Hri. }
  unfold lift in Hrun.
  destruct (PollAdminSerializer.run_validation data) as [e | vd].
  { inversion Hrun; subst. exact Hri. }
  destruct Hri as [Hquestions [Hchoices Hanswers]].
  unfold PollAdminSerializer.update, db.save_poll, bind, gets in Hrun.
  cbn [Poll.id] in Hrun.
  destruct (existsb _ (db.polls s)); unfold modify, ret in Hrun;
    inversion Hrun; subst; clear Hrun;
    (split; [| split; [exact Hchoices | exact Hanswers]]);
    intros q Hin; cbn [db.set_polls db.polls db.questions] in *;
    specialize (Hquestions q Hin).
  - apply in_map_iff in Hquestions. destruct Hquestions as [p [Hid Hp]].
    rewrite map_map. apply in_map_iff. exists p. split; [| exact Hp].
    destruct (Z.eqb_spec (Poll.id p) (Poll.id instance)); [| exact Hid].
    cbn [Poll.id]. congruence.
  - rewrite map_app, in_app_iff. left. exact Hquestions.
Qed.

(** X15: the handlers keep the foreign keys.  In a store where every
    question belongs to a stored poll, every choice to a stored question,
    and every answer answers a stored question and links to stored
    choices, that is so again after a vote, after the creation, the update
    and the deletion of a question, and after the creation, the update and
    the deletion of a poll, whether the request is carried out or
    refused. *)
Theorem references_stay_valid (s : db.Store) :
  referential_integrity s ->
  (forall pk r, referential_integrity (snd (UserPolls.post pk r s)))
  /\ (forall poll_pk data,
        referential_integrity (snd (QuestionAdminViewSet.post poll_pk data s)))
  /\ (forall poll_pk pk data,
        referential_integrity (snd (QuestionAdminViewSet.put poll_pk pk data s)))
  /\ (forall poll_pk pk,
        referential_integrity (snd (QuestionAdminViewSet.delete poll_pk pk s)))
  /\ (forall now data,
        referential_integrity (snd (PollAdminViewSet.create now data s)))
  /\ (forall pk data,
        referential_integrity (snd (PollAdminViewSet.update pk data s)))
  /\ (forall pk, referential_integrity (snd (PollAdminViewSet.destroy pk s))).
Proof.
  intros Hri. split; [| split; [| split; [| split; [| split; [| split]]]]].
  - intros pk r.
    destruct (UserPolls.post pk r s) as [out s'] eqn:Hrun.
    exact (vote_keeps_references pk r s out s' Hri Hrun).
  - intros poll_pk data. rewrite post_question_cases.
    destruct (db.get_poll_or_404 poll_pk s) as [e | poll]; [exact Hri |].
    destruct (QuestionSerializer.validate data) as [e | vd]; [exact Hri |].
    destruct (QuestionSerializer.create poll_pk vd s) as [[e | q] s'] eqn:Hrun;
      [exact Hri |].
    exact (create_keeps_references _ _ _ _ _ Hri Hrun).
  - intros poll_pk pk data. rewrite put_question_cases.
    destruct (db.get_poll_or_404 poll_pk s) as [e | poll]; [exact Hri |].
    destruct (QuestionAdminViewSet.get_object poll pk s) as [e | instance]; [exact Hri |].
    destruct (QuestionSerializer.validate data) as [e | vd]; [exact Hri |].
    destruct (QuestionSerializer.update instance vd s) as [[e | q] s'] eqn:Hrun;
      [exact Hri |].
    exact (update_keeps_references _ _ _ _ _ Hri Hrun).
  - intros poll_pk pk. rewrite delete_question_cases.
    destruct (db.get_poll_or_404 poll_pk s) as [e | poll]; [exact Hri |].
    destruct (Poll.is_published poll); [exact Hri |].
    destruct (QuestionAdminViewSet.get_object poll pk s) as [e | instance]; [exact Hri |].
    destruct (db.delete_question instance s) as [out s'] eqn:Hrun.
    exact (delete_question_keeps_references instance s out s' Hri Hrun).
  - intros now data.
    destruct (PollAdminViewSet.create now data s) as [out s'] eqn:Hrun.
    exact (create_poll_keeps_references now data s out s' Hri Hrun).
  - intros pk data.
    destruct (PollAdminViewSet.update pk data s) as [out s'] eqn:Hrun.
    exact (update_poll_keeps_references pk data s out s' Hri Hrun).
  - intros pk. unfold PollAdminViewSet.destroy, atomic, bind, reads.
    destruct (PollAdminViewSet.get_object pk s) as [e | instance]; [exact Hri |].
    destruct (db.delete_poll instance s) as [[e | u] s'] eqn:Hrun; [exact Hri |].
    exact (delete_poll_keeps_references instance s _ s' Hri Hrun).
Qed.

End References.

(** The store of the fixture after the vote of voter 42 has valid foreign
    keys. *)
Lemma fixture_voted_references (published : bool) :
  referential_integrity (fixture.voted published).
Proof.
  unfold referential_integrity, choices_reference_questions. simpl.
  split; [| split].
  - intros q [<- | [<- | [<- | []]]]; simpl; auto.
  - intros c [<- | [<- | []]]; simpl; auto.
  - intros a [<- | [<- | []]]; simpl; (split; [auto |]).
    + intros k [<- | []]. auto.
    + intros k [].
Defined.

(** The store after the vote of voter 42 has valid foreign keys, and has
    them after question 1 is deleted, after poll 1 is deleted, and after
    the vote of voter 43. *)
Lemma references_stay_valid_witness :
  let s := fixture.voted false in
  referential_integrity s
  /\ (exists s', QuestionAdminViewSet.delete (conv := decimal_pk) "1" "1" s = (inr tt, s'))
  /\ referential_integrity (snd (QuestionAdminViewSet.delete (conv := decimal_pk) "1" "1" s))
  /\ referential_integrity (snd (PollAdminViewSet.destroy (conv := decimal_pk) "1" s))
  /\ referential_integrity
       (snd (UserPolls.post (conv := decimal_pk) "1"
               (fixture.vote [fixture.answer 1 None (Some [2]);
                              fixture.answer 2 (Some "bye") None] (Some 43)) s)).
Proof.
  intros s.
  pose proof (fixture_voted_references false) as Hri.
  pose proof (references_stay_valid (conv := decimal_pk) s Hri)
    as [Hvote [_ [_ [Hdelete [_ [_ Hdestroy]]]]]].
  split; [exact Hri |]. split; [eexists; reflexivity |].
  split; [apply Hdelete |]. split; [apply Hdestroy | apply Hvote].
Defined.

(** ** Deleting a poll *)

(** X16: the deletion of a poll asks nothing about the poll: for every
    stored poll, published or not, with or without votes, [destroy]
    returns, and afterwards the poll is gone, it has no question left, and
    the questions it had have no choice and no answer of any voter left;
    the other polls are as they were. *)
Theorem poll_destroy_takes_all `{conv : PkConversion} (pk : string) (p : Poll.t)
    (s : db.Store) :
  PollAdminViewSet.get_object pk s = inr p ->
  exists s',
    PollAdminViewSet.destroy pk s = (inr tt, s')
    /\ db.polls s' = filter (fun r => negb (Z.eqb (Poll.id r) (Poll.id p))) (db.polls s)
    /\ db.poll_questions p s' = []
    /\ forall q, In q (db.poll_questions p s) ->
                 db.question_choices q s' = []
                 /\ forall user anonymous_id,
                      votes_of user anonymous_id (Question.id q) s' = [].
Proof.
  intros Hobj. unfold PollAdminViewSet.destroy, atomic, bind, reads. rewrite Hobj.
  unfold db.delete_poll, bind, gets.
  destruct (delete_questions_spec (db.poll_questions p s) s)
    as [us [s1 [Hloop [Hp [Hq [Hc Ha]]]]]].
  rewrite Hloop. unfold modify. eexists. split; [reflexivity |].
  cbn [db.set_polls db.polls]. split; [rewrite Hp; reflexivity |]. split.
  - unfold db.poll_questions. cbn [db.set_polls db.questions]. apply filter_none.
    intros r Hr. rewrite Hq in Hr. apply filter_In in Hr. destruct Hr as [Hr Hnot].
    destruct (Z.eqb_spec (Question.poll_id r) (Poll.id p)) as [Hsame |]; [| reflexivity].
    apply negb_true_iff in Hnot.
    assert (Hex : existsb (Z.eqb (Question.id r))
                    (map Question.id (db.poll_questions p s)) = true).
    { apply existsb_Zeqb_In. apply in_map. unfold db.poll_questions.
      apply filter_In. split; [exact Hr | apply Z.eqb_eq; exact Hsame]. }
    congruence.
  - intros q Hin. split.
    + unfold db.question_choices. cbn [db.set_polls db.choiceanswers]. apply filter_none.
      intros c Hin1. destruct (Hc c Hin1) as [_ Hother].
      specialize (Hother q Hin).
      destruct (Z.eqb_spec (ChoiceAnswer.question_id c) (Question.id q));
        [contradiction | reflexivity].
    + intros user anonymous_id. unfold votes_of. cbn [db.set_polls db.answers].
      apply filter_none. intros a Hin1. destruct (Ha a Hin1) as [_ Hother].
      specialize (Hother q Hin).
      destruct (Z.eqb_spec (Answer.question_id a) (Question.id q));
        [contradiction | apply andb_false_r].
Qed.

(** Poll 1 is published and voter 42 has voted in it: its deletion is
    carried out and leaves poll 2, and of question 1 no choice and no
    answer of voter 42. *)
Lemma poll_destroy_takes_all_witness :
  exists s',
    PollAdminViewSet.destroy (conv := decimal_pk) "1" (fixture.voted true) = (inr tt, s')
    /\ db.polls s' = [fixture.poll 2 true]
    /\ db.poll_questions (fixture.poll 1 true) s' = []
    /\ db.question_choices (fixture.question 1 1 "Q1" Question.QuestionType.single_choice) s'
       = []
    /\ votes_of None (Some 42) 1 s' = [].
Proof.
  destruct (poll_destroy_takes_all (conv := decimal_pk) "1" (fixture.poll 1 true)
              (fixture.voted true) eq_refl) as [s' [Hrun [Hpolls [Hquestions Hgone]]]].
  destruct (Hgone (fixture.question 1 1 "Q1" Question.QuestionType.single_choice))
    as [Hchoices Hvotes].
  { simpl. auto. }
  exists s'. split; [exact Hrun |]. split; [rewrite Hpolls; reflexivity |].
  split; [exact Hquestions |]. split; [exact Hchoices | exact (Hvotes None (Some 42))].
Defined.

(** ** The keys of new choices *)

(** A choice the loop of [bulk_create] inserts has a key above the keys
    the table held before. *)
Lemma insert_choices_fresh (q : Question.t) (l : list string) :
  forall (s s' : db.Store) (created : list ChoiceAnswer.t),
    for_each (db.insert_choice q) l s = (inr created, s') ->
    Forall (fun c => forall k, In k (map ChoiceAnswer.id (db.choiceanswers s)) ->
                               k < ChoiceAnswer.id c) created.
Proof.
  induction l as [| t l IH]; intros s s' created; cbn [for_each].
  - unfold ret. intros Heq. inversion Heq; subst. constructor.
  - intros Hrun. apply bind_returns in Hrun. destruct Hrun as [c [s1 [Hc Hrest]]].
    apply bind_returns in Hrest. destruct Hrest as [cs [s2 [Hloop Hret]]].
    unfold ret in Hret. inversion Hret; subst. clear Hret.
    unfold db.insert_choice, bind, gets in Hc.
    destruct (existsb _ (db.choiceanswers s)); [discriminate |].
    unfold modify, ret in Hc. inversion Hc; subst. clear Hc.
    apply IH in Hloop. cbn [db.set_choiceanswers db.choiceanswers] in Hloop.
    constructor.
    + intros k Hk. cbn [ChoiceAnswer.id]. apply next_id_above. exact Hk.
    + eapply Forall_impl; [| exact Hloop].
      intros c Hc k Hk. apply Hc. rewrite map_app, in_app_iff. left. exact Hk.
Qed.

Lemma save_choices_fresh (q : Question.t) (choices : option (list string))
    (s s' : db.Store) (u : unit) :
  QuestionSerializer._save_choices q choices s = (inr u, s') ->
  exists created,
    db.choiceanswers s' = (db.choiceanswers s ++ created)%list
    /\ Forall (fun c => forall k, In k (map ChoiceAnswer.id (db.choiceanswers s)) ->
                                  k < ChoiceAnswer.id c) created.
Proof.
  unfold QuestionSerializer._save_choices.
  destruct choices as [[| t l] |];
    try solve [unfold ret; intros Heq; inversion Heq; subst; exists [];
               rewrite app_nil_r; auto].
  intros Hrun. apply bind_returns in Hrun. destruct Hrun as [cs [s1 [Hbulk Hret]]].
  unfold ret in Hret. inversion Hret; subst. clear Hret.
  unfold db.bulk_create_choices, atomic in Hbulk.
  destruct (for_each (db.insert_choice q) (t :: l) s) as [[e | cs'] s2] eqn:Hloop;
    [discriminate |].
  inversion Hbulk; subst. exists cs. split.
  - apply insert_choices_returns in Hloop. destruct Hloop as [-> _]. reflexivity.
  - eapply insert_choices_fresh. exact Hloop.
Qed.

(** The choices [update] has created have keys above those of the choices
    it has kept. *)
Lemma update_created_fresh (instance : Question.t) (data : QuestionSerializer.attrs)
    (s s' : db.Store) (q' : Question.t) :
  QuestionSerializer.update instance data s = (inr q', s') ->
  let kept := filter (fun r => negb (existsb (Z.eqb (ChoiceAnswer.id r))
                                       (map ChoiceAnswer.id
                                          (db.question_choices instance s))))
                (db.choiceanswers s) in
  exists created,
    db.choiceanswers s' = (kept ++ created)%list
    /\ Forall (fun c => forall k, In k (map ChoiceAnswer.id kept) ->
                                  k < ChoiceAnswer.id c) created.
Proof.
  intros Hrun kept. unfold QuestionSerializer.update in Hrun.
  apply bind_returns in Hrun. destruct Hrun as [poll [s0 [Hpoll Hrun]]].
  unfold reads in Hpoll.
  destruct (db.poll_of instance s) as [e | p]; inversion Hpoll; subst. clear Hpoll.
  destruct (Poll.is_published poll); [discriminate |].
  apply bind_returns in Hrun. destruct Hrun as [old [s1 [Hold Hrun]]].
  unfold gets in Hold. inversion Hold; subst. clear Hold.
  apply bind_returns in Hrun. destruct Hrun as [us [s2 [Hdel Hrun]]].
  destruct (delete_choices_spec (db.question_choices instance s1) s1)
    as [us' [s2' [Hdel' [_ [_ Hchoices]]]]].
  rewrite Hdel' in Hdel. inversion Hdel; subst. clear Hdel.
  apply bind_returns in Hrun. destruct Hrun as [u [s3 [Hsave Hrun]]].
  apply save_choices_fresh in Hsave. destruct Hsave as [created [Hs3 Hfresh]].
  exists created. rewrite Hchoices in Hs3, Hfresh. fold kept in Hs3, Hfresh.
  split; [| exact Hfresh].
  unfold QuestionSerializer.ModelSerializer_update, db.save_question, bind, gets in Hrun.
  destruct (existsb _ (db.questions _)); [discriminate |].
  destruct (existsb _ (db.questions _));
    unfold modify, ret in Hrun; inversion Hrun; subst;
    cbn [db.set_questions db.choiceanswers]; exact Hs3.
Qed.

(** X17: an update of a question takes the selections of its choices out
    of the stored answers and does not carry them over to the new choices.
    In a store with valid foreign keys, after an update that returns, the
    rows of answers are those of before without their links to the choices
    the question had, and no answer is linked to a choice the question has
    now, also when the same choice texts were sent again. *)
Theorem update_unlinks_answers (instance : Question.t) (data : QuestionSerializer.attrs)
    (s s' : db.Store) (q' : Question.t) :
  referential_integrity s ->
  QuestionSerializer.update instance data s = (inr q', s') ->
  db.answers s' = map (without_links (db.question_choices instance s)) (db.answers s)
  /\ forall a c, In a (db.answers s') -> In c (db.question_choices q' s') ->
                 ~ In (ChoiceAnswer.id c) (Answer.choice a).
Proof.
  intros [_ [_ Hanswers]] Hrun.
  pose proof (update_returns_answers _ _ _ _ _ Hrun) as Ha.
  destruct (update_created_fresh _ _ _ _ _ Hrun) as [created [Hc Hfresh]].
  apply update_returns_shape in Hrun.
  destruct Hrun as [_ [_ [_ [_ [Hid _]]]]].
  split; [exact Ha |].
  intros a c Hin Hchoice Hlinked.
  rewrite Ha in Hin. apply in_map_iff in Hin. destruct Hin as [a0 [<- Ha0]].
  apply link_stays in Hlinked. destruct Hlinked as [Hlinked Hnot].
  destruct (Hanswers a0 Ha0) as [_ Hlinks].
  pose proof (choice_key_stays (db.question_choices instance s) _ _
                (Hlinks _ Hlinked) Hnot) as Hkept.
  unfold db.question_choices in Hchoice. apply filter_In in Hchoice.
  destruct Hchoice as [Hstored Hquestion]. apply Z.eqb_eq in Hquestion.
  rewrite Hc in Hstored. apply in_app_or in Hstored. destruct Hstored as [Hold | Hnew].
  - apply filter_In in Hold. destruct Hold as [Hold Hnotold].
    apply Hnot. apply in_map. unfold db.question_choices.
    apply filter_In. split; [exact Hold |]. apply Z.eqb_eq. congruence.
  - rewrite Forall_forall in Hfresh. specialize (Hfresh c Hnew _ Hkept). lia.
Qed.

(** Question 1 has the choices "yes" and "no", and voter 42 selected
    "yes"; the question is updated with the same two choices: the answer
    of voter 42 to question 1 is there without a selection, and it selects
    none of the two new choices. *)
Lemma update_unlinks_answers_witness :
  let instance := fixture.question 1 1 "Q1" Question.QuestionType.single_choice in
  let data := fixture.new_question "Q1" Question.QuestionType.single_choice
                (QuestionSerializer.given ["yes"; "no"]) in
  let s' := snd (QuestionSerializer.update instance data (fixture.voted false)) in
  QuestionSerializer.update instance data (fixture.voted false) = (inr instance, s')
  /\ votes_of None (Some 42) 1 s'
     = [ {| Answer.id := Some 1; Answer.question_id := 1; Answer.text := None;
            Answer.choice := []; Answer.user_id := None;
            Answer.anonymous_id := Some 42 |} ]
  /\ map ChoiceAnswer.text (db.question_choices instance s') = ["yes"; "no"]
  /\ forall a c, In a (db.answers s') -> In c (db.question_choices instance s') ->
                 ~ In (ChoiceAnswer.id c) (Answer.choice a).
Proof.
  intros instance data s'.
  pose proof (fixture_voted_references false) as Hri.
  assert (Hrun : QuestionSerializer.update instance data (fixture.voted false)
                 = (inr instance, s')) by reflexivity.
  destruct (update_unlinks_answers instance data (fixture.voted false) s' instance
              Hri Hrun) as [_ Hnone].
  split; [exact Hrun |]. split; [reflexivity |]. split; [reflexivity | exact Hnone].
Defined.

(** ** Creating a question and deleting it again *)

Section CreateDelete.

Context `{conv : PkConversion}.

(** The choices [create] has inserted have keys above those the table
    held. *)
Lemma create_created_fresh (poll_pk : string) (data : QuestionSerializer.attrs)
    (s s' : db.Store) (q : Question.t) :
  QuestionSerializer.create poll_pk data s = (inr q, s') ->
  exists created,
    db.choiceanswers s' = (db.choiceanswers s ++ created)%list
    /\ Forall (fun c => forall k, In k (map ChoiceAnswer.id (db.choiceanswers s)) ->
                                  k < ChoiceAnswer.id c) created.
Proof.
  unfold QuestionSerializer.create. intros Hrun.
  apply bind_returns in Hrun. destruct Hrun as [poll [s0 [Hpoll Hrun]]].
  unfold reads in Hpoll.
  destruct (db.get_poll poll_pk s) as [e | p]; inversion Hpoll; subst. clear Hpoll.
  destruct (Poll.is_published poll); [discriminate |].
  apply bind_returns in Hrun. destruct Hrun as [question [s1 [Hq Hrun]]].
  unfold except, db.create_question, bind, gets in Hq.
  destruct (existsb _ (db.questions s0)); [discriminate |].
  unfold modify, ret in Hq. inversion Hq; subst. clear Hq.
  apply bind_returns in Hrun. destruct Hrun as [u [s2 [Hcheck Hrun]]].
  match type of Hcheck with _ ?s1 = _ => assert (Hs2 : s2 = s1) end.
  { destruct (Question.has_choice _ && _).
    - unfold bind, lift in Hcheck.
      destruct (len (QuestionSerializer.pop_choices data)) as [e | n]; [discriminate |].
      destruct (negb (Nat.eqb n 1)); inversion Hcheck; reflexivity.
    - inversion Hcheck; reflexivity. }
  subst s2.
  apply bind_returns in Hrun. destruct Hrun as [u' [s3 [Hsave Hret]]].
  unfold ret in Hret. inversion Hret; subst. clear Hret.
  apply save_choices_fresh in Hsave. exact Hsave.
Qed.

Lemma find_the_last (k : Z) (qs : list Question.t) (q : Question.t) :
  (forall r, In r qs -> Question.id r <> k) ->
  Question.id q = k ->
  find (fun r => Z.eqb (Question.id r) k) (qs ++ [q])%list = Some q.
Proof.
  intros Hother Hq. induction qs as [| r qs IH]; cbn [app find].
  - rewrite Hq, Z.eqb_refl. reflexivity.
  - destruct (Z.eqb_spec (Question.id r) k) as [Hsame |].
    + exfalso. exact (Hother r (or_introl eq_refl) Hsame).
    + apply IH. intros r' Hr'. apply Hother. right. exact Hr'.
Qed.

(** X18: deleting a question that has just been created restores the
    store.  In a store with valid foreign keys, after a creation that
    returns the question [q], the deletion of [q] through the handler
    (under the string of its key) returns and leaves exactly the store of
    before the creation: the question and the choices created with it
    go, and nothing else is touched. *)
Theorem create_then_delete_restores (poll_pk : string) (data : QuestionSerializer.attrs)
    (s s1 : db.Store) (q : Question.t) :
  referential_integrity s ->
  to_python (str (Question.id q)) = Some (Question.id q) ->
  QuestionAdminViewSet.post poll_pk data s = (inr q, s1) ->
  QuestionAdminViewSet.delete poll_pk (str (Question.id q)) s1 = (inr tt, s).
Proof.
  intros [_ [Hchoices Hanswers]] Hconv Hpost.
  rewrite post_question_cases in Hpost.
  destruct (db.get_poll_or_404 poll_pk s) as [e | poll0] eqn:Hpoll0; [discriminate |].
  destruct (QuestionSerializer.validate data) as [e | vd]; [discriminate |].
  destruct (QuestionSerializer.create poll_pk vd s) as [[e | q0] s0] eqn:Hcreate;
    [discriminate |].
  inversion Hpost; subst q0 s0. clear Hpost.
  destruct (create_created_fresh _ _ _ _ _ Hcreate) as [created' [Hc' Hfresh]].
  apply create_returns_shape in Hcreate.
  destruct Hcreate as [poll [created [Hpoll [Hpub [Hq [Hs1 Hcreated]]]]]].
  assert (Hsame : created' = created).
  { rewrite Hs1 in Hc'. cbn [db.set_choiceanswers db.choiceanswers] in Hc'.
    apply app_inv_head in Hc'. congruence. }
  subst created'.
  assert (Hid : Question.id q = next_id (map Question.id (db.questions s))).
  { rewrite Hq. reflexivity. }
  assert (Hbelow : forall r, In r (db.questions s) -> Question.id r <> Question.id q).
  { intros r Hr. pose proof (next_id_above _ _ (in_map Question.id _ _ Hr)). lia. }
  assert (Hbelow' : forall k, In k (map Question.id (db.questions s)) ->
                              k <> Question.id q).
  { intros k Hk. pose proof (next_id_above _ _ Hk). lia. }
  rewrite delete_question_cases.
  assert (Hpoll1 : db.get_poll_or_404 poll_pk s1 = inr poll).
  { apply get_poll_or_404_returns. rewrite <- Hpoll. rewrite Hs1. reflexivity. }
  rewrite Hpoll1, Hpub.
  assert (Hobj : QuestionAdminViewSet.get_object poll (str (Question.id q)) s1 = inr q).
  { unfold QuestionAdminViewSet.get_object. rewrite Hconv.
    unfold db.poll_questions. rewrite Hs1.
    cbn [db.set_choiceanswers db.set_questions db.questions].
    rewrite filter_app. cbn [filter].
    assert (Hof : Z.eqb (Question.poll_id q) (Poll.id poll) = true).
    { rewrite Hq. cbn [question_row Question.poll_id]. apply Z.eqb_refl. }
    rewrite Hof.
    rewrite (find_the_last (Question.id q)); [reflexivity | | reflexivity].
    intros r Hr. apply filter_In in Hr. apply Hbelow. tauto. }
  rewrite Hobj.
  pose proof (delete_question_answers q s1) as Ha.
  destruct (delete_question_shape q s1) as [s2 [Hrun [Hp2 [Hq2 Hc2]]]].
  rewrite Hrun in Ha. cbn [snd] in Ha. rewrite Hrun. f_equal.
  assert (Hold : db.question_choices q s1 = created).
  { unfold db.question_choices. rewrite Hs1.
    cbn [db.set_choiceanswers db.choiceanswers]. rewrite filter_app.
    rewrite (filter_none _ (db.choiceanswers s)), (filter_all _ created).
    - reflexivity.
    - eapply Forall_impl; [| exact Hcreated].
      intros c Hc. cbv beta in Hc. rewrite Hc. apply Z.eqb_refl.
    - intros c Hc. pose proof (Hbelow' _ (Hchoices c Hc)).
      destruct (Z.eqb_spec (ChoiceAnswer.question_id c) (Question.id q));
        [contradiction | reflexivity]. }
  assert (Hnew : forall k, In k (map ChoiceAnswer.id (db.choiceanswers s)) ->
                           existsb (Z.eqb k) (map ChoiceAnswer.id created) = false).
  { intros k Hk. apply not_true_is_false. intros Hex. apply existsb_Zeqb_In in Hex.
    apply in_map_iff in Hex. destruct Hex as [c [Hkc Hc]].
    rewrite Forall_forall in Hfresh. specialize (Hfresh c Hc k Hk). lia. }
  rewrite Hold in Hc2, Ha. rewrite Hs1 in Hp2, Hq2, Hc2, Ha.
  cbn [db.set_choiceanswers db.set_questions db.polls db.questions db.choiceanswers
       db.answers] in Hp2, Hq2, Hc2, Ha.
  assert (Hquestions : db.questions s2 = db.questions s).
  { rewrite Hq2, filter_app. cbn [filter]. rewrite Z.eqb_refl. cbn [negb].
    rewrite app_nil_r. apply filter_all. apply Forall_forall. intros r Hr.
    destruct (Z.eqb_spec (Question.id r) (Question.id q)) as [Hsame |]; [| reflexivity].
    exfalso. exact (Hbelow r Hr Hsame). }
  assert (Hchoices2 : db.choiceanswers s2 = db.choiceanswers s).
  { rewrite Hc2, filter_app.
    rewrite (filter_none _ created), app_nil_r.
    - apply filter_all. apply Forall_forall. intros c Hc.
      rewrite (Hnew _ (in_map ChoiceAnswer.id _ _ Hc)). reflexivity.
    - intros c Hc. apply negb_false_iff. apply existsb_Zeqb_In.
      apply in_map. exact Hc. }
  assert (Hanswers2 : db.answers s2 = db.answers s).
  { rewrite Ha.
    assert (Hmap : map (without_links created) (db.answers s) = db.answers s).
    { rewrite <- (map_id (db.answers s)) at 2. apply map_ext_in. intros a Hin.
      unfold without_links. rewrite filter_all.
      - destruct a; reflexivity.
      - apply Forall_forall. intros k Hk.
        rewrite (Hnew k (proj2 (Hanswers a Hin) k Hk)). reflexivity. }
    rewrite Hmap. apply filter_all. apply Forall_forall. intros a Hin.
    pose proof (Hbelow' _ (proj1 (Hanswers a Hin))).
    destruct (Z.eqb_spec (Answer.question_id a) (Question.id q));
      [contradiction | reflexivity]. }
  destruct s2, s. cbn [db.polls db.questions db.choiceanswers db.answers] in *.
  congruence.
Qed.

End CreateDelete.

(** The multi-choice question "Q5" with two choices is added to poll 1 and
    gets the key 4; its deletion gives back the store with the votes of
    voter 42. *)
Lemma create_then_delete_restores_witness :
  let s := fixture.voted false in
  let data := fixture.new_question "Q5" Question.QuestionType.multi_choice
                (QuestionSerializer.given ["a"; "b"]) in
  let q := fixture.question 4 1 "Q5" Question.QuestionType.multi_choice in
  let s1 := snd (QuestionAdminViewSet.post (conv := decimal_pk) "1" data s) in
  QuestionAdminViewSet.post (conv := decimal_pk) "1" data s = (inr q, s1)
  /\ map ChoiceAnswer.text (db.question_choices q s1) = ["a"; "b"]
  /\ QuestionAdminViewSet.delete (conv := decimal_pk) "1" "4" s1 = (inr tt, s).
Proof.
  intros s data q s1.
  pose proof (fixture_voted_references false) as Hri.
  assert (Hpost : QuestionAdminViewSet.post (conv := decimal_pk) "1" data s = (inr q, s1))
    by reflexivity.
  split; [exact Hpost |]. split; [reflexivity |].
  exact (create_then_delete_restores (conv := decimal_pk) "1" data s s1 q Hri eq_refl Hpost).
Defined.

(** ** The detail of a poll *)

(** X19: [retrieve] never returns the detail of a poll.  The action reads
    the poll that [get_object] finds through the fields of
    [QuestionSerializer], the class [get_serializer_class] gives for it,
    and a poll has no attribute [text], which is a required field: for
    every time, key, caller and store (the permission class lets every
    request of this action through) the handler either raises what
    [get_object] raises (404: no active poll has the key) or ends in the
    attribute error for [text], and the store stays as it was.  Read
    through the fields of [PollAdminSerializer], the class of [list], a
    poll has every attribute. *)
Theorem retrieve_never_returns `{conv : PkConversion} (now : Z) (pk : string)
    (r : request.t) (s : db.Store) :
  match UserPolls.get_object now pk s with
  | (inl e, _) => UserPolls.retrieve now pk r s = (inl e, s)
  | (inr _, _) =>
      UserPolls.retrieve now pk r s = (inr (inl (Serializer.no_attribute "text")), s)
  end
  /\ forall p,
       exists vs,
         Serializer.read_attributes
           (Serializer.fields (UserPolls.get_serializer_class action.list_)) p s
         = inr vs
         /\ map fst vs = map Serializer.field_name Serializer.poll_fields.
Proof.
  split.
  - unfold UserPolls.retrieve, UserPolls.check_permissions.
    change (UserPollsPermission.has_permission r action.retrieve) with true.
    unfold bind, ret.
    destruct (UserPolls.get_object now pk s) as [[e | p] s0] eqn:Hobj.
    + unfold UserPolls.get_object, reads in Hobj. inversion Hobj; subst. reflexivity.
    + unfold UserPolls.get_object, reads in Hobj. inversion Hobj; subst. reflexivity.
  - intros p. eexists. split; reflexivity.
Qed.

(** ** Lifting the lock of a published poll *)

Lemma find_replaced_poll (k : Z) (ps : list Poll.t) (p p' : Poll.t) :
  find (fun r => Z.eqb (Poll.id r) k) ps = Some p ->
  Poll.id p' = k ->
  find (fun r => Z.eqb (Poll.id r) k)
    (map (fun r => if Z.eqb (Poll.id r) (Poll.id p) then p' else r) ps)
  = Some p'.
Proof.
  intros Hfind Hid.
  assert (Hp : Poll.id p = k).
  { apply find_some in Hfind. apply Z.eqb_eq. tauto. }
  rewrite Hp. clear Hp. induction ps as [| r ps IH]; cbn [find map] in *.
  - discriminate.
  - destruct (Z.eqb (Poll.id r) k) eqn:Hr.
    + rewrite Hid, Z.eqb_refl. reflexivity.
    + rewrite Hr. apply IH. exact Hfind.
Qed.

Lemma validated_poll_flag (data validated_data : PollAdminSerializer.attrs) :
  PollAdminSerializer.run_validation data = inr validated_data ->
  PollAdminSerializer.is_published validated_data = PollAdminSerializer.is_published data.
Proof.
  unfold PollAdminSerializer.run_validation.
  destruct (CharField.run_validation false (Some 256%nat) (PollAdminSerializer.name data))
    as [e | name]; [discriminate |].
  destruct (CharField.run_validation false None (PollAdminSerializer.description data))
    as [e | description]; [discriminate |].
  intros Heq. inversion Heq. reflexivity.
Qed.

(** X20: the lock on the questions of a published poll lasts as long as
    the flag: the update of a poll is not guarded by the state of the
    poll, so for every stored poll, published or not, an update whose
    fields pass the validation of the serializer (a name and a description
    that are not blank, a name of 256 characters at most) and that sends
    [is_published] false returns, and afterwards the deletion of a
    question of the poll is carried out: the question is gone. *)
Theorem unpublishing_unlocks_questions `{conv : PkConversion} (pk qpk : string)
    (p : Poll.t) (instance : Question.t) (data validated_data : PollAdminSerializer.attrs)
    (s : db.Store) :
  PollAdminViewSet.get_object pk s = inr p ->
  QuestionAdminViewSet.get_object p qpk s = inr instance ->
  PollAdminSerializer.run_validation data = inr validated_data ->
  PollAdminSerializer.is_published data = Some false ->
  exists p' s1 s2,
    PollAdminViewSet.update pk data s = (inr p', s1)
    /\ Poll.is_published p' = false
    /\ db.questions s1 = db.questions s
    /\ QuestionAdminViewSet.delete pk qpk s1 = (inr tt, s2)
    /\ forall r, In r (db.questions s2) -> Question.id r <> Question.id instance.
Proof.
  intros Hpoll Hobj Hvalid Hflag.
  rewrite <- (validated_poll_flag _ _ Hvalid) in Hflag.
  unfold PollAdminViewSet.get_object in Hpoll.
  destruct (to_python pk) as [k |] eqn:Hpk; [| discriminate].
  destruct (find _ (db.polls s)) as [p0 |] eqn:Hfind; [| discriminate].
  inversion Hpoll; subst p0. clear Hpoll.
  assert (Hstored : existsb (fun r => Z.eqb (Poll.id r) (Poll.id p)) (db.polls s) = true).
  { apply find_some in Hfind. apply existsb_exists. exists p.
    split; [tauto | apply Z.eqb_refl]. }
  unfold PollAdminViewSet.update, bind, reads, PollAdminViewSet.get_object.
  rewrite Hpk, Hfind. unfold lift. rewrite Hvalid.
  unfold PollAdminSerializer.update, db.save_poll, bind, gets. cbn [Poll.id].
  rewrite Hstored, Hflag. unfold modify, ret.
  match goal with |- exists p' s1 s2, (inr ?q, ?s0) = _ /\ _ =>
    set (p' := q); set (s1 := s0)
  end.
  destruct (delete_question_shape instance s1) as [s2 [Hrun [_ [Hquestions _]]]].
  exists p', s1, s2. split; [reflexivity |]. split; [reflexivity |].
  split; [reflexivity |]. split.
  - rewrite delete_question_cases.
    assert (Hget : db.get_poll_or_404 pk s1 = inr p').
    { apply get_poll_or_404_returns. unfold db.get_poll. rewrite Hpk.
      change (db.polls s1)
        with (map (fun r => if Z.eqb (Poll.id r) (Poll.id p) then p' else r) (db.polls s)).
      rewrite (find_replaced_poll k (db.polls s) p p' Hfind); [reflexivity |].
      apply find_some in Hfind. apply Z.eqb_eq. subst p'. cbn [Poll.id]. tauto. }
    rewrite Hget.
    change (Poll.is_published p') with false. cbv iota.
    change (QuestionAdminViewSet.get_object p' qpk s1)
      with (QuestionAdminViewSet.get_object p qpk s).
    rewrite Hobj. exact Hrun.
  - intros r Hr. rewrite Hquestions in Hr. apply filter_In in Hr.
    destruct Hr as [_ Hne].
    destruct (Z.eqb_spec (Question.id r) (Question.id instance)); [discriminate | auto].
Qed.

(** Poll 1 is published: the deletion of its question 2 is refused; after
    the update of the poll with the name "poll", the description "closed"
    and [is_published] false it is carried out.  The same update with a
    blank description is refused and leaves the store as it was. *)
Lemma unpublishing_unlocks_questions_witness :
  let s := fixture.store true in
  let data := {| PollAdminSerializer.name := "poll"; PollAdminSerializer.end_date := 20;
                 PollAdminSerializer.description := "closed";
                 PollAdminSerializer.is_published := Some false |} in
  let blank := {| PollAdminSerializer.name := "poll"; PollAdminSerializer.end_date := 20;
                  PollAdminSerializer.description := " ";
                  PollAdminSerializer.is_published := Some false |} in
  QuestionAdminViewSet.delete (conv := decimal_pk) "1" "2" s
  = (inl (ValidationError "Poll already published and cannot be changed"), s)
  /\ PollAdminViewSet.update (conv := decimal_pk) "1" blank s
     = (inl (ValidationError "This field may not be blank."), s)
  /\ exists p' s1 s2,
       PollAdminViewSet.update (conv := decimal_pk) "1" data s = (inr p', s1)
       /\ Poll.is_published p' = false
       /\ db.questions s1 = db.questions s
       /\ QuestionAdminViewSet.delete (conv := decimal_pk) "1" "2" s1 = (inr tt, s2)
       /\ forall r, In r (db.questions s2) -> Question.id r <> 2.
Proof.
  intros s data blank. split; [reflexivity |]. split; [reflexivity |].
  exact (unpublishing_unlocks_questions (conv := decimal_pk) "1" "2" (fixture.poll 1 true)
           (fixture.question 2 1 "Q2" Question.QuestionType.text) data data s
           eq_refl eq_refl eq_refl eq_refl).
Defined.

(** ** A vote without answers *)

(** X21: a vote with an empty list of answers, from a caller the
    permission class lets through.  The poll is looked up by the key of
    the URL alone: when the lookup raises (DoesNotExist for a key no poll
    has, the value error for a key that is not a number) the exception
    leaves the handler as it is; for a poll with questions the vote is
    refused with "pls answer the all questions"; for a poll without
    questions it is accepted, whatever the state of the poll, and stores
    nothing.  The store is the same afterwards in every case. *)
Theorem vote_without_answers `{conv : PkConversion} (pk : string) (r : request.t)
    (s : db.Store) :
  request.answers (request.data r) = [] ->
  UserPollsPermission.has_permission r action.vote_in_poll = true ->
  UserPolls.post pk r s =
    match db.get_poll pk s with
    | inl e => (inl e, s)
    | inr poll =>
        match db.poll_questions poll s with
        | [] =>
            (inr {| UserPollSerializer.result_answers := [];
                    UserPollSerializer.result_anonymous_id :=
                      if truthy_int (request.anonymous_id (request.data r))
                      then request.anonymous_id (request.data r)
                      else None |}, s)
        | _ :: _ => (inl (ValidationError "pls answer the all questions"), s)
        end
    end.
Proof.
  intros Hempty Hperm. rewrite post_cases, Hperm.
  unfold UserPollSerializer.run_validation, UserPollSerializer.to_internal_value.
  rewrite Hempty. cbn [for_each_collect].
  unfold UserPollSerializer.validate.
  cbn [UserPollSerializer.answers UserPollSerializer.anonymous_id for_each_pure].
  destruct (db.get_poll pk s) as [e | poll]; [reflexivity |].
  destruct (db.poll_questions poll s) as [| q qs]; reflexivity.
Qed.

(** In the store of the fixture with a third, unpublished poll without
    questions: the empty vote of voter 42 for poll 3 is accepted, for poll
    1 it is refused, and for the key 9 of no poll DoesNotExist comes
    out. *)
Lemma vote_without_answers_witness :
  let s := with_polls (fixture.store true)
             [fixture.poll 1 true; fixture.poll 2 true; fixture.poll 3 false] in
  let r := fixture.vote [] (Some 42) in
  UserPolls.post (conv := decimal_pk) "3" r s
  = (inr {| UserPollSerializer.result_answers := [];
            UserPollSerializer.result_anonymous_id := Some 42 |}, s)
  /\ UserPolls.post (conv := decimal_pk) "1" r s
     = (inl (ValidationError "pls answer the all questions"), s)
  /\ UserPolls.post (conv := decimal_pk) "9" r s = (inl DoesNotExist, s).
Proof.
  intros s r.
  split; [| split];
    rewrite (vote_without_answers (conv := decimal_pk) _ r s eq_refl eq_refl);
    reflexivity.
Defined.
